(** * genai-file-search: ingestion pipeline and retrieval engine

    A shallow embedding of the Python sources

      - [app/service/chunking.py]       (ChunkingService)
      - [app/service/file_processor.py] (FileProcessor)
      - [app/service/embeddings.py]     (VectorStoreService)
      - [app/tasks/celery_tasks.py]      (process_file_task)
      - [app/api/search.py], [app/api/files.py], [app/schemas.py]

    Python [int] is [Z], [str] is [string] (a character is a code point
    below 256), [dict] is a [gmap string _], a finite [float] is the
    rational [Q] it denotes, with the arithmetic of IEEE 754 binary64
    (every operation rounds to nearest, ties to even).  Third-party libraries (PyPDF2, langchain, tiktoken,
    ChromaDB, the embedding and Gemini clients, ...) are not part of the
    program: they are taken as records of functions over which the program
    is parametrised. *)

From Stdlib Require Import ZArith QArith Qround Qminmax Qabs Qpower.
From Stdlib Require Import List String Ascii Bool Lia Lqa.
From stdpp Require Import gmap strings list pretty.
Import ListNotations.

Local Open Scope Z_scope.
Local Open Scope string_scope.

(** ** Python values, exceptions *)

(** The values that the program stores in its dictionaries. *)
Inductive pyval : Type :=
  | PInt (z : Z)
  | PStr (s : string).

#[global] Instance pyval_eq_dec : EqDecision pyval.
Proof. solve_decision. Defined.

Abbreviation dict := (gmap string pyval).

(** A call either returns or raises; of an exception the program only ever
    looks at [str(e)]. *)
Inductive result (A : Type) : Type :=
  | Ok (a : A)
  | Raise (msg : string).
Arguments Ok {A} a.
Arguments Raise {A} msg.

Definition rbind {A B} (r : result A) (k : A -> result B) : result B :=
  match r with
  | Ok a => k a
  | Raise m => Raise m
  end.

(** ** Strings: [str.strip], [str.join], truthiness *)

Module PyStr.

(** [str.isspace] on the code points below 256: TAB..CR, FS..US, SPACE,
    NEL and NBSP. *)
Definition is_space (c : ascii) : bool :=
  let n := N_of_ascii c in
  ((9 <=? n) && (n <=? 13) || (28 <=? n) && (n <=? 31)
   || (n =? 32) || (n =? 133) || (n =? 160))%N.

(** Truthiness of a [str]: non-empty. *)
Definition truthy (s : string) : bool :=
  match s with
  | EmptyString => false
  | String _ _ => true
  end.

Fixpoint all_space (s : string) : bool :=
  match s with
  | EmptyString => true
  | String c s' => is_space c && all_space s'
  end.

Fixpoint lstrip (s : string) : string :=
  match s with
  | EmptyString => EmptyString
  | String c s' => if is_space c then lstrip s' else s
  end.

Fixpoint rstrip (s : string) : string :=
  match s with
  | EmptyString => EmptyString
  | String c s' =>
      let r := rstrip s' in
      if is_space c && negb (truthy r) then EmptyString else String c r
  end.

Definition strip (s : string) : string := rstrip (lstrip s).

(** [sep.join(parts)] *)
Fixpoint join (sep : string) (parts : list string) : string :=
  match parts with
  | [] => ""
  | [p] => p
  | p :: ps => p ++ sep ++ join sep ps
  end.

(** [x in [a, b, ...]] for strings *)
Definition str_in (x : string) (l : list string) : bool :=
  existsb (String.eqb x) l.

End PyStr.

(** ** app/service/chunking.py *)

(** langchain's [RecursiveCharacterTextSplitter.split_text] and tiktoken's
    encoder are third-party: the chunker is parametrised by them. *)
Record Splitter : Type := {
  split_text : string -> list string;
  encode_len : string -> Z   (* len(self.encoding.encode(text)) *)
}.

Module ChunkingService.
Section Chunker.
Context (sp : Splitter).

Definition _token_length (text : string) : Z := encode_len sp text.

(** The dictionary built for the chunk at position [idx] of one
    [split_text] result. *)
Definition chunk_dict (metadata : option dict) (idx : nat) (chunk : string) : dict :=
  let d : dict :=
    <["token_count" := PInt (_token_length chunk)]>
      (<["text" := PStr chunk]>
         (<["chunk_index" := PInt (Z.of_nat idx)]> ∅)) in
  match metadata with
  | Some md => if decide (md = ∅) then d else md ∪ d   (* chunk_dict.update(metadata) *)
  | None => d
  end.

(** [for idx, chunk in enumerate(chunks)] *)
Definition enumerate {A} (l : list A) : list (nat * A) := imap (fun i a => (i, a)) l.

Definition chunk_text (text : string) (metadata : option dict) : list dict :=
  if negb (PyStr.truthy text) || negb (PyStr.truthy (PyStr.strip text)) then []
  else
    let chunks := split_text sp text in
    map (fun '(idx, chunk) => chunk_dict metadata idx chunk) (enumerate chunks).

End Chunker.
End ChunkingService.

(** ** app/service/file_processor.py *)

(** What the third-party readers deliver for the file at a path; [Raise]
    when the reader fails on it. *)
Record Parsers : Type := {
  (* PyPDF2: [page.extract_text()] of every page *)
  pdf_pages : string -> result (list string);
  (* python-docx: [para.text] of every paragraph *)
  docx_paragraphs : string -> result (list string);
  (* openpyxl: per sheet its name and its rows of cells, a cell being
     [None] or its [str(cell)] *)
  excel_sheets : string -> result (list (string * list (list (option string))));
  (* python-pptx: per slide its shapes, a shape being its [text] when it
     has that attribute *)
  pptx_slides : string -> result (list (list (option string)));
  (* [open(path, 'r', encoding='utf-8', errors='ignore').read()] *)
  read_text : string -> result string;
  (* pandas: [df.to_string(index=False)], [len(df)], [len(df.columns)] *)
  csv_frame : string -> result (string * Z * Z);
  (* pytesseract on the opened image *)
  image_ocr : string -> result string;
  (* [json.dumps(json.load(file), indent=2)] *)
  json_pretty : string -> result string;
  (* [ET.tostring(root, encoding='unicode', method='text')] *)
  xml_text : string -> result string
}.

(** A document fragment: [{"text": ..., "metadata": {...}}]. *)
Record document : Type := {
  text : string;
  metadata : dict
}.

Module FileProcessor.
Section Extractor.
Context (P : Parsers).

Definition _process_pdf (file_path : string) : result (list document) :=
  rbind (pdf_pages P file_path) (fun pages =>
    Ok (omap (fun '(page_num, t) =>
                if PyStr.truthy (PyStr.strip t)
                then Some {| text := t;
                             metadata := {[ "page_number" := PInt (Z.of_nat page_num + 1) ]} |}
                else None)
             (ChunkingService.enumerate pages))).

Definition _process_docx (file_path : string) : result (list document) :=
  rbind (docx_paragraphs P file_path) (fun paras =>
    let t := PyStr.join (String "010" (String "010" ""))
               (filter (fun p => PyStr.truthy (PyStr.strip p) = true) paras) in
    Ok [ {| text := t; metadata := ∅ |} ]).

Definition cell_str (cell : option string) : string :=
  match cell with
  | Some s => s
  | None => ""
  end.

Definition sheet_rows (rows : list (list (option string))) : list string :=
  filter (fun row_text => PyStr.truthy (PyStr.strip row_text) = true)
         (map (fun row => PyStr.join " | " (map cell_str row)) rows).

Definition _process_excel (file_path : string) : result (list document) :=
  rbind (excel_sheets P file_path) (fun sheets =>
    Ok (omap (fun '(sheet_name, sheet) =>
                let rows := sheet_rows sheet in
                match rows with
                | [] => None
                | _ => Some {| text := PyStr.join (String "010" "") rows;
                               metadata := {[ "sheet_name" := PStr sheet_name ]} |}
                end)
             sheets)).

Definition slide_text_parts (shapes : list (option string)) : list string :=
  omap (fun shape =>
          match shape with
          | Some t => if PyStr.truthy (PyStr.strip t) then Some t else None
          | None => None
          end) shapes.

Definition _process_pptx (file_path : string) : result (list document) :=
  rbind (pptx_slides P file_path) (fun slides =>
    Ok (omap (fun '(slide_num, shapes) =>
                let text_parts := slide_text_parts shapes in
                match text_parts with
                | [] => None
                | _ => Some {| text := PyStr.join (String "010" "") text_parts;
                               metadata := {[ "slide_number" := PInt (Z.of_nat slide_num + 1) ]} |}
                end)
             (ChunkingService.enumerate slides))).

Definition _process_txt (file_path : string) : result (list document) :=
  rbind (read_text P file_path) (fun t => Ok [ {| text := t; metadata := ∅ |} ]).

Definition _process_csv (file_path : string) : result (list document) :=
  rbind (csv_frame P file_path) (fun '(t, nrows, ncols) =>
    Ok [ {| text := t;
            metadata := <["rows" := PInt nrows]> {[ "columns" := PInt ncols ]} |} ]).

Definition _process_image (file_path : string) : result (list document) :=
  rbind (image_ocr P file_path) (fun t => Ok [ {| text := t; metadata := ∅ |} ]).

Definition _process_json (file_path : string) : result (list document) :=
  rbind (json_pretty P file_path) (fun t => Ok [ {| text := t; metadata := ∅ |} ]).

Definition _process_xml (file_path : string) : result (list document) :=
  rbind (xml_text P file_path) (fun t => Ok [ {| text := t; metadata := ∅ |} ]).

Definition _process_sql (file_path : string) : result (list document) :=
  rbind (read_text P file_path) (fun t => Ok [ {| text := t; metadata := ∅ |} ]).

(** The [try ... except Exception: log; raise] wrapper re-raises, so it
    is the identity on results. *)
Definition process_file (file_path file_type : string) : result (list document) :=
  if file_type =? ".pdf" then _process_pdf file_path
  else if PyStr.str_in file_type [".doc"; ".docx"] then _process_docx file_path
  else if PyStr.str_in file_type [".xls"; ".xlsx"] then _process_excel file_path
  else if PyStr.str_in file_type [".ppt"; ".pptx"] then _process_pptx file_path
  else if file_type =? ".txt" then _process_txt file_path
  else if file_type =? ".csv" then _process_csv file_path
  else if PyStr.str_in file_type [".jpg"; ".jpeg"; ".png"; ".bmp"; ".tiff"]
       then _process_image file_path
  else if file_type =? ".json" then _process_json file_path
  else if file_type =? ".xml" then _process_xml file_path
  else if file_type =? ".sql" then _process_sql file_path
  else Raise ("Unsupported file type: " ++ file_type).

End Extractor.
End FileProcessor.

(** ** app/models.py *)

Module models.

Record Category : Type := {
  cat_id : Z;
  name : string;
  description : option string
}.

(** [File.status] is a [String] column holding one of "pending",
    "processing", "completed", "failed"; timestamps are seconds. *)
Record File : Type := {
  id : Z;
  filename : string;
  original_filename : string;
  file_path : string;
  file_type : string;
  file_size : Z;
  category_id : Z;
  status : string;
  task_id : option string;
  error_message : option string;
  total_chunks : Z;
  processed_at : option Z;
  created_at : Z
}.

(** A row of the [chunks] table; [chunk_text] and [page_number] hold
    whatever the chunk dictionary held under "text" and "page_number". *)
Record Chunk : Type := {
  file_id : Z;
  chunk_id : string;
  chunk_text : pyval;
  chunk_index : Z;
  page_number : option pyval
}.

(** The relational store: the three tables. *)
Record database : Type := {
  categories : gmap Z Category;
  files : gmap Z File;
  chunks : list Chunk
}.

Definition set_files (fs : gmap Z File) (db : database) : database :=
  {| categories := categories db; files := fs; chunks := chunks db |}.

Definition set_chunks (cs : list Chunk) (db : database) : database :=
  {| categories := categories db; files := files db; chunks := cs |}.

(** Attribute assignments on a [File] object. *)
Definition with_status (s : string) (f : File) : File :=
  {| id := id f; filename := filename f; original_filename := original_filename f;
     file_path := file_path f; file_type := file_type f; file_size := file_size f;
     category_id := category_id f; status := s; task_id := task_id f;
     error_message := error_message f; total_chunks := total_chunks f;
     processed_at := processed_at f; created_at := created_at f |}.

Definition with_error_message (m : string) (f : File) : File :=
  {| id := id f; filename := filename f; original_filename := original_filename f;
     file_path := file_path f; file_type := file_type f; file_size := file_size f;
     category_id := category_id f; status := status f; task_id := task_id f;
     error_message := Some m; total_chunks := total_chunks f;
     processed_at := processed_at f; created_at := created_at f |}.

Definition with_total_chunks (n : Z) (f : File) : File :=
  {| id := id f; filename := filename f; original_filename := original_filename f;
     file_path := file_path f; file_type := file_type f; file_size := file_size f;
     category_id := category_id f; status := status f; task_id := task_id f;
     error_message := error_message f; total_chunks := n;
     processed_at := processed_at f; created_at := created_at f |}.

Definition with_processed_at (t : Z) (f : File) : File :=
  {| id := id f; filename := filename f; original_filename := original_filename f;
     file_path := file_path f; file_type := file_type f; file_size := file_size f;
     category_id := category_id f; status := status f; task_id := task_id f;
     error_message := error_message f; total_chunks := total_chunks f;
     processed_at := Some t; created_at := created_at f |}.

(** The row [upload_file] creates (app/api/files.py): the column defaults
    give [total_chunks = 0] and no error, task or processing time. *)
Definition new_file (fid : Z) (unique_filename fname path ext : string)
    (size cat now : Z) : File :=
  {| id := fid; filename := unique_filename; original_filename := fname;
     file_path := path; file_type := ext; file_size := size;
     category_id := cat; status := "pending"; task_id := None;
     error_message := None; total_chunks := 0; processed_at := None;
     created_at := now |}.

End models.

(** ** app/service/embeddings.py: VectorStoreService over ChromaDB *)

(** An embedding vector. *)
Definition vector : Type := list Q.

(** One entry of the Chroma collection. *)
Record ventry : Type := {
  ve_id : string;
  ve_document : pyval;
  ve_embedding : vector;
  ve_metadata : dict
}.

Abbreviation collection := (list ventry).

(** The dictionary [collection.query] returns: lists of lists (one inner
    list per query embedding); the "distances" key may be missing. *)
Record query_result : Type := {
  ids : list (list string);
  documents : list (list pyval);
  metadatas : list (list dict);
  distances : option (list (list Q))
}.

(** The ChromaDB client: [None]/[Raise] when the call raises. *)
Record Chroma : Type := {
  (* [collection.add(ids=, documents=, embeddings=, metadatas=)]: the
     collection afterwards *)
  collection_add :
    collection -> list string -> list pyval -> list vector -> list dict -> option collection;
  (* [collection.query(query_embeddings=[v], n_results=n,
     where={"category_id": c})], as [collection_query coll v n c] *)
  collection_query :
    collection -> vector -> Z -> Z -> result query_result
}.

(** The entries one [collection.add(ids, documents, embeddings, metadatas)]
    call describes, position by position. *)
Fixpoint entries_of (a : list string) (b : list pyval) (c : list vector) (d : list dict)
    : collection :=
  match a, b, c, d with
  | i :: a', t :: b', e :: c', m :: d' =>
      {| ve_id := i; ve_document := t; ve_embedding := e; ve_metadata := m |}
      :: entries_of a' b' c' d'
  | _, _, _, _ => []
  end.

Definition same_lengths (a : list string) (b : list pyval) (c : list vector)
    (d : list dict) : bool :=
  (length b =? length a)%nat && (length c =? length a)%nat
  && (length d =? length a)%nat.

(** What the program relies on when [collection.add] returns: the lists had
    one length and the collection gained exactly the entries described. *)
Definition add_contract (C : Chroma) : Prop :=
  forall coll i t e m coll',
    collection_add C coll i t e m = Some coll' ->
    same_lengths i t e m = true /\ coll' = (coll ++ entries_of i t e m)%list.

(** One formatted search result:
    [{"chunk_id": .., "text": .., "metadata": .., "distance": ..}]. *)
Record hit : Type := {
  hit_chunk_id : string;
  hit_text : pyval;
  hit_metadata : dict;
  hit_distance : Q
}.

Module VectorStoreService.
Section Store.
Context (C : Chroma).

(** Returns the success flag and the collection afterwards. *)
Definition add_chunks (coll : collection) (chunk_ids : list string)
    (texts : list pyval) (embeddings : list vector) (metas : list dict)
    : bool * collection :=
  match collection_add C coll chunk_ids texts embeddings metas with
  | Some coll' => (true, coll')
  | None => (false, coll)
  end.

(** [xs[0][i]]: [None] is an [IndexError]. *)
Definition at0 {A} (xs : list (list A)) (i : nat) : option A :=
  match xs with
  | [] => None
  | x0 :: _ => x0 !! i
  end.

Definition format_result (results : query_result) (i : nat) : option hit :=
  cid ← at0 (ids results) i;
  doc ← at0 (documents results) i;
  md ← at0 (metadatas results) i;
  dist ← match distances results with
         | Some ds => at0 ds i
         | None => Some 0%Q
         end;
  Some {| hit_chunk_id := cid; hit_text := doc; hit_metadata := md; hit_distance := dist |}.

Definition search (coll : collection) (query_embedding : vector)
    (category_id top_k : Z) : list hit :=
  match collection_query C coll query_embedding top_k category_id with
  | Raise _ => []
  | Ok results =>
      match ids results with
      | [] => []
      | [] :: _ => []
      | ids0 :: _ =>
          match mapM (format_result results) (seq 0 (length ids0)) with
          | Some formatted_results => formatted_results
          | None => []   (* an exception inside the loop *)
          end
      end
  end.

End Store.
End VectorStoreService.

(** ** The embedding and answer-synthesis clients *)

(** [embeddings_service] and [gemini_service] wrap remote models; the
    program only calls them.  A pair is [(text, confidence)]. *)
Record Services : Type := {
  generate_embedding : string -> result vector;
  generate_embeddings_batch : list pyval -> result (list vector);
  generate_answer : string -> list pyval -> result (string * Q);
  answer_question : string -> list pyval -> result (string * Q)
}.

(** ** app/tasks/celery_tasks.py *)

Module celery_tasks.

(** The SQLAlchemy session: the objects as the task sees them and the
    committed database; together with the Chroma collection. *)
Record world : Type := {
  live : models.database;
  durable : models.database;
  store : collection;
  commits : list models.database   (* the states committed so far, oldest first *)
}.

(** [SessionLocal()] on a database, next to a collection. *)
Definition initial_world (db : models.database) (coll : collection) : world :=
  {| live := db; durable := db; store := coll; commits := [] |}.

(** The task's computations: state passing with exceptions.  A raised
    exception keeps the state reached. *)
Definition M (A : Type) : Type := world -> result A * world.

Definition ret {A} (a : A) : M A := fun w => (Ok a, w).

Definition bind {A B} (c : M A) (k : A -> M B) : M B :=
  fun w =>
    match c w with
    | (Ok a, w') => k a w'
    | (Raise m, w') => (Raise m, w')
    end.

Definition lift {A} (r : result A) : M A := fun w => (r, w).

Declare Scope task_scope.
Delimit Scope task_scope with task.
Notation "x <- c ;; k" := (bind c (fun x => k))
  (at level 100, c at next level, right associativity) : task_scope.
Notation "c ;; k" := (bind c (fun _ => k))
  (at level 100, right associativity) : task_scope.

(** [db.commit()] *)
Definition commit : M unit :=
  fun w => (Ok tt, {| live := live w; durable := live w; store := store w;
                      commits := (commits w ++ [live w])%list |}).

(** An attribute assignment on the [File] object with this id. *)
Definition update_file (file_id : Z) (f : models.File -> models.File) : M unit :=
  fun w =>
    (Ok tt,
     {| live := models.set_files (alter f file_id (models.files (live w))) (live w);
        durable := durable w; store := store w; commits := commits w |}).

(** [db.add(db_chunk)] for each of the rows, in order. *)
Definition add_all (rows : list models.Chunk) : M unit :=
  fun w =>
    (Ok tt,
     {| live := models.set_chunks (models.chunks (live w) ++ rows)%list (live w);
        durable := durable w; store := store w; commits := commits w |}).

(** [{"status": "error", "message": m}] *)
Definition error_outcome (m : string) : dict :=
  <["status" := PStr "error"]> {[ "message" := PStr m ]}.

(** [{"status": "success", "file_id": .., "total_chunks": ..}] *)
Definition success_outcome (file_id n : Z) : dict :=
  <["status" := PStr "success"]>
    (<["file_id" := PInt file_id]> {[ "total_chunks" := PInt n ]}).

(** [chunk[key]]: a missing key raises [KeyError(key)], whose [str] is
    the quoted key. *)
Definition getitem (chunk : dict) (key : string) : result pyval :=
  match chunk !! key with
  | Some v => Ok v
  | None => Raise ("'" ++ key ++ "'")
  end.

Fixpoint getitems (chunks : list dict) (key : string) : result (list pyval) :=
  match chunks with
  | [] => Ok []
  | c :: cs =>
      rbind (getitem c key) (fun v =>
      rbind (getitems cs key) (fun vs => Ok (v :: vs)))
  end.

Section Task.
Context (P : Parsers) (sp : Splitter) (E : Services) (C : Chroma).
(** [uuid.uuid4().hex[:8]] as drawn for the chunk at each position. *)
Context (uuid8 : nat -> string).
(** [datetime.utcnow()] at completion. *)
Context (utcnow : Z).

(** Step 2: chunk every document, concatenating. *)
Definition all_chunks_of (documents : list document) : list dict :=
  flat_map (fun doc => ChunkingService.chunk_text sp (text doc) (Some (metadata doc)))
           documents.

(** [f"file_{file_id}_chunk_{idx}_{uuid.uuid4().hex[:8]}"] *)
Definition make_chunk_id (file_id : Z) (idx : nat) : string :=
  "file_" ++ pretty file_id ++ "_chunk_" ++ pretty idx ++ "_" ++ uuid8 idx.

(** The [Chunk] row built in the loop of step 4. *)
Definition db_chunk (file_id : Z) (idx : nat) (chunk : dict) (txt : pyval)
    : models.Chunk :=
  {| models.file_id := file_id;
     models.chunk_id := make_chunk_id file_id idx;
     models.chunk_text := txt;
     models.chunk_index := Z.of_nat idx;
     models.page_number := chunk !! "page_number" |}.

(** The vector-store metadata built in the loop of step 4. *)
Definition chunk_metadata (file_id category_id : Z) (idx : nat) (chunk : dict) : dict :=
  <["file_id" := PInt file_id]>
    (<["category_id" := PInt category_id]>
       (<["chunk_index" := PInt (Z.of_nat idx)]>
          {[ "page_number" := default (PInt 0) (chunk !! "page_number") ]})).

(** The rows of [for idx, chunk in enumerate(all_chunks)]; [chunk["text"]]
    was already read into [chunk_texts]. *)
Definition db_chunks (file_id : Z) (all_chunks : list dict) (chunk_texts : list pyval)
    : list models.Chunk :=
  imap (fun idx '(chunk, txt) => db_chunk file_id idx chunk txt)
       (zip all_chunks chunk_texts).

Definition chunk_ids_of (file_id : Z) (all_chunks : list dict) : list string :=
  imap (fun idx _ => make_chunk_id file_id idx) all_chunks.

Definition chunk_metadatas_of (file_id category_id : Z) (all_chunks : list dict)
    : list dict :=
  imap (fun idx chunk => chunk_metadata file_id category_id idx chunk) all_chunks.

(** [vector_store_service.add_chunks(...)] on the task's collection. *)
Definition store_add (chunk_ids : list string) (texts : list pyval)
    (embeddings : list vector) (metas : list dict) : M bool :=
  fun w =>
    let '(success, coll') :=
      VectorStoreService.add_chunks C (store w) chunk_ids texts embeddings metas in
    (Ok success, {| live := live w; durable := durable w; store := coll';
                    commits := commits w |}).

Local Open Scope task_scope.

(** The body of the [try] block. *)
Definition try_body (file_id : Z) : M dict :=
  fun w =>
  match models.files (live w) !! file_id with
  | None => ret (error_outcome "File not found") w
  | Some file =>
    (update_file file_id (models.with_status "processing") ;;
     commit ;;
     (* Step 1: extract text from file *)
     documents <- lift (FileProcessor.process_file P (models.file_path file)
                                                   (models.file_type file)) ;;
     match documents with
     | [] =>
         update_file file_id (models.with_status "failed") ;;
         update_file file_id (models.with_error_message "No text extracted from file") ;;
         commit ;;
         ret (error_outcome "No text extracted")
     | _ =>
       (* Step 2: chunk documents *)
       let all_chunks := all_chunks_of documents in
       match all_chunks with
       | [] =>
           update_file file_id (models.with_status "failed") ;;
           update_file file_id (models.with_error_message "No chunks created") ;;
           commit ;;
           ret (error_outcome "No chunks created")
       | _ =>
         (* Step 3: generate embeddings *)
         chunk_texts <- lift (getitems all_chunks "text") ;;
         embeddings <- lift (generate_embeddings_batch E chunk_texts) ;;
         (* Step 4: store in database *)
         let chunk_ids := chunk_ids_of file_id all_chunks in
         let chunk_metadatas :=
           chunk_metadatas_of file_id (models.category_id file) all_chunks in
         add_all (db_chunks file_id all_chunks chunk_texts) ;;
         commit ;;
         (* Step 5: add to vector store *)
         success <- store_add chunk_ids chunk_texts embeddings chunk_metadatas ;;
         if negb success then
           update_file file_id (models.with_status "failed") ;;
           update_file file_id (models.with_error_message "Failed to add to vector store") ;;
           commit ;;
           ret (error_outcome "Failed to add to vector store")
         else
           update_file file_id (models.with_status "completed") ;;
           update_file file_id
             (models.with_total_chunks (Z.of_nat (length all_chunks))) ;;
           update_file file_id (models.with_processed_at utcnow) ;;
           commit ;;
           ret (success_outcome file_id (Z.of_nat (length all_chunks)))
       end
     end) w
  end.

(** The [except Exception as e] block. *)
Definition except_handler (file_id : Z) (e : string) : M dict :=
  fun w =>
  match models.files (live w) !! file_id with
  | Some _ =>
      (update_file file_id (models.with_status "failed") ;;
       update_file file_id (models.with_error_message e) ;;
       commit ;;
       ret (error_outcome e)) w
  | None => ret (error_outcome e) w
  end.

(** The [try] block and its [except] block, on a fresh session.  An
    exception escaping the handler would be the [Raise] case. *)
Definition run_task (file_id : Z) (db : models.database) (coll : collection)
    : result dict * world :=
  match try_body file_id (initial_world db coll) with
  | (Ok out, w) => (Ok out, w)
  | (Raise e, w) => except_handler file_id e w
  end.

(** The task, from [SessionLocal()] to [db.close()]: what it returns, the
    database and the collection it leaves. *)
Definition process_file_task (file_id : Z) (db : models.database) (coll : collection)
    : result dict * (models.database * collection) :=
  let '(r, w) := run_task file_id db coll in
  (r, (durable w, store w)).

(** The states of the database the task has committed, in order: what a
    poller of the file's status can see while and after the task runs. *)
Definition committed_states (file_id : Z) (db : models.database) (coll : collection)
    : list models.database :=
  commits (snd (run_task file_id db coll)).

End Task.
End celery_tasks.

(** ** app/schemas.py *)

Module schemas.

Record SearchRequest : Type := {
  query : string;
  category_id : Z;
  top_k : Z
}.

Record SearchResult : Type := {
  chunk_id : string;
  text : pyval;
  confidence_score : Q
}.

Record SearchResponse : Type := {
  answer : string;
  sr_confidence_score : Q;
  results : list SearchResult
}.

Record SummarizeRequest : Type := {
  sum_category_id : Z;
  max_length : option Z
}.

Record QARequest : Type := {
  question : string;
  qa_category_id : Z;
  qa_top_k : Z
}.

Record QAResponse : Type := {
  qa_answer : string;
  qa_confidence_score : Q;
  relevant_chunks : list SearchResult
}.

Record FindPassagesRequest : Type := {
  fp_query : string;
  fp_category_id : Z;
  fp_top_k : Z
}.

Record FindPassagesResponse : Type := {
  passages : list SearchResult;
  total_found : Z
}.

Record FileListResponse : Type := {
  fl_id : Z;
  fl_filename : string;
  fl_original_filename : string;
  fl_file_type : string;
  fl_file_size : Z;
  fl_category_id : Z;
  category_name : string;
  fl_status : string;
  fl_total_chunks : Z;
  fl_created_at : Z
}.

(** *** Field validation

    A request body as it arrives: a field is absent ([None]) or holds a
    value of the declared type; for [Optional[int]] a present field may
    hold [null]. *)

(** [int = Field(default=d, ge=lo, le=hi)]; [d = None] is [Field(...)],
    a required field.  Defaults are not validated. *)
Definition int_field (default : option Z) (bounds : option (Z * Z)) (v : option Z)
    : result Z :=
  match v with
  | None =>
      match default with
      | Some d => Ok d
      | None => Raise "Field required"
      end
  | Some z =>
      match bounds with
      | None => Ok z
      | Some (lo, hi) =>
          if (z <? lo)%Z then Raise "Input should be greater than or equal to the bound"
          else if (hi <? z)%Z then Raise "Input should be less than or equal to the bound"
          else Ok z
      end
  end.

(** [Optional[int] = Field(default=d, ge=lo, le=hi)] *)
Definition optional_int_field (default : Z) (lo hi : Z) (v : option (option Z))
    : result (option Z) :=
  match v with
  | None => Ok (Some default)
  | Some None => Ok None
  | Some (Some z) => rbind (int_field None (Some (lo, hi)) (Some z)) (fun z => Ok (Some z))
  end.

(** [str = Field(..., min_length=1)] *)
Definition nonempty_str_field (v : option string) : result string :=
  match v with
  | None => Raise "Field required"
  | Some s =>
      if (String.length s <? 1)%nat then Raise "String should have at least 1 character"
      else Ok s
  end.

Record SearchRequest_body : Type := {
  b_query : option string;
  b_category_id : option Z;
  b_top_k : option Z
}.

Definition validate_SearchRequest (b : SearchRequest_body) : result SearchRequest :=
  rbind (nonempty_str_field (b_query b)) (fun q =>
  rbind (int_field None None (b_category_id b)) (fun c =>
  rbind (int_field (Some 5) (Some (1, 20)) (b_top_k b)) (fun k =>
  Ok {| query := q; category_id := c; top_k := k |}))).

Record SummarizeRequest_body : Type := {
  b_sum_category_id : option Z;
  b_max_length : option (option Z)
}.

Definition validate_SummarizeRequest (b : SummarizeRequest_body)
    : result SummarizeRequest :=
  rbind (int_field None None (b_sum_category_id b)) (fun c =>
  rbind (optional_int_field 500 100 2000 (b_max_length b)) (fun m =>
  Ok {| sum_category_id := c; max_length := m |})).

Record QARequest_body : Type := {
  b_question : option string;
  b_qa_category_id : option Z;
  b_qa_top_k : option Z
}.

Definition validate_QARequest (b : QARequest_body) : result QARequest :=
  rbind (nonempty_str_field (b_question b)) (fun q =>
  rbind (int_field None None (b_qa_category_id b)) (fun c =>
  rbind (int_field (Some 5) (Some (1, 20)) (b_qa_top_k b)) (fun k =>
  Ok {| question := q; qa_category_id := c; qa_top_k := k |}))).

Record FindPassagesRequest_body : Type := {
  b_fp_query : option string;
  b_fp_category_id : option Z;
  b_fp_top_k : option Z
}.

Definition validate_FindPassagesRequest (b : FindPassagesRequest_body)
    : result FindPassagesRequest :=
  rbind (nonempty_str_field (b_fp_query b)) (fun q =>
  rbind (int_field None None (b_fp_category_id b)) (fun c =>
  rbind (int_field (Some 10) (Some (1, 50)) (b_fp_top_k b)) (fun k =>
  Ok {| fp_query := q; fp_category_id := c; fp_top_k := k |}))).

End schemas.

(** ** Python floats

    A [float] is an IEEE 754 binary64 number.  A finite one is read as the
    rational it denotes; an arithmetic operation computes the exact result
    and rounds it to the nearest binary64 number, ties to the even
    significand.  Overflow, infinities and NaN are outside the model. *)

Module python_float.
Local Open Scope Q_scope.

(** To the nearest integer, ties to the even one. *)
Definition round_half_even (x : Q) : Z :=
  let f := Qfloor x in
  match (x - inject_Z f ?= 1 # 2)%Q with
  | Lt => f
  | Gt => (f + 1)%Z
  | Eq => if Z.even f then f else (f + 1)%Z
  end.

(** [floor(log2 |x|)] of a number other than 0. *)
Definition ilog2 (x : Q) : Z :=
  let e := (Z.log2 (Z.abs (Qnum x)) - Z.log2 (Zpos (Qden x)))%Z in
  if Qlt_le_dec (Qabs x) (2 ^ e) then (e - 1)%Z else e.

(** The exponent of the unit in the last place at [x]: 53 significant
    bits, and [2^-1074] in the subnormal range. *)
Definition ulp_exponent (x : Q) : Z := Z.max (ilog2 x - 52) (-1074).

(** The binary64 number nearest to [x], ties to even. *)
Definition nearest (x : Q) : Q :=
  let ulp := 2 ^ ulp_exponent x in
  inject_Z (round_half_even (x / ulp)) * ulp.

(** [x - y] and [x / y] on floats. *)
Definition sub (x y : Q) : Q := nearest (x - y).
Definition div (x y : Q) : Q := nearest (x / y).

(** [round(x, 2)]: CPython rounds the exact value of [x] to two decimals,
    ties to even, and returns the float nearest to that decimal. *)
Definition round2 (x : Q) : Q := nearest (inject_Z (round_half_even (x * 100)) / 100).

End python_float.

(** ** app/api/search.py *)

(** What an endpoint gives back: a response model or an [HTTPException]. *)
Inductive http (A : Type) : Type :=
  | Response (a : A)
  | HTTPException (status_code : Z) (detail : string).
Arguments Response {A} a.
Arguments HTTPException {A} status_code detail.

(** The calls an endpoint makes to the services outside the process, in
    the order it makes them. *)
Inductive call : Type :=
  | CallEmbedding (text : string)
  | CallVectorSearch (category_id top_k : Z)
  | CallGenerateAnswer (query : string) (context_chunks : list pyval)
  | CallAnswerQuestion (question : string) (context_chunks : list pyval).

Definition is_synthesis (c : call) : bool :=
  match c with
  | CallGenerateAnswer _ _ | CallAnswerQuestion _ _ => true
  | _ => false
  end.

Module search.

(** Python's two-argument [max(a, b)] and [min(a, b)]: the first
    argument unless the second is strictly beyond it. *)
Definition py_max (a b : Q) : Q := if Qlt_le_dec a b then b else a.
Definition py_min (a b : Q) : Q := if Qlt_le_dec b a then b else a.

Definition distance_to_confidence (distance : Q) : Q :=
  let confidence :=
    py_max 0 (py_min 1 (python_float.sub 1 (python_float.div distance 2))) in
  python_float.round2 confidence.

(** The formula in the words of the specification, over exact numbers:
    the clamp, and what it is for a float [r] to be [x] rounded to two
    decimal places (the float of a two-decimal number nearest to [x]). *)
Definition clamp (x lo hi : Q) : Q := Qmax lo (Qmin x hi).
Definition rounded_to_2_decimals (r x : Q) : Prop :=
  exists k : Z,
    (r == python_float.nearest (inject_Z k / 100))%Q
    /\ (Qabs (x - inject_Z k / 100) <= 1 # 200)%Q.

Section Endpoints.
Context (E : Services) (C : Chroma).

Definition format_results (search_results : list hit) : list schemas.SearchResult :=
  map (fun result =>
         {| schemas.chunk_id := hit_chunk_id result;
            schemas.text := hit_text result;
            schemas.confidence_score := distance_to_confidence (hit_distance result) |})
      search_results.

(** [POST /api/search/query]: the response and the service calls made. *)
Definition search_query (request : schemas.SearchRequest) (db : models.database)
    (coll : collection) : http schemas.SearchResponse * list call :=
  match models.categories db !! schemas.category_id request with
  | None => (HTTPException 404 "Category not found", [])
  | Some _ =>
    let t1 := [CallEmbedding (schemas.query request)] in
    match generate_embedding E (schemas.query request) with
    | Raise e => (HTTPException 500 ("Search error: " ++ e), t1)
    | Ok query_embedding =>
      let search_results :=
        VectorStoreService.search C coll query_embedding
          (schemas.category_id request) (schemas.top_k request) in
      let t2 := (t1 ++ [CallVectorSearch (schemas.category_id request)
                                        (schemas.top_k request)])%list in
      match search_results with
      | [] =>
          (Response {| schemas.answer := "No relevant documents found for your query.";
                       schemas.sr_confidence_score := 0;
                       schemas.results := [] |}, t2)
      | _ =>
        let context_chunks := map hit_text search_results in
        let t3 := (t2 ++ [CallGenerateAnswer (schemas.query request) context_chunks])%list in
        match generate_answer E (schemas.query request) context_chunks with
        | Raise e => (HTTPException 500 ("Search error: " ++ e), t3)
        | Ok (answer, confidence) =>
            (Response {| schemas.answer := answer;
                         schemas.sr_confidence_score := confidence;
                         schemas.results := format_results search_results |}, t3)
        end
      end
    end
  end.

(** [POST /api/search/qa] *)
Definition question_answer (request : schemas.QARequest) (db : models.database)
    (coll : collection) : http schemas.QAResponse * list call :=
  match models.categories db !! schemas.qa_category_id request with
  | None => (HTTPException 404 "Category not found", [])
  | Some _ =>
    let t1 := [CallEmbedding (schemas.question request)] in
    match generate_embedding E (schemas.question request) with
    | Raise e => (HTTPException 500 ("Q&A error: " ++ e), t1)
    | Ok query_embedding =>
      let search_results :=
        VectorStoreService.search C coll query_embedding
          (schemas.qa_category_id request) (schemas.qa_top_k request) in
      let t2 := (t1 ++ [CallVectorSearch (schemas.qa_category_id request)
                                        (schemas.qa_top_k request)])%list in
      match search_results with
      | [] =>
          (Response {| schemas.qa_answer :=
                         "I couldn't find relevant information to answer your question.";
                       schemas.qa_confidence_score := 0;
                       schemas.relevant_chunks := [] |}, t2)
      | _ =>
        let context_chunks := map hit_text search_results in
        let t3 := (t2 ++ [CallAnswerQuestion (schemas.question request) context_chunks])%list in
        match answer_question E (schemas.question request) context_chunks with
        | Raise e => (HTTPException 500 ("Q&A error: " ++ e), t3)
        | Ok (answer, confidence) =>
            (Response {| schemas.qa_answer := answer;
                         schemas.qa_confidence_score := confidence;
                         schemas.relevant_chunks := format_results search_results |}, t3)
        end
      end
    end
  end.

(** [POST /api/search/find-passages] *)
Definition find_passages (request : schemas.FindPassagesRequest) (db : models.database)
    (coll : collection) : http schemas.FindPassagesResponse * list call :=
  match models.categories db !! schemas.fp_category_id request with
  | None => (HTTPException 404 "Category not found", [])
  | Some _ =>
    let t1 := [CallEmbedding (schemas.fp_query request)] in
    match generate_embedding E (schemas.fp_query request) with
    | Raise e => (HTTPException 500 ("Find passages error: " ++ e), t1)
    | Ok query_embedding =>
      let search_results :=
        VectorStoreService.search C coll query_embedding
          (schemas.fp_category_id request) (schemas.fp_top_k request) in
      let t2 := (t1 ++ [CallVectorSearch (schemas.fp_category_id request)
                                        (schemas.fp_top_k request)])%list in
      let passages := format_results search_results in
      (Response {| schemas.passages := passages;
                   schemas.total_found := Z.of_nat (length passages) |}, t2)
    end
  end.

End Endpoints.
End search.

(** ** app/api/files.py *)

Module files.

(** Truthiness of [category_id: int = None]. *)
Definition truthy_id (category_id : option Z) : bool :=
  match category_id with
  | None => false
  | Some z => negb (z =? 0)%Z
  end.

(** [query.all()] of [db.query(File)], possibly filtered. *)
Definition query_files (category_id : option Z) (db : models.database)
    : list models.File :=
  let all := map snd (map_to_list (models.files db)) in
  if truthy_id category_id
  then filter (fun f => Some (models.category_id f) = category_id) all
  else all.

(** One [FileListResponse]; [file.category.name] raises on a file whose
    category row is missing. *)
Definition file_response (db : models.database) (file : models.File)
    : result schemas.FileListResponse :=
  match models.categories db !! models.category_id file with
  | None => Raise "'NoneType' object has no attribute 'name'"
  | Some cat =>
      Ok {| schemas.fl_id := models.id file;
            schemas.fl_filename := models.filename file;
            schemas.fl_original_filename := models.original_filename file;
            schemas.fl_file_type := models.file_type file;
            schemas.fl_file_size := models.file_size file;
            schemas.fl_category_id := models.category_id file;
            schemas.category_name := models.name cat;
            schemas.fl_status := models.status file;
            schemas.fl_total_chunks := models.total_chunks file;
            schemas.fl_created_at := models.created_at file |}
  end.

Fixpoint responses (db : models.database) (fs : list models.File)
    : result (list schemas.FileListResponse) :=
  match fs with
  | [] => Ok []
  | f :: fs' =>
      rbind (file_response db f) (fun r =>
      rbind (responses db fs') (fun rs => Ok (r :: rs)))
  end.

(** [GET /api/files/list] *)
Definition list_files (category_id : option Z) (db : models.database)
    : result (list schemas.FileListResponse) :=
  responses db (query_files category_id db).

End files.

(** ** The task in direct style

    The same computation written as one expression over the initial
    database: which outcome, database and collection a run leaves, stage by
    stage.  [process_file_task] is proved equal to it below. *)

Module task_spec.
Section Spec.
Context (P : Parsers) (sp : Splitter) (E : Services) (C : Chroma).
Context (uuid8 : nat -> string) (utcnow : Z).

(** An attribute assignment on the row of a file, committed. *)
Definition mark (file_id : Z) (f : models.File -> models.File) (db : models.database)
    : models.database :=
  models.set_files (alter f file_id (models.files db)) db.

Definition processing_db (file_id : Z) (db : models.database) : models.database :=
  mark file_id (models.with_status "processing") db.

Definition failed_db (file_id : Z) (msg : string) (db : models.database)
    : models.database :=
  mark file_id (models.with_error_message msg)
    (mark file_id (models.with_status "failed") db).

Definition completed_db (file_id n : Z) (db : models.database) : models.database :=
  mark file_id (models.with_processed_at utcnow)
    (mark file_id (models.with_total_chunks n)
       (mark file_id (models.with_status "completed") db)).

Definition with_rows (rows : list models.Chunk) (db : models.database)
    : models.database :=
  models.set_chunks (models.chunks db ++ rows)%list db.

(** The run once the chunks and their embeddings are there. *)
Definition store_stage (file_id : Z) (file : models.File) (db1 : models.database)
    (coll : collection) (all_chunks : list dict) (chunk_texts : list pyval)
    (embeddings : list vector) : dict * (models.database * collection) :=
  let db2 := with_rows (celery_tasks.db_chunks uuid8 file_id all_chunks chunk_texts) db1 in
  match collection_add C coll
          (celery_tasks.chunk_ids_of uuid8 file_id all_chunks) chunk_texts embeddings
          (celery_tasks.chunk_metadatas_of file_id (models.category_id file) all_chunks)
  with
  | None =>
      (celery_tasks.error_outcome "Failed to add to vector store",
       (failed_db file_id "Failed to add to vector store" db2, coll))
  | Some coll' =>
      (celery_tasks.success_outcome file_id (Z.of_nat (length all_chunks)),
       (completed_db file_id (Z.of_nat (length all_chunks)) db2, coll'))
  end.

(** The run from the chunks on. *)
Definition embed_stage (file_id : Z) (file : models.File) (db1 : models.database)
    (coll : collection) (all_chunks : list dict)
    : dict * (models.database * collection) :=
  match all_chunks with
  | [] =>
      (celery_tasks.error_outcome "No chunks created",
       (failed_db file_id "No chunks created" db1, coll))
  | _ =>
      match celery_tasks.getitems all_chunks "text" with
      | Raise e => (celery_tasks.error_outcome e, (failed_db file_id e db1, coll))
      | Ok chunk_texts =>
          match generate_embeddings_batch E chunk_texts with
          | Raise e => (celery_tasks.error_outcome e, (failed_db file_id e db1, coll))
          | Ok embeddings =>
              store_stage file_id file db1 coll all_chunks chunk_texts embeddings
          end
      end
  end.

(** The run on a file that was found. *)
Definition run (file_id : Z) (file : models.File) (db : models.database)
    (coll : collection) : dict * (models.database * collection) :=
  let db1 := processing_db file_id db in
  match FileProcessor.process_file P (models.file_path file) (models.file_type file) with
  | Raise e => (celery_tasks.error_outcome e, (failed_db file_id e db1, coll))
  | Ok [] =>
      (celery_tasks.error_outcome "No text extracted",
       (failed_db file_id "No text extracted from file" db1, coll))
  | Ok documents =>
      embed_stage file_id file db1 coll (celery_tasks.all_chunks_of sp documents)
  end.



(** Counting the rows and entries that belong to a file. *)
Definition chunk_rows_of (file_id : Z) (db : models.database) : list models.Chunk :=
  filter (fun c => models.file_id c = file_id) (models.chunks db).

Definition entries_for (file_id : Z) (coll : collection) : collection :=
  filter (fun e => ve_metadata e !! "file_id" = Some (PInt file_id)) coll.

End Spec.
End task_spec.

(** ** Test doubles

    Small stand-ins for the third-party libraries, used to run the program
    on concrete inputs. *)

Module fixtures.

Definition unreadable {A} : string -> result A :=
  fun _ => Raise "cannot read file".

(** Every text file reads as [content]; nothing else can be read. *)
Definition text_parsers (content : string) : Parsers :=
  {| pdf_pages := unreadable; docx_paragraphs := unreadable;
     excel_sheets := unreadable; pptx_slides := unreadable;
     read_text := fun _ => Ok content; csv_frame := unreadable;
     image_ocr := unreadable; json_pretty := unreadable;
     xml_text := unreadable |}.

(** Every PDF has the pages [pages]; nothing else can be read. *)
Definition pdf_parsers (pages : list string) : Parsers :=
  {| pdf_pages := fun _ => Ok pages; docx_paragraphs := unreadable;
     excel_sheets := unreadable; pptx_slides := unreadable;
     read_text := unreadable; csv_frame := unreadable;
     image_ocr := unreadable; json_pretty := unreadable;
     xml_text := unreadable |}.

(** A splitter for texts within the size budget: one chunk, the text
    itself; a token per character. *)
Definition whole_splitter : Splitter :=
  {| split_text := fun s => [s];
     encode_len := fun s => Z.of_nat (String.length s) |}.

(** An embedder returning one fixed vector per text. *)
Definition unit_services : Services :=
  {| generate_embedding := fun _ => Ok [1%Q];
     generate_embeddings_batch := fun texts => Ok (map (fun _ => [1%Q]) texts);
     generate_answer := fun _ _ => Ok ("answer", 1%Q);
     answer_question := fun _ _ => Ok ("answer", 1%Q) |}.

(** An embedding service that is down. *)
Definition failing_services : Services :=
  {| generate_embedding := fun _ => Raise "embedding service unavailable";
     generate_embeddings_batch := fun _ => Raise "embedding service unavailable";
     generate_answer := fun _ _ => Raise "model unavailable";
     answer_question := fun _ _ => Raise "model unavailable" |}.

Definition category_of (e : ventry) : option pyval := ve_metadata e !! "category_id".

(** An in-memory collection: [add] appends the entries (and raises on
    lists of different lengths); [query] returns the matching entries in
    insertion order, all at distance 0. *)
Definition memory_chroma : Chroma :=
  {| collection_add := fun coll i t e m =>
       if same_lengths i t e m then Some (coll ++ entries_of i t e m)%list else None;
     collection_query := fun coll _ top_k cat =>
       let found :=
         take (Z.to_nat top_k)
              (filter (fun e => category_of e = Some (PInt cat)) coll) in
       Ok {| ids := [map ve_id found];
             documents := [map ve_document found];
             metadatas := [map ve_metadata found];
             distances := Some [map (fun _ => 0%Q) found] |} |}.

(** A collection whose writes and reads fail. *)
Definition broken_chroma : Chroma :=
  {| collection_add := fun _ _ _ _ _ => None;
     collection_query := fun _ _ _ _ => Raise "collection unavailable" |}.

Definition hex8 (idx : nat) : string := "0000000" ++ pretty (idx mod 10)%nat.

Definition docs_category : models.Category :=
  {| models.cat_id := 1; models.name := "docs"; models.description := None |}.

(** A database with category 1 and one freshly uploaded file, id 7. *)
Definition fresh_db (path ext : string) : models.database :=
  {| models.categories := {[ 1 := docs_category ]};
     models.files := {[ 7 := models.new_file 7 "u_f" "f" path ext 10 1 1000 ]};
     models.chunks := [] |}.

End fixtures.

(** ** More of the program

    The remaining functions of the files above and their callers. *)

(** *** app/service/chunking.py: [chunk_documents] *)

(** A document dictionary as [chunk_documents] reads it: either key may be
    missing. *)
Record document_dict : Type := {
  get_text : option string;      (* doc.get("text") *)
  get_metadata : option dict     (* doc.get("metadata") *)
}.

Definition as_dict (d : document) : document_dict :=
  {| get_text := Some (text d); get_metadata := Some (metadata d) |}.

Module chunking.
Section Documents.
Context (sp : Splitter).

Definition chunk_documents (documents : list document_dict) : list dict :=
  flat_map (fun doc =>
              let text := default "" (get_text doc) in
              let doc_metadata := default ∅ (get_metadata doc) in
              ChunkingService.chunk_text sp text (Some doc_metadata))
           documents.

End Documents.
End chunking.

(** *** app/service/embeddings.py: deleting and listing *)

(** The dictionary [collection.get] returns. *)
Record get_result : Type := {
  got_ids : list string;
  got_documents : list pyval;
  got_metadatas : list dict
}.

(** The rest of the ChromaDB client. *)
Record ChromaAdmin : Type := {
  (* [collection.delete(where={key: value})]: the collection afterwards *)
  collection_delete : collection -> string -> Z -> option collection;
  (* [collection.get(where={"category_id": c})] *)
  collection_get : collection -> Z -> result get_result
}.

(** What the program relies on when [collection.delete] returns: the
    entries matching the filter are gone, the others stay in order. *)
Definition delete_contract (A : ChromaAdmin) : Prop :=
  forall coll key value coll',
    collection_delete A coll key value = Some coll' ->
    coll' = filter (fun e => ve_metadata e !! key <> Some (PInt value)) coll.

(** One listed chunk: [{"chunk_id": .., "text": .., "metadata": ..}]. *)
Record listed : Type := {
  listed_chunk_id : string;
  listed_text : pyval;
  listed_metadata : dict
}.

Module VectorStoreAdmin.
Section Admin.
Context (A : ChromaAdmin).

(** Returns the success flag and the collection afterwards. *)
Definition delete_by_file_id (coll : collection) (file_id : Z) : bool * collection :=
  match collection_delete A coll "file_id" file_id with
  | Some coll' => (true, coll')
  | None => (false, coll)
  end.

Definition delete_by_category_id (coll : collection) (category_id : Z)
    : bool * collection :=
  match collection_delete A coll "category_id" category_id with
  | Some coll' => (true, coll')
  | None => (false, coll)
  end.

Definition format_listed (results : get_result) (i : nat) : option listed :=
  cid ← got_ids results !! i;
  doc ← got_documents results !! i;
  md ← got_metadatas results !! i;
  Some {| listed_chunk_id := cid; listed_text := doc; listed_metadata := md |}.

Definition get_all_chunks_by_category (coll : collection) (category_id : Z)
    : list listed :=
  match collection_get A coll category_id with
  | Raise _ => []
  | Ok results =>
      match got_ids results with
      | [] => []
      | _ =>
          match mapM (format_listed results) (seq 0 (length (got_ids results))) with
          | Some formatted_results => formatted_results
          | None => []   (* an exception inside the loop *)
          end
      end
  end.

End Admin.
End VectorStoreAdmin.

(** *** app/api/search.py: [summarize_category] *)

(** [gemini_service.summarize_documents(texts, max_length)] *)
Record Summarizer : Type := {
  summarize_documents : list pyval -> option Z -> result (string * Q)
}.

Module summarize.
Section Endpoint.
Context (G : Summarizer) (A : ChromaAdmin).

(** [all_chunks[:50]] *)
Definition first_50 {X} (l : list X) : list X := take 50 l.

(** [POST /api/search/summarize]: the response, and the texts and length
    handed to the summarizer when it is called. *)
Definition summarize_category (request : schemas.SummarizeRequest)
    (db : models.database) (coll : collection)
    : http (string * Q) * option (list pyval * option Z) :=
  match models.categories db !! schemas.sum_category_id request with
  | None => (HTTPException 404 "Category not found", None)
  | Some _ =>
      let all_chunks :=
        VectorStoreAdmin.get_all_chunks_by_category A coll
          (schemas.sum_category_id request) in
      match all_chunks with
      | [] => (Response ("No documents found in this category.", 0%Q), None)
      | _ =>
          let texts := map listed_text (first_50 all_chunks) in
          let called := Some (texts, schemas.max_length request) in
          match summarize_documents G texts (schemas.max_length request) with
          | Raise e => (HTTPException 500 ("Summarization error: " ++ e), called)
          | Ok (summary, confidence) => (Response (summary, confidence), called)
          end
      end
  end.

End Endpoint.
End summarize.

(** *** app/config.py *)

Record Settings : Type := {
  UPLOAD_DIR : string;
  MAX_FILE_SIZE_MB : Z;
  CHUNK_SIZE : Z;
  CHUNK_OVERLAP : Z;
  EMBEDDING_DIMENSION : Z
}.

(** The defaults of the [Settings] class. *)
Definition default_settings : Settings :=
  {| UPLOAD_DIR := "./uploads"; MAX_FILE_SIZE_MB := 50;
     CHUNK_SIZE := 1000; CHUNK_OVERLAP := 200; EMBEDDING_DIMENSION := 768 |}.

(** *** app/api/files.py: upload, status, delete *)

(** The parts of Python's standard library the upload uses. *)
Record PyLib : Type := {
  (* [os.path.splitext(name)[1]] *)
  splitext_ext : string -> string;
  (* [str.lower] *)
  lower : string -> string;
  (* [os.path.join] *)
  path_join : string -> string -> string
}.

(** An uploaded file: its name and its size in bytes. *)
Record UploadFile : Type := {
  upload_filename : string;
  upload_size : Z
}.

(** What is outside the database: the stored files (by path), the Chroma
    collection and the ingestion tasks dispatched (by file id). *)
Record outside : Type := {
  stored : gset string;
  vectors : collection;
  dispatched : list Z
}.

Module files_api.

(** [ALLOWED_EXTENSIONS]; a set in the source, listed here in its written
    order. *)
Definition ALLOWED_EXTENSIONS : list string :=
  [".pdf"; ".doc"; ".docx"; ".xls"; ".xlsx"; ".txt"; ".csv";
   ".jpg"; ".jpeg"; ".png"; ".bmp"; ".tiff";
   ".ppt"; ".pptx"; ".json"; ".sql"; ".xml"].

Section Files.
Context (L : PyLib) (settings : Settings) (A : ChromaAdmin).

(** Returns the extension or raises [HTTPException(400)]; the order of
    the types in the detail is that of a Python set, not modelled. *)
Definition validate_file (file : UploadFile) : http string :=
  let file_ext := lower L (splitext_ext L (upload_filename file)) in
  if PyStr.str_in file_ext ALLOWED_EXTENSIONS then Response file_ext
  else HTTPException 400
         ("File type " ++ file_ext ++ " not supported. Allowed types: "
          ++ PyStr.join ", " ALLOWED_EXTENSIONS).

(** [POST /api/files/upload].  [hex] is [uuid.uuid4().hex], [writable]
    whether the copy to disk succeeds, [new_id] the id the database gives
    the row, [new_task] the id Celery gives the task, [now] the clock. *)
Definition upload_file (hex : string) (writable : bool) (new_id : Z)
    (new_task : string) (now : Z)
    (file : UploadFile) (category_id : Z) (db : models.database) (o : outside)
    : http (Z * string * string * string * string) * (models.database * outside) :=
  match models.categories db !! category_id with
  | None => (HTTPException 404 "Category not found", (db, o))
  | Some _ =>
    match validate_file file with
    | HTTPException c d => (HTTPException c d, (db, o))
    | Response file_ext =>
      let file_size := upload_size file in
      let max_size := MAX_FILE_SIZE_MB settings * 1024 * 1024 in
      if (max_size <? file_size)%Z then
        (HTTPException 400
           ("File too large. Max size: " ++ pretty (MAX_FILE_SIZE_MB settings) ++ "MB"),
         (db, o))
      else
        let unique_filename := hex ++ "_" ++ upload_filename file in
        let file_path := path_join L (UPLOAD_DIR settings) unique_filename in
        if negb writable then (HTTPException 500 "Error saving file", (db, o))
        else
          let db_file :=
            models.new_file new_id unique_filename (upload_filename file) file_path
              file_ext file_size category_id now in
          let db_file :=
            {| models.id := models.id db_file;
               models.filename := models.filename db_file;
               models.original_filename := models.original_filename db_file;
               models.file_path := models.file_path db_file;
               models.file_type := models.file_type db_file;
               models.file_size := models.file_size db_file;
               models.category_id := models.category_id db_file;
               models.status := models.status db_file;
               models.task_id := Some new_task;
               models.error_message := models.error_message db_file;
               models.total_chunks := models.total_chunks db_file;
               models.processed_at := models.processed_at db_file;
               models.created_at := models.created_at db_file |} in
          (Response (new_id, upload_filename file, new_task, "pending",
                     "File uploaded successfully. Processing started."),
           (models.set_files (<[new_id := db_file]> (models.files db)) db,
            {| stored := {[ file_path ]} ∪ stored o;
               vectors := vectors o;
               dispatched := (dispatched o ++ [new_id])%list |}))
    end
  end.

(** [GET /api/files/{file_id}]: file id, name, status, chunk count, error
    message and processing time. *)
Definition get_file_status (file_id : Z) (db : models.database)
    : http (Z * string * string * Z * option string * option Z) :=
  match models.files db !! file_id with
  | None => HTTPException 404 "File not found"
  | Some file =>
      Response (models.id file, models.original_filename file, models.status file,
                models.total_chunks file, models.error_message file,
                models.processed_at file)
  end.

(** [db.delete(file)]: the row goes, and with it its chunks
    ([cascade="all, delete-orphan"] on [File.chunks]). *)
Definition db_delete_file (file_id : Z) (db : models.database) : models.database :=
  {| models.categories := models.categories db;
     models.files := delete file_id (models.files db);
     models.chunks := filter (fun c => models.file_id c <> file_id) (models.chunks db) |}.

(** [DELETE /api/files/{file_id}] *)
Definition delete_file (file_id : Z) (db : models.database) (o : outside)
    : http (string * Z) * (models.database * outside) :=
  match models.files db !! file_id with
  | None => (HTTPException 404 "File not found", (db, o))
  | Some file =>
      let '(_, coll') := VectorStoreAdmin.delete_by_file_id A (vectors o) file_id in
      let stored' :=
        if decide (models.file_path file ∈ stored o)
        then stored o ∖ {[ models.file_path file ]}
        else stored o in
      (Response ("File deleted successfully", file_id),
       (db_delete_file file_id db,
        {| stored := stored'; vectors := coll'; dispatched := dispatched o |}))
  end.

End Files.
End files_api.

(** *** app/api/categories.py *)

Module categories_api.

(** [CategoryCreate]: [name: str = Field(..., min_length=1, max_length=100)],
    [description: Optional[str] = None]. *)
Record CategoryCreate : Type := {
  cc_name : string;
  cc_description : option string
}.

Definition validate_CategoryCreate (name : option string)
    (description : option (option string)) : result CategoryCreate :=
  match name with
  | None => Raise "Field required"
  | Some s =>
      if (String.length s <? 1)%nat then Raise "String should have at least 1 character"
      else if (100 <? String.length s)%nat
           then Raise "String should have at most 100 characters"
      else Ok {| cc_name := s;
                 cc_description := match description with
                                   | Some d => d
                                   | None => None
                                   end |}
  end.

(** [CategoryResponse]: id, name, description and [file_count]. *)
Record CategoryResponse : Type := {
  cr_id : Z;
  cr_name : string;
  cr_description : option string;
  file_count : Z
}.

(** [db.query(File).filter(File.category_id == cid).count()] *)
Definition count_files (cid : Z) (db : models.database) : Z :=
  Z.of_nat (length (filter (fun f => models.category_id f = cid)
                           (map snd (map_to_list (models.files db))))).

(** [db.query(Category).filter(Category.name == name).first()] is truthy. *)
Definition name_taken (name : string) (db : models.database) : bool :=
  bool_decide (Exists (fun c => models.name c = name)
                      (map snd (map_to_list (models.categories db)))).

Definition response_of (cid : Z) (c : models.Category) (db : models.database)
    : CategoryResponse :=
  {| cr_id := cid; cr_name := models.name c;
     cr_description := models.description c;
     file_count := count_files cid db |}.

(** [POST /api/categories/create]; [new_id] is the id the database gives
    the row. *)
Definition create_category (new_id : Z) (category : CategoryCreate)
    (db : models.database) : http CategoryResponse * models.database :=
  if name_taken (cc_name category) db
  then (HTTPException 400 "Category already exists", db)
  else
    let db_category :=
      {| models.cat_id := new_id; models.name := cc_name category;
         models.description := cc_description category |} in
    let db' :=
      {| models.categories := <[new_id := db_category]> (models.categories db);
         models.files := models.files db;
         models.chunks := models.chunks db |} in
    (Response (response_of new_id db_category db'), db').

(** [GET /api/categories/list] *)
Definition list_categories (db : models.database) : list CategoryResponse :=
  map (fun '(cid, c) => response_of cid c db) (map_to_list (models.categories db)).

(** [GET /api/categories/{category_id}] *)
Definition get_category (category_id : Z) (db : models.database)
    : http CategoryResponse :=
  match models.categories db !! category_id with
  | None => HTTPException 404 "Category not found"
  | Some c => Response (response_of category_id c db)
  end.

(** [db.delete(category)]: the row goes, with its files and their chunks
    ([cascade="all, delete-orphan"] on [Category.files] and on
    [File.chunks]). *)
Definition db_delete_category (category_id : Z) (db : models.database)
    : models.database :=
  let kept := filter (fun kf => models.category_id (snd kf) <> category_id)
                     (models.files db) in
  {| models.categories := delete category_id (models.categories db);
     models.files := kept;
     models.chunks := filter (fun c => is_Some (kept !! models.file_id c)
                                       \/ models.files db !! models.file_id c = None)
                             (models.chunks db) |}.

Section Categories.
Context (A : ChromaAdmin).

(** [DELETE /api/categories/{category_id}] *)
Definition delete_category (category_id : Z) (db : models.database)
    (coll : collection) : http (string * Z) * (models.database * collection) :=
  match models.categories db !! category_id with
  | None => (HTTPException 404 "Category not found", (db, coll))
  | Some _ =>
      let '(_, coll') := VectorStoreAdmin.delete_by_category_id A coll category_id in
      (Response ("Category deleted successfully", category_id),
       (db_delete_category category_id db, coll'))
  end.

End Categories.
End categories_api.

(** *** Conditions on the third-party readers *)


Module fixtures_more.

(** Readers that return the same small content for every path. *)
Definition plain_parsers : Parsers :=
  {| pdf_pages := fun _ => Ok ["a"; "  "; "b"];
     docx_paragraphs := fun _ => Ok ["Title"; ""; "Body"];
     excel_sheets := fun _ => Ok [("Sheet1", [[Some "1"; None]])];
     pptx_slides := fun _ => Ok [[Some "Intro"; None]];
     read_text := fun _ => Ok "text";
     csv_frame := fun _ => Ok ("a b", 1, 2);
     image_ocr := fun _ => Ok "seen";
     json_pretty := fun _ => Ok "{}";
     xml_text := fun _ => Ok "x" |}.

End fixtures_more.

(** *** Characters of identifiers *)

(** No underscore occurs in the string. *)
Fixpoint no_underscore (s : string) : bool :=
  match s with
  | EmptyString => true
  | String c s' => negb (Ascii.eqb c "_") && no_underscore s'
  end.

Module fixtures_search.

(** A collection holding the one chunk of file 7, category 1. *)
Definition alpha_collection : collection :=
  [ {| ve_id := "file_7_chunk_0_00000000"; ve_document := PStr "Alpha.";
       ve_embedding := [1%Q];
       ve_metadata := celery_tasks.chunk_metadata 7 1 0 ∅ |} ].

Definition alpha_query : schemas.SearchRequest :=
  {| schemas.query := "what is alpha?"; schemas.category_id := 1; schemas.top_k := 5 |}.

Definition alpha_question : schemas.QARequest :=
  {| schemas.question := "what is alpha?"; schemas.qa_category_id := 1;
     schemas.qa_top_k := 5 |}.

Definition alpha_passages : schemas.FindPassagesRequest :=
  {| schemas.fp_query := "alpha"; schemas.fp_category_id := 1; schemas.fp_top_k := 10 |}.

(** An in-memory collection for deleting and listing. *)
Definition memory_admin : ChromaAdmin :=
  {| collection_delete := fun coll key value =>
       Some (filter (fun e => ve_metadata e !! key <> Some (PInt value)) coll);
     collection_get := fun coll cat =>
       let found := filter (fun e => fixtures.category_of e = Some (PInt cat)) coll in
       Ok {| got_ids := map ve_id found;
             got_documents := map ve_document found;
             got_metadatas := map ve_metadata found |} |}.

(** A collection that cannot be reached. *)
Definition broken_admin : ChromaAdmin :=
  {| collection_delete := fun _ _ _ => None;
     collection_get := fun _ _ => Raise "collection unavailable" |}.

Definition echo_summarizer : Summarizer :=
  {| summarize_documents := fun texts _ => Ok ("summary", 1%Q) |}.

(** File names of the form [stem.ext], already in lower case. *)
Fixpoint after_dot (s : string) : string :=
  match s with
  | EmptyString => EmptyString
  | String c s' => if Ascii.eqb c "." then s else after_dot s'
  end.

Definition simple_lib : PyLib :=
  {| splitext_ext := after_dot;
     lower := fun s => s;
     path_join := fun a b => a ++ "/" ++ b |}.

Definition no_outside : outside := {| stored := ∅; vectors := []; dispatched := [] |}.

(** The float [0.85]: the binary64 number nearest to 85/100. *)
Definition d085 : Q := 7656119366529843 # 9007199254740992.

End fixtures_search.

(** *** Integrity of the category table *)

(** No two category rows have the same name ([unique=True] on
    [Category.name]). *)
Definition names_unique (db : models.database) : Prop :=
  forall i j ci cj,
    models.categories db !! i = Some ci -> models.categories db !! j = Some cj ->
    models.name ci = models.name cj -> i = j.

(** * Properties *)

(** ** Strings *)

Module PyStrFacts.
Import PyStr.

Lemma truthy_rstrip (s : string) : truthy (rstrip s) = negb (all_space s).
Proof.
  induction s as [|c s IH]; simpl; [reflexivity|].
  rewrite IH, negb_involutive.
  destruct (is_space c), (all_space s); reflexivity.
Qed.

Lemma all_space_lstrip (s : string) : all_space (lstrip s) = all_space s.
Proof.
  induction s as [|c s IH]; simpl; [reflexivity|].
  destruct (is_space c) eqn:Hc; simpl; [exact IH|].
  rewrite Hc. reflexivity.
Qed.

(** [text.strip()] is falsy exactly on the strings of white space. *)
Lemma truthy_strip (s : string) : truthy (strip s) = negb (all_space s).
Proof. unfold strip. rewrite truthy_rstrip, all_space_lstrip. reflexivity. Qed.

Lemma all_space_truthy (s : string) : all_space s = false -> truthy s = true.
Proof. destruct s; [discriminate | reflexivity]. Qed.

Lemma all_space_app (a b : string) :
  all_space (a ++ b) = all_space a && all_space b.
Proof.
  induction a as [|c a IH]; simpl; [reflexivity|].
  rewrite IH, andb_assoc. reflexivity.
Qed.

(** A join with a non-blank part is not blank. *)
Lemma all_space_join (sep : string) (parts : list string) :
  parts <> [] ->
  Forall (fun p => all_space p = false) parts ->
  all_space (join sep parts) = false.
Proof.
  intros Hne Hall. destruct Hall as [|p ps Hp Hps]; [congruence|].
  destruct ps as [|q ps]; simpl; [exact Hp|].
  rewrite all_space_app, Hp. reflexivity.
Qed.

End PyStrFacts.

(** ** Chunker and extractor *)

Module ChunkerFacts.
Import PyStr PyStrFacts ChunkingService.

(** The guard of [chunk_text] fires exactly on blank texts. *)
Lemma chunk_text_guard (text : string) :
  negb (truthy text) || negb (truthy (strip text)) = all_space text.
Proof.
  rewrite truthy_strip, negb_involutive.
  destruct text as [|c s]; simpl; [reflexivity|].
  reflexivity.
Qed.

Lemma chunk_text_blank_nil (sp : Splitter) (text : string) (md : option dict) :
  all_space text = true -> chunk_text sp text md = [].
Proof.
  intros Hb. unfold chunk_text. rewrite chunk_text_guard, Hb. reflexivity.
Qed.

Lemma enumerate_length {A} (l : list A) : length (enumerate l) = length l.
Proof. unfold enumerate. apply length_imap. Qed.

Lemma enumerate_lookup {A} (l : list A) (i : nat) (x : A) :
  l !! i = Some x -> enumerate l !! i = Some (i, x).
Proof. intros H. unfold enumerate. rewrite list_lookup_imap, H. reflexivity. Qed.

End ChunkerFacts.

(** C8: on a text that is empty or consists only of white space
    [chunk_text] returns the empty list of chunks; being a total function
    that never consults the splitter on such a text, it raises nothing. *)
Theorem chunk_text_blank_is_empty :
  forall (sp : Splitter) (text : string) (md : option dict),
    PyStr.all_space text = true ->
    ChunkingService.chunk_text sp text md = [].
Proof. intros sp text md H. apply ChunkerFacts.chunk_text_blank_nil, H. Qed.

Lemma chunk_text_blank_is_empty_witness :
  PyStr.all_space (String " " (String "009" (String "010" ""))) = true /\
  ChunkingService.chunk_text fixtures.whole_splitter
    (String " " (String "009" (String "010" ""))) None = [].
Proof.
  split; [reflexivity|].
  apply (chunk_text_blank_is_empty fixtures.whole_splitter); reflexivity.
Defined.

Module ExtractorFacts.
Import PyStr PyStrFacts ChunkingService FileProcessor.

Local Abbreviation nonblank := (fun d : document => all_space (text d) = false).

Lemma omap_Forall {A B} (f : A -> option B) (Q : B -> Prop) (l : list A) :
  (forall a b, f a = Some b -> Q b) -> Forall Q (omap f l).
Proof.
  intros Hf. induction l as [|a l IH]; simpl; [constructor|].
  destruct (f a) as [b|] eqn:Hfa; [constructor; eauto | exact IH].
Qed.

Lemma filter_truthy_strip (l : list string) :
  Forall (fun p => all_space p = false)
         (filter (fun p => truthy (strip p) = true) l).
Proof.
  apply Forall_forall. intros p Hp.
  apply list_elem_of_filter in Hp. destruct Hp as [Hp _].
  rewrite truthy_strip in Hp. destruct (all_space p); [discriminate | reflexivity].
Qed.

Lemma pdf_nonblank (P : Parsers) (path : string) (docs : list document) :
  _process_pdf P path = Ok docs -> Forall nonblank docs.
Proof.
  unfold _process_pdf. destruct (pdf_pages P path) as [pages|]; simpl; [|discriminate].
  intros [= <-]. apply omap_Forall. intros [n t] d.
  rewrite truthy_strip. destruct (all_space t) eqn:Ht; simpl; [discriminate|].
  intros [= <-]. exact Ht.
Qed.

Lemma excel_nonblank (P : Parsers) (path : string) (docs : list document) :
  _process_excel P path = Ok docs -> Forall nonblank docs.
Proof.
  unfold _process_excel. destruct (excel_sheets P path) as [sheets|]; simpl; [|discriminate].
  intros [= <-]. apply omap_Forall. intros [n sheet] d.
  pose proof (filter_truthy_strip
                (map (fun row => join " | " (map cell_str row)) sheet)) as Hall.
  fold (sheet_rows sheet) in Hall.
  destruct (sheet_rows sheet) as [|r rs] eqn:Hrows; [discriminate|].
  intros [= <-]. cbn [text].
  change (all_space (join (String "010" "") (r :: rs)) = false).
  apply all_space_join; [discriminate | exact Hall].
Qed.

Lemma slide_parts_nonblank (shapes : list (option string)) :
  Forall (fun p => all_space p = false) (slide_text_parts shapes).
Proof.
  apply omap_Forall. intros [t|] p; [|discriminate].
  rewrite truthy_strip. destruct (all_space t) eqn:Ht; simpl; [discriminate|].
  intros [= <-]. exact Ht.
Qed.

Lemma pptx_nonblank (P : Parsers) (path : string) (docs : list document) :
  _process_pptx P path = Ok docs -> Forall nonblank docs.
Proof.
  unfold _process_pptx. destruct (pptx_slides P path) as [slides|]; simpl; [|discriminate].
  intros [= <-]. apply omap_Forall. intros [n shapes] d.
  pose proof (slide_parts_nonblank shapes) as Hall.
  destruct (slide_text_parts shapes) as [|r rs] eqn:Hparts; [discriminate|].
  intros [= <-]. cbn [text].
  change (all_space (join (String "010" "") (r :: rs)) = false).
  apply all_space_join; [discriminate | exact Hall].
Qed.

End ExtractorFacts.

Module PipelineFacts.
Import PyStr PyStrFacts ChunkingService celery_tasks.

(** Blank fragments contribute nothing to the concatenated chunks. *)
Lemma all_chunks_of_filter (sp : Splitter) (docs : list document) :
  all_chunks_of sp docs
  = all_chunks_of sp (filter (fun d => all_space (text d) = false) docs).
Proof.
  unfold all_chunks_of.
  induction docs as [|d docs IH]; [reflexivity|].
  rewrite filter_cons. simpl flat_map.
  destruct (decide (all_space (text d) = false)) as [Hd|Hd].
  - simpl flat_map. rewrite IH. reflexivity.
  - apply not_false_is_true in Hd.
    rewrite (ChunkerFacts.chunk_text_blank_nil sp _ _ Hd). exact IH.
Qed.

End PipelineFacts.

(** C2, counterexample: a text file holding two spaces.  [_process_txt]
    returns its single fragment whatever the text, so [process_file]
    returns a fragment whose text is only white space. *)
Lemma process_file_txt_blank_fragment :
  exists docs,
    FileProcessor.process_file (fixtures.text_parsers "  ") "/uploads/blank.txt" ".txt"
    = Ok docs /\
    docs = [ {| text := "  "; metadata := ∅ |} ] /\
    ~ Forall (fun d => PyStr.all_space (text d) = false) docs.
Proof.
  eexists. split; [reflexivity|]. split; [reflexivity|].
  intros H. inversion H as [|d l Hd Hl]; subst. discriminate Hd.
Qed.

(** C2, as amended: for the formats whose extractor filters (PDF pages,
    spreadsheet sheets, slides), [process_file] returns no fragment with
    blank text; for every format, a blank fragment that is returned yields no
    chunk: the chunks of the fragments are those of the non-blank fragments
    alone, so a blank fragment is dropped at the chunker and is never
    embedded or indexed. *)
Theorem blank_fragments_never_chunked :
  forall (P : Parsers) (sp : Splitter) (file_path file_type : string)
         (docs : list document),
    FileProcessor.process_file P file_path file_type = Ok docs ->
    (PyStr.str_in file_type [".pdf"; ".xls"; ".xlsx"; ".ppt"; ".pptx"] = true ->
     Forall (fun d => PyStr.all_space (text d) = false) docs)
    /\ celery_tasks.all_chunks_of sp docs
       = celery_tasks.all_chunks_of sp
           (filter (fun d => PyStr.all_space (text d) = false) docs).
Proof.
  intros P sp path ft docs Hx. split; [|apply PipelineFacts.all_chunks_of_filter].
  unfold PyStr.str_in. simpl existsb. rewrite !orb_true_iff.
  intros [H|[H|[H|[H|[H|H]]]]]; try discriminate H;
    apply String.eqb_eq in H; subst ft.
  - apply (ExtractorFacts.pdf_nonblank P path), Hx.
  - apply (ExtractorFacts.excel_nonblank P path), Hx.
  - apply (ExtractorFacts.excel_nonblank P path), Hx.
  - apply (ExtractorFacts.pptx_nonblank P path), Hx.
  - apply (ExtractorFacts.pptx_nonblank P path), Hx.
Qed.

Lemma blank_fragments_never_chunked_witness :
  Forall (fun d => PyStr.all_space (text d) = false)
         [ {| text := "a"; metadata := {[ "page_number" := PInt 1 ]} |} ]
  /\ celery_tasks.all_chunks_of fixtures.whole_splitter
       [ {| text := "a"; metadata := {[ "page_number" := PInt 1 ]} |} ]
     = celery_tasks.all_chunks_of fixtures.whole_splitter
         (filter (fun d => PyStr.all_space (text d) = false)
                 [ {| text := "a"; metadata := {[ "page_number" := PInt 1 ]} |} ]).
Proof.
  destruct (blank_fragments_never_chunked
              (fixtures.pdf_parsers ["a"; "  "]) fixtures.whole_splitter
              "/uploads/f.pdf" ".pdf"
              [ {| text := "a"; metadata := {[ "page_number" := PInt 1 ]} |} ])
    as [H1 H2].
  - vm_compute. reflexivity.
  - split; [apply H1; reflexivity | exact H2].
Defined.

(** ** The ingestion task *)

Module TaskFacts.
Import celery_tasks task_spec.

Section Run.
Context (P : Parsers) (sp : Splitter) (E : Services) (C : Chroma).
Context (uuid8 : nat -> string) (utcnow : Z).

Local Abbreviation task := (process_file_task P sp E C uuid8 utcnow).
Local Abbreviation spec_run := (run P sp E C uuid8 utcnow).

(** A run on an id with no [File] row changes nothing. *)
Lemma task_file_not_found (file_id : Z) (db : models.database) (coll : collection) :
  models.files db !! file_id = None ->
  task file_id db coll = (Ok (error_outcome "File not found"), (db, coll)).
Proof.
  intros Hnone. unfold process_file_task, run_task, try_body, initial_world.
  cbn [live durable store commits].
  rewrite Hnone. reflexivity.
Qed.

Lemma lookup_mark (file_id : Z) (f : models.File -> models.File)
    (db : models.database) :
  models.files (mark file_id f db) !! file_id = f <$> models.files db !! file_id.
Proof. unfold mark. cbn [models.files models.set_files]. apply lookup_alter_eq. Qed.

(** [process_file_task] computes [task_spec.run]; in particular it always
    returns a dictionary, whatever the readers and services raise. *)
Lemma task_run (file_id : Z) (file : models.File) (db : models.database)
    (coll : collection) :
  models.files db !! file_id = Some file ->
  task file_id db coll
  = (Ok (fst (spec_run file_id file db coll)), snd (spec_run file_id file db coll)).
Proof.
  intros Hfile.
  assert (Hlive : models.files (processing_db file_id db) !! file_id
                  = Some (models.with_status "processing" file)).
  { unfold processing_db. rewrite lookup_mark, Hfile. reflexivity. }
  unfold process_file_task, run_task, try_body, run, initial_world.
  cbn [live durable store commits].
  rewrite Hfile.
  unfold bind at 1. unfold update_file at 1. cbn [live durable store commits].
  unfold bind at 1. unfold commit at 1. cbn [live durable store commits].
  unfold bind at 1. unfold lift at 1.
  fold (mark file_id (models.with_status "processing") db).
  fold (processing_db file_id db).
  destruct (FileProcessor.process_file P (models.file_path file) (models.file_type file))
    as [documents|e].
  2:{ unfold except_handler. cbn [live durable store commits]. rewrite Hlive. reflexivity. }
  destruct documents as [|d documents]; [reflexivity|].
  unfold embed_stage.
  destruct (all_chunks_of sp (d :: documents)) as [|c cs] eqn:Hcs; [reflexivity|].
  unfold bind at 1. unfold lift at 1.
  destruct (getitems (c :: cs) "text") as [chunk_texts|e].
  2:{ unfold except_handler. cbn [live durable store commits]. rewrite Hlive. reflexivity. }
  unfold bind at 1. unfold lift at 1.
  destruct (generate_embeddings_batch E chunk_texts) as [embeddings|e].
  2:{ unfold except_handler. cbn [live durable store commits]. rewrite Hlive. reflexivity. }
  unfold store_stage, bind, add_all, commit, store_add, update_file, ret,
    VectorStoreService.add_chunks.
  cbn [live durable store commits].
  destruct (collection_add C coll _ _ _ _) as [coll'|]; reflexivity.
Qed.


End Run.
End TaskFacts.

Module StoreFacts.
Import celery_tasks task_spec.

Lemma error_outcome_status (m : string) :
  error_outcome m !! "status" = Some (PStr "error").
Proof. unfold error_outcome. apply lookup_insert_eq. Qed.

Lemma success_outcome_status (file_id n : Z) :
  success_outcome file_id n !! "status" = Some (PStr "success").
Proof. unfold success_outcome. apply lookup_insert_eq. Qed.


Lemma error_not_success (m : string) :
  error_outcome m !! "status" <> Some (PStr "success").
Proof. rewrite error_outcome_status. discriminate. Qed.

Lemma getitems_length (cs : list dict) (key : string) (vs : list pyval) :
  getitems cs key = Ok vs -> length vs = length cs.
Proof.
  revert vs. induction cs as [|c cs IH]; intros vs; simpl.
  - intros [= <-]. reflexivity.
  - destruct (getitem c key) as [v|]; simpl; [|discriminate].
    destruct (getitems cs key) as [vs'|]; simpl; [|discriminate].
    intros [= <-]. simpl. f_equal. apply IH. reflexivity.
Qed.


Section Rows.
Context (uuid8 : nat -> string) (file_id category_id : Z).

Lemma db_chunks_length (cs : list dict) (texts : list pyval) :
  length texts = length cs -> length (db_chunks uuid8 file_id cs texts) = length cs.
Proof.
  intros Hlen. unfold db_chunks. rewrite length_imap, length_zip, Hlen. lia.
Qed.


Lemma db_chunks_file_id (cs : list dict) (texts : list pyval) :
  Forall (fun r => models.file_id r = file_id) (db_chunks uuid8 file_id cs texts).
Proof.
  apply Forall_forall. intros r Hr. unfold db_chunks in Hr.
  apply elem_of_lookup_imap_1 in Hr. destruct Hr as (i & [c t] & -> & _). reflexivity.
Qed.

Lemma chunk_metadatas_length (cs : list dict) :
  length (chunk_metadatas_of file_id category_id cs) = length cs.
Proof. unfold chunk_metadatas_of. apply length_imap. Qed.




End Rows.

Lemma entries_of_metadata (i : list string) (t : list pyval) (e : list vector)
    (m : list dict) :
  same_lengths i t e m = true -> ve_metadata <$> entries_of i t e m = m.
Proof.
  unfold same_lengths. rewrite !andb_true_iff, !Nat.eqb_eq.
  revert t e m. induction i as [|x i IH]; intros [|y t] [|z e] [|u m];
    simpl; intros [[Ht He] Hm]; try discriminate; try reflexivity.
  f_equal. apply IH. repeat split; congruence.
Qed.


End StoreFacts.

Module RunFacts.
Import celery_tasks task_spec StoreFacts.

Section Cases.
Context (P : Parsers) (sp : Splitter) (E : Services) (C : Chroma).
Context (uuid8 : nat -> string) (utcnow : Z).

Local Abbreviation spec_run := (run P sp E C uuid8 utcnow).

(** The row of the file after a failure that was recorded. *)
Lemma failed_db_file (file_id : Z) (file : models.File) (msg : string)
    (db : models.database) :
  models.files db !! file_id = Some file ->
  models.files (failed_db file_id msg db) !! file_id
  = Some (models.with_error_message msg (models.with_status "failed" file)).
Proof.
  intros Hfile. unfold failed_db. rewrite !TaskFacts.lookup_mark, Hfile. reflexivity.
Qed.


Lemma processing_db_file (file_id : Z) (file : models.File) (db : models.database) :
  models.files db !! file_id = Some file ->
  models.files (processing_db file_id db) !! file_id
  = Some (models.with_status "processing" file).
Proof.
  intros Hfile. unfold processing_db. rewrite TaskFacts.lookup_mark, Hfile. reflexivity.
Qed.

Lemma failed_db_chunks (file_id : Z) (msg : string) (db : models.database) :
  models.chunks (failed_db file_id msg db) = models.chunks db.
Proof. reflexivity. Qed.

(** A run on a file ends in one of two ways: a failure, reported as [m] and
    recorded as [e], that leaves the collection alone, or success after every stage returned. *)
Lemma run_cases (file_id : Z) (file : models.File) (db : models.database)
    (coll : collection) :
  (exists m e db1,
      spec_run file_id file db coll
      = (error_outcome m, (failed_db file_id e db1, coll))
      /\ models.files db1 = models.files (processing_db file_id db))
  \/
  (exists docs texts embs coll',
      FileProcessor.process_file P (models.file_path file) (models.file_type file)
      = Ok docs
      /\ getitems (all_chunks_of sp docs) "text" = Ok texts
      /\ generate_embeddings_batch E texts = Ok embs
      /\ collection_add C coll
           (chunk_ids_of uuid8 file_id (all_chunks_of sp docs)) texts embs
           (chunk_metadatas_of file_id (models.category_id file) (all_chunks_of sp docs))
         = Some coll'
      /\ spec_run file_id file db coll
         = (success_outcome file_id (Z.of_nat (length (all_chunks_of sp docs))),
            (completed_db utcnow file_id (Z.of_nat (length (all_chunks_of sp docs)))
               (with_rows (db_chunks uuid8 file_id (all_chunks_of sp docs) texts)
                          (processing_db file_id db)),
             coll'))).
Proof.
  assert (Hfail : forall m e r,
             r = (error_outcome m, (failed_db file_id e (processing_db file_id db), coll)) ->
             exists m e db1,
               r = (error_outcome m, (failed_db file_id e db1, coll))
               /\ models.files db1 = models.files (processing_db file_id db)).
  { intros m e r ->. eexists _, _, _. split; reflexivity. }
  unfold run.
  destruct (FileProcessor.process_file P (models.file_path file) (models.file_type file))
    as [documents|e] eqn:Hdocs; [|left; eapply Hfail; reflexivity].
  destruct documents as [|d documents]; [left; eapply Hfail; reflexivity|].
  unfold embed_stage.
  destruct (all_chunks_of sp (d :: documents)) as [|c cs] eqn:Hcs;
    [left; eapply Hfail; reflexivity|].
  destruct (getitems (c :: cs) "text") as [texts|e] eqn:Htexts;
    [|left; eapply Hfail; reflexivity].
  destruct (generate_embeddings_batch E texts) as [embs|e] eqn:Hembs;
    [|left; eapply Hfail; reflexivity].
  unfold store_stage.
  destruct (collection_add C coll _ _ _ _) as [coll'|] eqn:Hadd.
  - right. exists (d :: documents), texts, embs, coll'. rewrite Hcs. auto.
  - left. eexists _, _, _. split; reflexivity.
Qed.


End Cases.
End RunFacts.

Module HandlerFacts.
Import celery_tasks task_spec.

Section Handler.
Context (P : Parsers) (sp : Splitter) (E : Services) (C : Chroma).
Context (uuid8 : nat -> string) (utcnow : Z).



End Handler.
End HandlerFacts.



(** C6: when every stage up to the embeddings has returned and the one
    write of all chunks into the collection reports failure, the task marks
    the file failed with the message "Failed to add to vector store" and
    stops there (no chunk count, no processing time); the [Chunk] rows
    committed just before stay in the database while the collection holds
    none of them, having not changed. *)
Theorem vector_store_failure_leaves_rows :
  forall (P : Parsers) (sp : Splitter) (E : Services) (C : Chroma)
         (uuid8 : nat -> string) (utcnow file_id : Z) (file : models.File)
         (db : models.database) (coll : collection)
         (docs : list document) (texts : list pyval) (embs : list vector),
    models.files db !! file_id = Some file ->
    FileProcessor.process_file P (models.file_path file) (models.file_type file)
    = Ok docs ->
    celery_tasks.all_chunks_of sp docs <> [] ->
    celery_tasks.getitems (celery_tasks.all_chunks_of sp docs) "text" = Ok texts ->
    generate_embeddings_batch E texts = Ok embs ->
    collection_add C coll
      (celery_tasks.chunk_ids_of uuid8 file_id (celery_tasks.all_chunks_of sp docs))
      texts embs
      (celery_tasks.chunk_metadatas_of file_id (models.category_id file)
         (celery_tasks.all_chunks_of sp docs))
    = None ->
    exists db' file',
      celery_tasks.process_file_task P sp E C uuid8 utcnow file_id db coll
      = (Ok (celery_tasks.error_outcome "Failed to add to vector store"), (db', coll))
      /\ models.files db' !! file_id = Some file'
      /\ models.status file' = "failed"
      /\ models.error_message file' = Some "Failed to add to vector store"
      /\ models.total_chunks file' = models.total_chunks file
      /\ models.processed_at file' = models.processed_at file
      /\ models.chunks db'
         = (models.chunks db
            ++ celery_tasks.db_chunks uuid8 file_id
                 (celery_tasks.all_chunks_of sp docs) texts)%list
      /\ length (celery_tasks.db_chunks uuid8 file_id
                   (celery_tasks.all_chunks_of sp docs) texts)
         = length (celery_tasks.all_chunks_of sp docs)
      /\ (0 < length (celery_tasks.all_chunks_of sp docs))%nat.
Proof.
  intros P sp E C uuid8 utcnow file_id file db coll docs texts embs
         Hfile Hdocs Hne Htexts Hembs Hadd.
  rewrite (TaskFacts.task_run P sp E C uuid8 utcnow file_id file db coll Hfile).
  unfold task_spec.run. rewrite Hdocs.
  destruct docs as [|d docs]; [exfalso; apply Hne; reflexivity|].
  unfold task_spec.embed_stage.
  destruct (celery_tasks.all_chunks_of sp (d :: docs)) as [|c cs] eqn:Hcs;
    [exfalso; apply Hne; reflexivity|].
  rewrite Htexts, Hembs. unfold task_spec.store_stage. rewrite Hadd.
  cbn [fst snd].
  pose proof (RunFacts.processing_db_file file_id file db Hfile) as Hlive.
  eexists _, _. split; [reflexivity|].
  split.
  { apply RunFacts.failed_db_file. unfold task_spec.with_rows.
    cbn [models.files models.set_chunks]. exact Hlive. }
  repeat split.
  - apply StoreFacts.db_chunks_length.
    apply (StoreFacts.getitems_length _ _ _ Htexts).
  - simpl. lia.
Qed.

Lemma vector_store_failure_leaves_rows_witness :
  exists db' file',
    celery_tasks.process_file_task (fixtures.text_parsers "Alpha.") fixtures.whole_splitter
      fixtures.unit_services fixtures.broken_chroma fixtures.hex8 2000 7
      (fixtures.fresh_db "/uploads/f.txt" ".txt") []
    = (Ok (celery_tasks.error_outcome "Failed to add to vector store"), (db', []))
    /\ models.files db' !! 7 = Some file'
    /\ models.status file' = "failed"
    /\ models.error_message file' = Some "Failed to add to vector store"
    /\ models.total_chunks file' = 0
    /\ models.processed_at file' = None
    /\ models.chunks db'
       = ([] ++ celery_tasks.db_chunks fixtures.hex8 7
                  (celery_tasks.all_chunks_of fixtures.whole_splitter
                     [ {| text := "Alpha."; metadata := ∅ |} ])
                  [PStr "Alpha."])%list
    /\ length (celery_tasks.db_chunks fixtures.hex8 7
                 (celery_tasks.all_chunks_of fixtures.whole_splitter
                    [ {| text := "Alpha."; metadata := ∅ |} ])
                 [PStr "Alpha."])
       = length (celery_tasks.all_chunks_of fixtures.whole_splitter
                   [ {| text := "Alpha."; metadata := ∅ |} ])
    /\ (0 < length (celery_tasks.all_chunks_of fixtures.whole_splitter
                      [ {| text := "Alpha."; metadata := ∅ |} ]))%nat.
Proof.
  apply (vector_store_failure_leaves_rows (fixtures.text_parsers "Alpha.")
           fixtures.whole_splitter fixtures.unit_services fixtures.broken_chroma
           fixtures.hex8 2000 7
           (models.new_file 7 "u_f" "f" "/uploads/f.txt" ".txt" 10 1 1000)
           (fixtures.fresh_db "/uploads/f.txt" ".txt") []
           [ {| text := "Alpha."; metadata := ∅ |} ] [PStr "Alpha."] [[1%Q]]).
  - vm_compute. reflexivity.
  - vm_compute. reflexivity.
  - vm_compute. discriminate.
  - vm_compute. reflexivity.
  - reflexivity.
  - reflexivity.
Defined.

Module OrdinalFacts.
Import ChunkingService.



End OrdinalFacts.


Module SuccessFacts.
Import celery_tasks task_spec StoreFacts.

(** What a successful run leaves: the shape shared by the index and the
    counting properties. *)
Lemma success_shape (P : Parsers) (sp : Splitter) (E : Services) (C : Chroma)
    (uuid8 : nat -> string) (utcnow file_id : Z) (file : models.File)
    (db db' : models.database) (coll coll' : collection) (out : dict) :
  add_contract C ->
  models.files db !! file_id = Some file ->
  process_file_task P sp E C uuid8 utcnow file_id db coll = (Ok out, (db', coll')) ->
  out !! "status" = Some (PStr "success") ->
  exists docs texts embs,
    FileProcessor.process_file P (models.file_path file) (models.file_type file)
    = Ok docs
    /\ length texts = length (all_chunks_of sp docs)
    /\ same_lengths (chunk_ids_of uuid8 file_id (all_chunks_of sp docs)) texts embs
         (chunk_metadatas_of file_id (models.category_id file) (all_chunks_of sp docs))
       = true
    /\ out = success_outcome file_id (Z.of_nat (length (all_chunks_of sp docs)))
    /\ db' = completed_db utcnow file_id (Z.of_nat (length (all_chunks_of sp docs)))
               (with_rows (db_chunks uuid8 file_id (all_chunks_of sp docs) texts)
                          (processing_db file_id db))
    /\ coll' = (coll ++ entries_of
                          (chunk_ids_of uuid8 file_id (all_chunks_of sp docs)) texts embs
                          (chunk_metadatas_of file_id (models.category_id file)
                             (all_chunks_of sp docs)))%list.
Proof.
  intros Hcontract Hfile Hrun Hsuccess.
  rewrite (TaskFacts.task_run P sp E C uuid8 utcnow file_id file db coll Hfile) in Hrun.
  destruct (RunFacts.run_cases P sp E C uuid8 utcnow file_id file db coll)
    as [(m & e & db1 & Hcase & _) | (docs & texts & embs & coll1 & Hdocs & Htexts
                                     & Hembs & Hadd & Hcase)];
    rewrite Hcase in Hrun; cbn [fst snd] in Hrun;
    injection Hrun as <- <- <-.
  - exfalso. exact (error_not_success m Hsuccess).
  - destruct (Hcontract _ _ _ _ _ _ Hadd) as [Hlens ->].
    exists docs, texts, embs. repeat split; try assumption.
    apply (getitems_length _ _ _ Htexts).
Qed.

End SuccessFacts.





(** ** Distance to confidence *)

(** *** Rounding to binary64 *)

Module FloatFacts.
Import python_float.
Local Open Scope Q_scope.

Lemma pow2_pos (e : Z) : 0 < 2 ^ e.
Proof. apply Qpower_0_lt. reflexivity. Qed.

Lemma pow2_add (a b : Z) : 2 ^ (a + b) == 2 ^ a * 2 ^ b.
Proof. apply Qpower_plus. discriminate. Qed.

Lemma pow2_Z (k : Z) : (0 <= k)%Z -> 2 ^ k == inject_Z (2 ^ k).
Proof. intros H. rewrite (Zpower_Qpower 2 k H). reflexivity. Qed.

Lemma pow2_le (a b : Z) : (a <= b)%Z -> 2 ^ a <= 2 ^ b.
Proof. intros H. apply Qpower_le_compat_l; [exact H | discriminate]. Qed.

Lemma pow2_lt (a b : Z) : (a < b)%Z -> 2 ^ a < 2 ^ b.
Proof. intros H. apply Qpower_lt_compat_l; [exact H | reflexivity]. Qed.

Lemma pow2_lt_inv (a b : Z) : 2 ^ a < 2 ^ b -> (a < b)%Z.
Proof. intros H. apply (Qpower_lt_compat_l_inv 2); [exact H | reflexivity]. Qed.


Lemma Qabs_make (x : Q) : Qabs x == inject_Z (Z.abs (Qnum x)) / inject_Z (Zpos (Qden x)).
Proof. destruct x as [n d]. cbn [Qabs Qnum Qden]. apply Qmake_Qdiv. Qed.

Lemma ilog2_spec (x : Q) :
  ~ x == 0 -> 2 ^ ilog2 x <= Qabs x /\ Qabs x < 2 ^ (ilog2 x + 1).
Proof.
  intros Hx.
  set (n := Z.abs (Qnum x)). set (d := Zpos (Qden x)).
  assert (Hn : (0 < n)%Z).
  { subst n. destruct x as [[|p|p] q]; cbn; try lia. exfalso. apply Hx. reflexivity. }
  assert (Hd : (0 < d)%Z) by (subst d; lia).
  destruct (Z.log2_spec n Hn) as [Hn1 Hn2]. destruct (Z.log2_spec d Hd) as [Hd1 Hd2].
  set (a := Z.log2 n) in *. set (b := Z.log2 d) in *.
  assert (Ha : (0 <= a)%Z) by apply Z.log2_nonneg.
  assert (Hb : (0 <= b)%Z) by apply Z.log2_nonneg.
  assert (Qn1 : 2 ^ a <= inject_Z n) by (rewrite pow2_Z by lia; rewrite <- Zle_Qle; exact Hn1).
  assert (Qn2 : inject_Z n < 2 ^ (a + 1))
    by (rewrite pow2_Z by lia; rewrite <- Zlt_Qlt; exact Hn2).
  assert (Qd1 : 2 ^ b <= inject_Z d) by (rewrite pow2_Z by lia; rewrite <- Zle_Qle; exact Hd1).
  assert (Qd2 : inject_Z d < 2 ^ (b + 1))
    by (rewrite pow2_Z by lia; rewrite <- Zlt_Qlt; exact Hd2).
  assert (Qd : 0 < inject_Z d) by (change 0 with (inject_Z 0); rewrite <- Zlt_Qlt; exact Hd).
  assert (Habs : Qabs x == inject_Z n / inject_Z d) by apply Qabs_make.
  unfold ilog2. fold n d a b.
  destruct (Qlt_le_dec (Qabs x) (2 ^ (a - b))) as [Hlt|Hge].
  - split.
    + rewrite Habs. apply Qle_shift_div_l; [exact Qd|].
      apply Qle_trans with (2 ^ a); [|exact Qn1].
      replace a with ((a - b - 1) + (b + 1))%Z at 2 by lia. rewrite pow2_add.
      apply Qmult_le_l; [apply pow2_pos|]. apply Qlt_le_weak, Qd2.
    + replace (a - b - 1 + 1)%Z with (a - b)%Z by lia. exact Hlt.
  - split; [exact Hge|].
    rewrite Habs. apply Qlt_shift_div_r; [exact Qd|].
    apply Qlt_le_trans with (2 ^ (a + 1)); [exact Qn2|].
    replace (a + 1)%Z with ((a - b + 1) + b)%Z at 1 by lia. rewrite pow2_add.
    apply Qmult_le_l; [apply pow2_pos|]. exact Qd1.
Qed.

Lemma ilog2_unique (x : Q) (e : Z) :
  2 ^ e <= Qabs x -> Qabs x < 2 ^ (e + 1) -> ilog2 x = e.
Proof.
  intros H1 H2.
  assert (Hx : ~ x == 0).
  { intros H. rewrite H in H1. pose proof (pow2_pos e) as Hp.
    change (Qabs 0) with 0 in H1. apply (Qlt_irrefl 0). eapply Qlt_le_trans; eassumption. }
  destruct (ilog2_spec x Hx) as [H3 H4].
  assert ((e < ilog2 x + 1)%Z) by (apply pow2_lt_inv; lra).
  assert ((ilog2 x < e + 1)%Z) by (apply pow2_lt_inv; lra).
  lia.
Qed.


Lemma round_half_even_compat (x y : Q) : x == y -> round_half_even x = round_half_even y.
Proof.
  intros H. unfold round_half_even.
  rewrite (Qfloor_comp x y H).
  assert (Hc : (x - inject_Z (Qfloor y) ?= 1 # 2) = (y - inject_Z (Qfloor y) ?= 1 # 2)).
  { apply Qcompare_comp; [|reflexivity]. apply Qplus_comp; [exact H|reflexivity]. }
  rewrite Hc. reflexivity.
Qed.

Lemma round_half_even_near (x : Q) :
  inject_Z (round_half_even x) - (1#2) <= x /\ x <= inject_Z (round_half_even x) + (1#2).
Proof.
  unfold round_half_even.
  pose proof (Qfloor_le x) as Hlo. pose proof (Qlt_floor x) as Hhi.
  rewrite inject_Z_plus in Hhi. change (inject_Z 1) with 1 in Hhi.
  destruct (x - inject_Z (Qfloor x) ?= 1 # 2) eqn:Hc.
  - apply Qeq_alt in Hc.
    destruct (Z.even (Qfloor x)); [|rewrite inject_Z_plus];
      change (inject_Z 1) with 1 in *; lra.
  - apply Qlt_alt in Hc. lra.
  - apply Qgt_alt in Hc. rewrite inject_Z_plus.
    change (inject_Z 1) with 1 in *. lra.
Qed.

Lemma round_half_even_mono (x y : Q) : x <= y -> (round_half_even x <= round_half_even y)%Z.
Proof.
  intros Hxy. destruct (Z_le_gt_dec (round_half_even x) (round_half_even y)) as [H|H];
    [exact H|exfalso].
  destruct (round_half_even_near x) as [Hx _]. destruct (round_half_even_near y) as [_ Hy].
  assert (Hz : inject_Z (round_half_even y) + 1 <= inject_Z (round_half_even x)).
  { change 1 with (inject_Z 1). rewrite <- inject_Z_plus, <- Zle_Qle. lia. }
  assert (Heq : x == y) by lra.
  apply round_half_even_compat in Heq. lia.
Qed.

Lemma round_half_even_inject (n : Z) : round_half_even (inject_Z n) = n.
Proof.
  unfold round_half_even. cbv zeta. rewrite Qfloor_Z.
  assert (H : inject_Z n - inject_Z n < 1 # 2) by lra.
  rewrite (proj1 (Qlt_alt (inject_Z n - inject_Z n) (1 # 2)) H). reflexivity.
Qed.

(** Rounding to a multiple of [2^u]. *)
Definition round_at (u : Z) (x : Q) : Q := inject_Z (round_half_even (x / 2 ^ u)) * 2 ^ u.

Lemma nearest_round_at (x : Q) : nearest x = round_at (ulp_exponent x) x.
Proof. reflexivity. Qed.

Lemma div_pow2_le (u : Z) (x y : Q) : x <= y -> x / 2 ^ u <= y / 2 ^ u.
Proof.
  intros H. unfold Qdiv. apply Qmult_le_compat_r; [exact H|].
  apply Qlt_le_weak, Qinv_lt_0_compat, pow2_pos.
Qed.

Lemma round_at_mono (u : Z) (x y : Q) : x <= y -> round_at u x <= round_at u y.
Proof.
  intros H. unfold round_at.
  apply Qmult_le_compat_r; [|apply Qlt_le_weak, pow2_pos].
  rewrite <- Zle_Qle. apply round_half_even_mono, div_pow2_le, H.
Qed.

Lemma round_at_compat (u : Z) (x y : Q) : x == y -> round_at u x == round_at u y.
Proof.
  intros H. unfold round_at.
  rewrite (round_half_even_compat (x / 2 ^ u) (y / 2 ^ u)); [reflexivity|].
  rewrite H. reflexivity.
Qed.

(** A multiple of [2^u] is kept. *)
Lemma round_at_multiple (u : Z) (k : Z) : round_at u (inject_Z k * 2 ^ u) == inject_Z k * 2 ^ u.
Proof.
  unfold round_at.
  rewrite (round_half_even_compat (inject_Z k * 2 ^ u / 2 ^ u) (inject_Z k)).
  - rewrite round_half_even_inject. reflexivity.
  - field. apply Qnot_eq_sym, Qlt_not_eq, pow2_pos.
Qed.

Lemma round_at_pow2 (u e : Z) : (u <= e)%Z -> round_at u (2 ^ e) == 2 ^ e.
Proof.
  intros H.
  assert (He : 2 ^ e == inject_Z (2 ^ (e - u)) * 2 ^ u).
  { rewrite <- pow2_Z by lia. rewrite <- pow2_add. replace (e - u + u)%Z with e by lia.
    reflexivity. }
  rewrite (round_at_compat u _ _ He), round_at_multiple. symmetry. exact He.
Qed.





Lemma ilog2_mono (x y : Q) : 0 < x -> x <= y -> (ilog2 x <= ilog2 y)%Z.
Proof.
  intros Hx Hxy.
  destruct (ilog2_spec x) as [H1 _]; [lra|].
  destruct (ilog2_spec y) as [_ H2]; [lra|].
  rewrite Qabs_pos in H1 by lra. rewrite Qabs_pos in H2 by lra.
  assert ((ilog2 x < ilog2 y + 1)%Z) by (apply pow2_lt_inv; lra).
  lia.
Qed.

Lemma nearest_nonneg (x : Q) : 0 <= x -> 0 <= nearest x.
Proof.
  intros H. rewrite nearest_round_at.
  apply Qle_trans with (round_at (ulp_exponent x) (inject_Z 0 * 2 ^ ulp_exponent x)).
  - rewrite round_at_multiple. change (inject_Z 0) with 0. rewrite Qmult_0_l. apply Qle_refl.
  - apply round_at_mono. change (inject_Z 0) with 0. rewrite Qmult_0_l. exact H.
Qed.

Lemma nearest_nonpos (x : Q) : x <= 0 -> nearest x <= 0.
Proof.
  intros H. rewrite nearest_round_at.
  apply Qle_trans with (round_at (ulp_exponent x) (inject_Z 0 * 2 ^ ulp_exponent x)).
  - apply round_at_mono. change (inject_Z 0) with 0. rewrite Qmult_0_l. exact H.
  - rewrite round_at_multiple. change (inject_Z 0) with 0. rewrite Qmult_0_l. apply Qle_refl.
Qed.


Lemma round_at_neg_pow2 (u e : Z) : (u <= e)%Z -> round_at u (- 2 ^ e) == - 2 ^ e.
Proof.
  intros H.
  assert (He : - 2 ^ e == inject_Z (- 2 ^ (e - u)) * 2 ^ u).
  { rewrite inject_Z_opp, <- pow2_Z by lia.
    setoid_replace (- 2 ^ (e - u) * 2 ^ u) with (- (2 ^ (e - u) * 2 ^ u))
      using relation Qeq by ring.
    rewrite <- pow2_add. replace (e - u + u)%Z with e by lia. reflexivity. }
  rewrite (round_at_compat u _ _ He), round_at_multiple. symmetry. exact He.
Qed.

Lemma ulp_exponent_cases (x : Q) :
  (ulp_exponent x = ilog2 x - 52 /\ -1074 <= ilog2 x - 52)%Z
  \/ (ulp_exponent x = -1074 /\ ilog2 x - 52 < -1074)%Z.
Proof. unfold ulp_exponent. lia. Qed.

Lemma nearest_mono_pos (x y : Q) : 0 < x -> x <= y -> nearest x <= nearest y.
Proof.
  intros Hx Hxy.
  pose proof (ilog2_mono x y Hx Hxy) as He.
  destruct (ilog2_spec x) as [_ Hx2]; [lra|].
  destruct (ilog2_spec y) as [Hy1 _]; [lra|].
  rewrite Qabs_pos in Hx2 by lra. rewrite Qabs_pos in Hy1 by lra.
  rewrite !nearest_round_at.
  destruct (Z.eq_dec (ulp_exponent x) (ulp_exponent y)) as [Heq|Hne].
  - rewrite Heq. apply round_at_mono, Hxy.
  - assert (Hux : (ulp_exponent x <= ilog2 y)%Z)
      by (destruct (ulp_exponent_cases x) as [[? ?]|[? ?]];
          destruct (ulp_exponent_cases y) as [[? ?]|[? ?]]; lia).
    assert (Huy : (ulp_exponent y <= ilog2 y)%Z)
      by (destruct (ulp_exponent_cases x) as [[? ?]|[? ?]];
          destruct (ulp_exponent_cases y) as [[? ?]|[? ?]]; lia).
    assert (Hlt : (ilog2 x + 1 <= ilog2 y)%Z)
      by (destruct (ulp_exponent_cases x) as [[? ?]|[? ?]];
          destruct (ulp_exponent_cases y) as [[? ?]|[? ?]]; lia).
    pose proof (pow2_le _ _ Hlt) as Hp.
    apply Qle_trans with (round_at (ulp_exponent x) (2 ^ ilog2 y));
      [apply round_at_mono; lra|].
    rewrite (round_at_pow2 (ulp_exponent x) (ilog2 y) Hux).
    rewrite <- (round_at_pow2 (ulp_exponent y) (ilog2 y) Huy).
    apply round_at_mono. exact Hy1.
Qed.

Lemma ilog2_opp (x : Q) : ilog2 (- x) = ilog2 x.
Proof.
  destruct (Qeq_dec x 0) as [Hz|Hnz].
  - destruct x as [n d]. assert (n = 0%Z) by (unfold Qeq in Hz; cbn in Hz; lia).
    subst n. reflexivity.
  - destruct (ilog2_spec x Hnz) as [H1 H2].
    apply ilog2_unique; rewrite Qabs_opp; assumption.
Qed.

Lemma nearest_mono_neg (x y : Q) : y < 0 -> x <= y -> nearest x <= nearest y.
Proof.
  intros Hy Hxy.
  assert (He : (ilog2 y <= ilog2 x)%Z).
  { rewrite <- (ilog2_opp x), <- (ilog2_opp y). apply ilog2_mono; lra. }
  destruct (ilog2_spec x) as [Hx1 _]; [lra|].
  destruct (ilog2_spec y) as [_ Hy2]; [lra|].
  rewrite Qabs_neg in Hx1 by lra. rewrite Qabs_neg in Hy2 by lra.
  rewrite !nearest_round_at.
  destruct (Z.eq_dec (ulp_exponent x) (ulp_exponent y)) as [Heq|Hne].
  - rewrite Heq. apply round_at_mono, Hxy.
  - assert (Hux : (ulp_exponent x <= ilog2 x)%Z)
      by (destruct (ulp_exponent_cases x) as [[? ?]|[? ?]];
          destruct (ulp_exponent_cases y) as [[? ?]|[? ?]]; lia).
    assert (Huy : (ulp_exponent y <= ilog2 x)%Z)
      by (destruct (ulp_exponent_cases x) as [[? ?]|[? ?]];
          destruct (ulp_exponent_cases y) as [[? ?]|[? ?]]; lia).
    assert (Hlt : (ilog2 y + 1 <= ilog2 x)%Z)
      by (destruct (ulp_exponent_cases x) as [[? ?]|[? ?]];
          destruct (ulp_exponent_cases y) as [[? ?]|[? ?]]; lia).
    pose proof (pow2_le _ _ Hlt) as Hp.
    apply Qle_trans with (round_at (ulp_exponent x) (- 2 ^ ilog2 x));
      [apply round_at_mono; lra|].
    rewrite (round_at_neg_pow2 (ulp_exponent x) (ilog2 x) Hux).
    rewrite <- (round_at_neg_pow2 (ulp_exponent y) (ilog2 x) Huy).
    apply round_at_mono. lra.
Qed.

(** Rounding to nearest is monotone. *)
Lemma nearest_mono (x y : Q) : x <= y -> nearest x <= nearest y.
Proof.
  intros Hxy.
  destruct (Qlt_le_dec 0 x) as [Hx|Hx]; [apply nearest_mono_pos; assumption|].
  destruct (Qlt_le_dec y 0) as [Hy|Hy]; [apply nearest_mono_neg; assumption|].
  apply Qle_trans with 0; [apply nearest_nonpos, Hx | apply nearest_nonneg, Hy].
Qed.

Lemma nearest_one : nearest 1 == 1.
Proof. vm_compute. reflexivity. Qed.



Lemma nearest_unit (x : Q) : 0 <= x <= 1 -> 0 <= nearest x <= 1.
Proof.
  intros [H0 H1]. split; [apply nearest_nonneg, H0|].
  rewrite <- nearest_one. apply nearest_mono, H1.
Qed.

End FloatFacts.

(** *** The confidence score *)

Module ConfidenceFacts.
Import search python_float FloatFacts.
Local Open Scope Q_scope.

Lemma py_max_min_clamp (v : Q) : py_max 0 (py_min 1 v) == clamp v 0 1.
Proof.
  unfold py_max, py_min, clamp.
  destruct (Qlt_le_dec v 1) as [H1|H1].
  - rewrite (Q.min_l v 1) by lra.
    destruct (Qlt_le_dec 0 v) as [H0|H0].
    + rewrite Q.max_r by lra. reflexivity.
    + rewrite Q.max_l by lra. reflexivity.
  - rewrite (Q.min_r v 1) by lra.
    destruct (Qlt_le_dec 0 1) as [H0|H0]; [|lra].
    rewrite Q.max_r by lra. reflexivity.
Qed.

Lemma clamp_bounds v : 0 <= clamp v 0 1 <= 1.
Proof.
  unfold clamp. split.
  - apply Q.le_max_l.
  - apply Q.max_lub; [lra|apply Q.le_min_r].
Qed.




(** The value the code clamps and the clamped confidence. *)
Definition raw (d : Q) : Q := python_float.sub 1 (python_float.div d 2).
Definition clamped (d : Q) : Q := py_max 0 (py_min 1 (raw d)).
Definition hundredths (d : Q) : Z := round_half_even (clamped d * 100).

Lemma confidence_hundredths d :
  distance_to_confidence d = nearest (inject_Z (hundredths d) / 100).
Proof. unfold distance_to_confidence, hundredths, clamped, raw, round2. reflexivity. Qed.

Lemma clamped_clamp d : clamped d == clamp (raw d) 0 1.
Proof. apply py_max_min_clamp. Qed.



Lemma hundredths_range d : (0 <= hundredths d <= 100)%Z.
Proof.
  unfold hundredths. pose proof (clamp_bounds (raw d)) as [H0 H1].
  rewrite <- clamped_clamp in H0, H1.
  assert (Hlo : (round_half_even (inject_Z 0) <= round_half_even (clamped d * 100))%Z)
    by (apply round_half_even_mono; change (inject_Z 0) with 0; lra).
  assert (Hhi : (round_half_even (clamped d * 100) <= round_half_even (inject_Z 100))%Z)
    by (apply round_half_even_mono; change (inject_Z 100) with 100; lra).
  rewrite round_half_even_inject in Hlo, Hhi. lia.
Qed.

Lemma hundredths_unit k : (0 <= k <= 100)%Z -> 0 <= inject_Z k / 100 <= 1.
Proof.
  intros [H0 H1]. rewrite Zle_Qle in H0, H1.
  change (inject_Z 0) with 0 in H0. change (inject_Z 100) with 100 in H1.
  split.
  - apply Qle_shift_div_l; [reflexivity|]. lra.
  - apply Qle_shift_div_r; [reflexivity|]. lra.
Qed.


Lemma confidence_unit d : 0 <= distance_to_confidence d <= 1.
Proof.
  rewrite confidence_hundredths. apply nearest_unit, hundredths_unit, hundredths_range.
Qed.






End ConfidenceFacts.

Section Confidence.
Local Open Scope Q_scope.

(** C4, counterexample: at the float 0.85 the exact value of
    [1 - distance/2] is just above 0.575 and rounds to 0.58, while the
    float subtraction rounds it to the float just below 0.575, so that the
    function returns 0.57: its result is not the exact formula rounded to
    two decimals. *)
Lemma confidence_differs_from_exact_formula :
  let d := fixtures_search.d085 in
  python_float.nearest (85 # 100) == d
  /\ search.distance_to_confidence d == python_float.nearest (57 # 100)
  /\ Qabs (search.clamp (1 - d / 2) 0 1 - (58 # 100)) <= 1 # 200
  /\ ~ python_float.nearest (57 # 100) == python_float.nearest (58 # 100)
  /\ ~ search.rounded_to_2_decimals (search.distance_to_confidence d)
         (search.clamp (1 - d / 2) 0 1).
Proof.
  cbv zeta.
  assert (H57 : search.distance_to_confidence fixtures_search.d085 == python_float.nearest (57 # 100))
    by (vm_compute; reflexivity).
  split; [vm_compute; reflexivity|]. split; [exact H57|].
  split; [vm_compute; discriminate|].
  split; [vm_compute; discriminate|].
  intros (k & Hr & Hk).
  assert (Hk58 : k = 58%Z).
  { apply Qabs_Qle_condition in Hk. destruct Hk as [H1 H2].
    assert (Hx : search.clamp (1 - fixtures_search.d085 / 2) 0 1
                 == 10358279142952141 # 18014398509481984) by (vm_compute; reflexivity).
    rewrite Hx in H1, H2.
    assert (Hq : inject_Z k == inject_Z k / 100 * 100) by field.
    revert H1 H2 Hq. generalize (inject_Z k / 100). intros q H1 H2 Hq.
    assert (G1 : inject_Z k < inject_Z 59) by (change (inject_Z 59) with 59; lra).
    assert (G2 : inject_Z 57 < inject_Z k) by (change (inject_Z 57) with 57; lra).
    rewrite <- Zlt_Qlt in G1, G2. lia. }
  subst k. rewrite H57 in Hr. revert Hr. vm_compute. discriminate.
Qed.



End Confidence.

(** ** Retrieval *)

Module SearchFacts.
Import VectorStoreService.

(** A query that matches nothing, or that fails, gives the empty list. *)
Lemma search_no_match (C : Chroma) (coll : collection) (v : vector)
    (category_id top_k : Z) (r : query_result) :
  collection_query C coll v top_k category_id = Ok r ->
  ids r = [[]] ->
  search C coll v category_id top_k = [].
Proof. intros Hq Hids. unfold search. rewrite Hq, Hids. reflexivity. Qed.

Lemma search_read_error (C : Chroma) (coll : collection) (v : vector)
    (category_id top_k : Z) (e : string) :
  collection_query C coll v top_k category_id = Raise e ->
  search C coll v category_id top_k = [].
Proof. intros Hq. unfold search. rewrite Hq. reflexivity. Qed.

End SearchFacts.

(** C7: when the vector search of a query request or of a question request
    returns the empty list, the endpoint answers with its fixed fallback
    text, confidence 0 and no results, and among the calls it has made
    there is none to the answer-synthesis service. *)
Theorem empty_search_short_circuits :
  forall (E : Services) (C : Chroma) (db : models.database) (coll : collection),
    (forall (request : schemas.SearchRequest) (cat : models.Category)
            (query_embedding : vector),
        models.categories db !! schemas.category_id request = Some cat ->
        generate_embedding E (schemas.query request) = Ok query_embedding ->
        VectorStoreService.search C coll query_embedding
          (schemas.category_id request) (schemas.top_k request) = [] ->
        exists calls,
          search.search_query E C request db coll
          = (Response {| schemas.answer := "No relevant documents found for your query.";
                         schemas.sr_confidence_score := 0;
                         schemas.results := [] |}, calls)
          /\ existsb is_synthesis calls = false)
    /\ (forall (request : schemas.QARequest) (cat : models.Category)
               (query_embedding : vector),
        models.categories db !! schemas.qa_category_id request = Some cat ->
        generate_embedding E (schemas.question request) = Ok query_embedding ->
        VectorStoreService.search C coll query_embedding
          (schemas.qa_category_id request) (schemas.qa_top_k request) = [] ->
        exists calls,
          search.question_answer E C request db coll
          = (Response {| schemas.qa_answer :=
                           "I couldn't find relevant information to answer your question.";
                         schemas.qa_confidence_score := 0;
                         schemas.relevant_chunks := [] |}, calls)
          /\ existsb is_synthesis calls = false).
Proof.
  intros E C db coll. split.
  - intros request cat v Hcat Hemb Hsearch.
    unfold search.search_query. rewrite Hcat, Hemb, Hsearch.
    eexists. split; reflexivity.
  - intros request cat v Hcat Hemb Hsearch.
    unfold search.question_answer. rewrite Hcat, Hemb, Hsearch.
    eexists. split; reflexivity.
Qed.

(** A category with no ingested file, queried and asked. *)
Lemma empty_search_short_circuits_witness :
  (exists calls,
      search.search_query fixtures.unit_services fixtures.memory_chroma
        {| schemas.query := "what is alpha?"; schemas.category_id := 1;
           schemas.top_k := 5 |}
        (fixtures.fresh_db "/uploads/f.txt" ".txt") []
      = (Response {| schemas.answer := "No relevant documents found for your query.";
                     schemas.sr_confidence_score := 0;
                     schemas.results := [] |}, calls)
      /\ existsb is_synthesis calls = false)
  /\ (exists calls,
      search.question_answer fixtures.unit_services fixtures.memory_chroma
        {| schemas.question := "what is alpha?"; schemas.qa_category_id := 1;
           schemas.qa_top_k := 5 |}
        (fixtures.fresh_db "/uploads/f.txt" ".txt") []
      = (Response {| schemas.qa_answer :=
                       "I couldn't find relevant information to answer your question.";
                     schemas.qa_confidence_score := 0;
                     schemas.relevant_chunks := [] |}, calls)
      /\ existsb is_synthesis calls = false).
Proof.
  destruct (empty_search_short_circuits fixtures.unit_services fixtures.memory_chroma
              (fixtures.fresh_db "/uploads/f.txt" ".txt") []) as [Hq Ha].
  split.
  - apply (Hq _ fixtures.docs_category [1%Q]); vm_compute; reflexivity.
  - apply (Ha _ fixtures.docs_category [1%Q]); vm_compute; reflexivity.
Defined.

(** ** Request validation *)

Module SchemaFacts.
Import schemas.

Lemma int_field_in_bounds (default : option Z) (lo hi : Z) (v : option Z) (z : Z) :
  (forall d, default = Some d -> lo <= d <= hi) ->
  int_field default (Some (lo, hi)) v = Ok z -> lo <= z <= hi.
Proof.
  intros Hd. unfold int_field. destruct v as [k|].
  - destruct (k <? lo)%Z eqn:Hlo; [discriminate|].
    destruct (hi <? k)%Z eqn:Hhi; [discriminate|].
    intros [= <-]. lia.
  - destruct default as [d|]; [|discriminate]. intros [= <-]. apply Hd. reflexivity.
Qed.

Lemma int_field_rejects (default : option Z) (lo hi k : Z) :
  k < lo \/ hi < k ->
  exists m, int_field default (Some (lo, hi)) (Some k) = Raise m.
Proof.
  intros Hout. unfold int_field.
  destruct (k <? lo)%Z eqn:Hlo; [eauto|].
  destruct (hi <? k)%Z eqn:Hhi; [eauto|]. lia.
Qed.

Lemma rbind_raise {A B} (r : result A) (k : A -> result B) :
  (forall a, exists m, k a = Raise m) -> exists m, rbind r k = Raise m.
Proof. intros Hk. destruct r as [a|m]; simpl; [apply Hk | eauto]. Qed.

Lemma rbind_ok {A B} (r : result A) (k : A -> result B) (b : B) :
  rbind r k = Ok b -> exists a, r = Ok a /\ k a = Ok b.
Proof. destruct r as [a|m]; simpl; [eauto | discriminate]. Qed.

End SchemaFacts.

(** C9: the request models accept a [top_k] only within 1..20 for query
    and question requests and within 1..50 for find-passages requests, and
    a [max_length] only within 100..2000 for summarize requests; a request
    carrying a value outside its range fails validation. *)
Theorem request_bounds :
  (forall b r, schemas.validate_SearchRequest b = Ok r -> 1 <= schemas.top_k r <= 20)
  /\ (forall b k, schemas.b_top_k b = Some k -> k < 1 \/ 20 < k ->
      exists m, schemas.validate_SearchRequest b = Raise m)
  /\ (forall b r, schemas.validate_QARequest b = Ok r -> 1 <= schemas.qa_top_k r <= 20)
  /\ (forall b k, schemas.b_qa_top_k b = Some k -> k < 1 \/ 20 < k ->
      exists m, schemas.validate_QARequest b = Raise m)
  /\ (forall b r, schemas.validate_FindPassagesRequest b = Ok r ->
      1 <= schemas.fp_top_k r <= 50)
  /\ (forall b k, schemas.b_fp_top_k b = Some k -> k < 1 \/ 50 < k ->
      exists m, schemas.validate_FindPassagesRequest b = Raise m)
  /\ (forall b r n, schemas.validate_SummarizeRequest b = Ok r ->
      schemas.max_length r = Some n -> 100 <= n <= 2000)
  /\ (forall b k, schemas.b_max_length b = Some (Some k) -> k < 100 \/ 2000 < k ->
      exists m, schemas.validate_SummarizeRequest b = Raise m).
Proof.
  repeat apply conj.
  - intros b r H. unfold schemas.validate_SearchRequest in H.
    apply SchemaFacts.rbind_ok in H as (q & _ & H).
    apply SchemaFacts.rbind_ok in H as (c & _ & H).
    apply SchemaFacts.rbind_ok in H as (k & Hk & H).
    injection H as <-. cbn [schemas.top_k].
    eapply SchemaFacts.int_field_in_bounds; [|exact Hk]. intros d [= <-]. lia.
  - intros b k Hb Hout. unfold schemas.validate_SearchRequest.
    apply SchemaFacts.rbind_raise. intros q.
    apply SchemaFacts.rbind_raise. intros c. rewrite Hb.
    destruct (SchemaFacts.int_field_rejects (Some 5) 1 20 k Hout) as [m ->]. simpl. eauto.
  - intros b r H. unfold schemas.validate_QARequest in H.
    apply SchemaFacts.rbind_ok in H as (q & _ & H).
    apply SchemaFacts.rbind_ok in H as (c & _ & H).
    apply SchemaFacts.rbind_ok in H as (k & Hk & H).
    injection H as <-. cbn [schemas.qa_top_k].
    eapply SchemaFacts.int_field_in_bounds; [|exact Hk]. intros d [= <-]. lia.
  - intros b k Hb Hout. unfold schemas.validate_QARequest.
    apply SchemaFacts.rbind_raise. intros q.
    apply SchemaFacts.rbind_raise. intros c. rewrite Hb.
    destruct (SchemaFacts.int_field_rejects (Some 5) 1 20 k Hout) as [m ->]. simpl. eauto.
  - intros b r H. unfold schemas.validate_FindPassagesRequest in H.
    apply SchemaFacts.rbind_ok in H as (q & _ & H).
    apply SchemaFacts.rbind_ok in H as (c & _ & H).
    apply SchemaFacts.rbind_ok in H as (k & Hk & H).
    injection H as <-. cbn [schemas.fp_top_k].
    eapply SchemaFacts.int_field_in_bounds; [|exact Hk]. intros d [= <-]. lia.
  - intros b k Hb Hout. unfold schemas.validate_FindPassagesRequest.
    apply SchemaFacts.rbind_raise. intros q.
    apply SchemaFacts.rbind_raise. intros c. rewrite Hb.
    destruct (SchemaFacts.int_field_rejects (Some 10) 1 50 k Hout) as [m ->]. simpl. eauto.
  - intros b r n H Hn. unfold schemas.validate_SummarizeRequest in H.
    apply SchemaFacts.rbind_ok in H as (c & _ & H).
    apply SchemaFacts.rbind_ok in H as (ml & Hml & H).
    injection H as <-. cbn [schemas.max_length] in Hn. subst ml.
    unfold schemas.optional_int_field in Hml.
    destruct (schemas.b_max_length b) as [[k|]|].
    + apply SchemaFacts.rbind_ok in Hml as (z & Hz & Hml). injection Hml as <-.
      eapply SchemaFacts.int_field_in_bounds; [|exact Hz]. discriminate.
    + discriminate Hml.
    + injection Hml as <-. lia.
  - intros b k Hb Hout. unfold schemas.validate_SummarizeRequest.
    apply SchemaFacts.rbind_raise. intros c. rewrite Hb.
    unfold schemas.optional_int_field.
    destruct (SchemaFacts.int_field_rejects None 100 2000 k Hout) as [m ->]. simpl. eauto.
Qed.

Lemma request_bounds_witness :
  (exists m, schemas.validate_SearchRequest
               {| schemas.b_query := Some "q"; schemas.b_category_id := Some 1;
                  schemas.b_top_k := Some 21 |} = Raise m)
  /\ (exists m, schemas.validate_FindPassagesRequest
                  {| schemas.b_fp_query := Some "q"; schemas.b_fp_category_id := Some 1;
                     schemas.b_fp_top_k := Some 0 |} = Raise m)
  /\ (exists m, schemas.validate_SummarizeRequest
                  {| schemas.b_sum_category_id := Some 1;
                     schemas.b_max_length := Some (Some 99) |} = Raise m).
Proof.
  destruct request_bounds as (_ & Hs & _ & _ & _ & Hf & _ & Hm).
  split; [apply (Hs _ 21); [reflexivity | lia]|].
  split; [apply (Hf _ 0); [reflexivity | lia]|].
  apply (Hm _ 99); [reflexivity | lia].
Defined.

(** ** Listing files *)

Module FilesFacts.
Import files.

Lemma query_files_zero (db : models.database) :
  query_files (Some 0) db = query_files None db.
Proof. reflexivity. Qed.

End FilesFacts.


(** On the freshly uploaded file 7 of category 1: listed under 0 as under
    no category, not under category 2. *)
Example list_files_zero_lists_category_1 :
  let ids_listed (category_id : option Z) : result (list Z) :=
    rbind (files.list_files category_id (fixtures.fresh_db "/uploads/f.txt" ".txt"))
          (fun l => Ok (map schemas.fl_id l)) in
  ids_listed (Some 0) = Ok [7] /\ ids_listed None = Ok [7]
  /\ ids_listed (Some 1) = Ok [7] /\ ids_listed (Some 2) = Ok [].
Proof. cbv zeta. repeat split; vm_compute; reflexivity. Qed.

(** ** Runs on concrete files *)

(** A text file "Alpha.\n\nBeta." that fits one chunk: the file is
    completed with one chunk. *)
Example run_alpha_beta :
  let content := "Alpha." ++ String "010" (String "010" "Beta.") in
  let r := celery_tasks.process_file_task (fixtures.text_parsers content)
             fixtures.whole_splitter fixtures.unit_services fixtures.memory_chroma
             fixtures.hex8 2000 7 (fixtures.fresh_db "/uploads/f.txt" ".txt") [] in
  fst r = Ok (celery_tasks.success_outcome 7 1)
  /\ (models.status <$> models.files (fst (snd r)) !! 7) = Some "completed"
  /\ (models.total_chunks <$> models.files (fst (snd r)) !! 7) = Some 1
  /\ models.chunk_id <$> models.chunks (fst (snd r)) = ["file_7_chunk_0_00000000"]
  /\ length (snd (snd r)) = 1%nat.
Proof. cbv zeta. repeat split; vm_compute; reflexivity. Qed.

(** A text file of white space only: one fragment is extracted, no chunk
    is made of it, and the file fails with "No chunks created". *)
Example run_blank_text :
  let r := celery_tasks.process_file_task (fixtures.text_parsers "  ")
             fixtures.whole_splitter fixtures.unit_services fixtures.memory_chroma
             fixtures.hex8 2000 7 (fixtures.fresh_db "/uploads/f.txt" ".txt") [] in
  fst r = Ok (celery_tasks.error_outcome "No chunks created")
  /\ (models.status <$> models.files (fst (snd r)) !! 7) = Some "failed"
  /\ (models.error_message <$> models.files (fst (snd r)) !! 7)
     = Some (Some "No chunks created")
  /\ models.chunks (fst (snd r)) = []
  /\ snd (snd r) = [].
Proof. cbv zeta. repeat split; vm_compute; reflexivity. Qed.

(** The embedding service being down: nothing is persisted. *)
Example run_embedder_down :
  let r := celery_tasks.process_file_task (fixtures.text_parsers "Alpha.")
             fixtures.whole_splitter fixtures.failing_services fixtures.memory_chroma
             fixtures.hex8 2000 7 (fixtures.fresh_db "/uploads/f.txt" ".txt") [] in
  fst r = Ok (celery_tasks.error_outcome "embedding service unavailable")
  /\ (models.status <$> models.files (fst (snd r)) !! 7) = Some "failed"
  /\ models.chunks (fst (snd r)) = []
  /\ snd (snd r) = [].
Proof. cbv zeta. repeat split; vm_compute; reflexivity. Qed.

(** The states committed on the way of a successful run: processing, the
    rows, completed. *)
Example committed_states_alpha :
  (fun db => (models.status <$> models.files db !! 7,
              models.total_chunks <$> models.files db !! 7,
              length (models.chunks db)))
    <$> celery_tasks.committed_states (fixtures.text_parsers "Alpha.")
          fixtures.whole_splitter fixtures.unit_services fixtures.memory_chroma
          fixtures.hex8 2000 7 (fixtures.fresh_db "/uploads/f.txt" ".txt") []
  = [ (Some "processing", Some 0, 0%nat);
      (Some "processing", Some 0, 1%nat);
      (Some "completed", Some 1, 1%nat) ].
Proof. vm_compute. reflexivity. Qed.

(** * Further properties *)

(** ** Chunker *)

Module ChunkerMore.
Import PyStr PyStrFacts ChunkingService.

Lemma chunk_text_nonblank (sp : Splitter) (text : string) (md : option dict) :
  all_space text = false ->
  chunk_text sp text md
  = imap (fun idx chunk => chunk_dict sp md idx chunk) (split_text sp text).
Proof.
  intros Hb. unfold chunk_text. rewrite ChunkerFacts.chunk_text_guard, Hb.
  unfold enumerate. cbv zeta.
  change (map ?f ?l) with (f <$> l). rewrite fmap_imap. reflexivity.
Qed.

Lemma chunk_text_elem (sp : Splitter) (text : string) (md : option dict) (c : dict) :
  c ∈ chunk_text sp text md ->
  exists idx chunk, split_text sp text !! idx = Some chunk
                    /\ c = chunk_dict sp md idx chunk.
Proof.
  destruct (all_space text) eqn:Hb.
  - rewrite (ChunkerFacts.chunk_text_blank_nil sp text md Hb). intros H.
    apply elem_of_nil in H. destruct H.
  - rewrite (chunk_text_nonblank sp text md Hb). intros H.
    apply elem_of_lookup_imap_1 in H. destruct H as (i & x & -> & Hx). eauto.
Qed.

(** The three keys the chunker writes, before the metadata is merged. *)
Lemma base_keys (sp : Splitter) (idx : nat) (chunk : string) :
  let d : dict :=
    <["token_count" := PInt (_token_length sp chunk)]>
      (<["text" := PStr chunk]> (<["chunk_index" := PInt (Z.of_nat idx)]> ∅)) in
  d !! "chunk_index" = Some (PInt (Z.of_nat idx))
  /\ d !! "text" = Some (PStr chunk)
  /\ d !! "token_count" = Some (PInt (encode_len sp chunk)).
Proof.
  cbv zeta. split; [|split].
  - rewrite lookup_insert_ne by discriminate.
    rewrite lookup_insert_ne by discriminate. apply lookup_insert_eq.
  - rewrite lookup_insert_ne by discriminate. apply lookup_insert_eq.
  - apply lookup_insert_eq.
Qed.

Lemma chunk_dict_own_keys (sp : Splitter) (md : dict) (idx : nat) (chunk : string) :
  md !! "chunk_index" = None -> md !! "text" = None -> md !! "token_count" = None ->
  chunk_dict sp (Some md) idx chunk !! "chunk_index" = Some (PInt (Z.of_nat idx))
  /\ chunk_dict sp (Some md) idx chunk !! "text" = Some (PStr chunk)
  /\ chunk_dict sp (Some md) idx chunk !! "token_count"
     = Some (PInt (encode_len sp chunk)).
Proof.
  intros H1 H2 H3. destruct (base_keys sp idx chunk) as (B1 & B2 & B3).
  unfold chunk_dict. destruct (decide (md = ∅)); [auto|].
  rewrite !lookup_union_r by assumption. auto.
Qed.


End ChunkerMore.

(** X1: every key of a fragment's metadata is on every chunk made of it,
    with the fragment's value, also where the key is one the chunker writes
    itself ("chunk_index", "text", "token_count"): the metadata wins. *)
Theorem chunk_text_copies_metadata :
  forall (sp : Splitter) (text : string) (md c : dict) (k : string) (v : pyval),
    c ∈ ChunkingService.chunk_text sp text (Some md) ->
    md !! k = Some v ->
    c !! k = Some v.
Proof.
  intros sp text md c k v Hc Hk.
  apply ChunkerMore.chunk_text_elem in Hc. destruct Hc as (idx & chunk & _ & ->).
  unfold ChunkingService.chunk_dict.
  destruct (decide (md = ∅)) as [->|_].
  - rewrite lookup_empty in Hk. discriminate Hk.
  - apply lookup_union_Some_l, Hk.
Qed.

Lemma chunk_text_copies_metadata_witness :
  ChunkingService.chunk_dict fixtures.whole_splitter
    (Some {[ "text" := PStr "cover page" ]}) 0 "a" !! "text"
  = Some (PStr "cover page").
Proof.
  apply (chunk_text_copies_metadata fixtures.whole_splitter "a"
           {[ "text" := PStr "cover page" ]} _ "text" (PStr "cover page")).
  - vm_compute. left.
  - reflexivity.
Defined.

(** X2: on a text that is not blank, with metadata that holds none of the
    chunker's own keys, [chunk_text] returns one chunk per piece of the
    splitter, in the splitter's order, the i-th with ordinal i, the piece as
    its text and the piece's token count. *)
Theorem chunk_text_follows_splitter :
  forall (sp : Splitter) (text : string) (md : dict),
    PyStr.all_space text = false ->
    md !! "chunk_index" = None -> md !! "text" = None -> md !! "token_count" = None ->
    (fun c : dict => (c !! "chunk_index", c !! "text", c !! "token_count"))
      <$> ChunkingService.chunk_text sp text (Some md)
    = imap (fun i piece => (Some (PInt (Z.of_nat i)), Some (PStr piece),
                            Some (PInt (encode_len sp piece))))
           (split_text sp text).
Proof.
  intros sp text md Hb H1 H2 H3.
  rewrite (ChunkerMore.chunk_text_nonblank sp text _ Hb), fmap_imap.
  apply imap_ext. intros i piece _. cbn [compose].
  destruct (ChunkerMore.chunk_dict_own_keys sp md i piece H1 H2 H3) as (-> & -> & ->).
  reflexivity.
Qed.

Lemma chunk_text_follows_splitter_witness :
  (fun c : dict => (c !! "chunk_index", c !! "text", c !! "token_count"))
    <$> ChunkingService.chunk_text fixtures.whole_splitter "Alpha."
          (Some {[ "page_number" := PInt 3 ]})
  = imap (fun i piece => (Some (PInt (Z.of_nat i)), Some (PStr piece),
                          Some (PInt (encode_len fixtures.whole_splitter piece))))
         (split_text fixtures.whole_splitter "Alpha.").
Proof.
  apply (chunk_text_follows_splitter fixtures.whole_splitter "Alpha."
           {[ "page_number" := PInt 3 ]}); reflexivity.
Defined.

(** X3: [chunk_documents] on complete document dictionaries computes the
    chunk sequence of the task's own loop, and a dictionary with no "text"
    key adds no chunk. *)
Theorem chunk_documents_agrees_with_task :
  forall (sp : Splitter),
    (forall docs : list document,
        chunking.chunk_documents sp (as_dict <$> docs)
        = celery_tasks.all_chunks_of sp docs)
    /\ (forall (l1 l2 : list document_dict) (md : option dict),
           chunking.chunk_documents sp
             (l1 ++ {| get_text := None; get_metadata := md |} :: l2)%list
           = chunking.chunk_documents sp (l1 ++ l2)%list).
Proof.
  intros sp. split.
  - intros docs. unfold chunking.chunk_documents, celery_tasks.all_chunks_of.
    induction docs as [|d docs IH]; [reflexivity|].
    cbn [fmap list_fmap flat_map]. f_equal. exact IH.
  - intros l1 l2 md. unfold chunking.chunk_documents.
    rewrite !flat_map_app. f_equal.
Qed.

(** ** Extractor *)

Module ExtractorMore.
Import PyStr PyStrFacts ChunkingService FileProcessor.

Lemma enumerate_elem {A} (l : list A) (i : nat) (x : A) :
  (i, x) ∈ enumerate l <-> l !! i = Some x.
Proof.
  unfold enumerate. split.
  - intros H. apply elem_of_lookup_imap_1 in H.
    destruct H as (j & y & [= -> ->] & Hj). exact Hj.
  - intros H. apply (elem_of_lookup_imap_2 _ _ _ _ H).
Qed.

Lemma pdf_texts (g : nat -> nat) (pages : list string) :
  text <$> omap (fun '(page_num, t) =>
                   if truthy (strip t)
                   then Some {| text := t;
                                metadata :=
                                  {[ "page_number" := PInt (Z.of_nat page_num + 1) ]} |}
                   else None)
                (imap (fun i a => (g i, a)) pages)
  = filter (fun t => all_space t = false) pages.
Proof.
  revert g. induction pages as [|t pages IH]; intros g; [reflexivity|].
  rewrite imap_cons. cbn [omap list_omap]. rewrite filter_cons.
  rewrite truthy_strip.
  destruct (all_space t) eqn:Ht; cbn [negb].
  - rewrite decide_False by discriminate. apply (IH (g ∘ S)).
  - rewrite decide_True by reflexivity. cbn [fmap list_fmap text]. f_equal.
    apply (IH (g ∘ S)).
Qed.

Lemma str_in_cases (x : string) (l : list string) :
  str_in x l = true -> x ∈ l.
Proof.
  unfold str_in. induction l as [|y l IH]; simpl; [discriminate|].
  rewrite orb_true_iff. intros [H|H].
  - apply String.eqb_eq in H. subst. left.
  - right. apply IH, H.
Qed.


End ExtractorMore.

Module DispatchFacts.



End DispatchFacts.



(** X5: of a PDF, [process_file] returns the pages that are not blank, in
    page order, each under its own 1-based page number: blank pages are
    skipped without renumbering the pages after them. *)
Theorem pdf_fragments_keep_page_numbers :
  forall (P : Parsers) (file_path : string) (pages : list string),
    pdf_pages P file_path = Ok pages ->
    exists docs,
      FileProcessor.process_file P file_path ".pdf" = Ok docs
      /\ text <$> docs = filter (fun t => PyStr.all_space t = false) pages
      /\ (forall d, d ∈ docs <->
            exists (i : nat) (t : string),
              pages !! i = Some t /\ PyStr.all_space t = false
              /\ d = {| text := t;
                        metadata := {[ "page_number" := PInt (Z.of_nat i + 1) ]} |}).
Proof.
  intros P path pages Hpages.
  change (FileProcessor.process_file P path ".pdf")
    with (FileProcessor._process_pdf P path).
  unfold FileProcessor._process_pdf. rewrite Hpages. cbn [rbind].
  eexists. split; [reflexivity|]. split.
  - apply (ExtractorMore.pdf_texts id).
  - intros d. rewrite list_elem_of_omap. split.
    + intros ([i t] & Hin & Hd). apply ExtractorMore.enumerate_elem in Hin.
      rewrite PyStrFacts.truthy_strip in Hd.
      destruct (PyStr.all_space t) eqn:Ht; cbn [negb] in Hd; [discriminate|].
      injection Hd as <-. eauto.
    + intros (i & t & Hi & Ht & ->). exists (i, t).
      split; [apply ExtractorMore.enumerate_elem, Hi|].
      rewrite PyStrFacts.truthy_strip, Ht. reflexivity.
Qed.

Lemma pdf_fragments_keep_page_numbers_witness :
  exists docs,
    FileProcessor.process_file fixtures_more.plain_parsers "/uploads/a.pdf" ".pdf"
    = Ok docs
    /\ text <$> docs = filter (fun t => PyStr.all_space t = false) ["a"; "  "; "b"]
    /\ (forall d, d ∈ docs <->
          exists (i : nat) (t : string),
            ["a"; "  "; "b"] !! i = Some t /\ PyStr.all_space t = false
            /\ d = {| text := t;
                      metadata := {[ "page_number" := PInt (Z.of_nat i + 1) ]} |}).
Proof.
  apply (pdf_fragments_keep_page_numbers fixtures_more.plain_parsers "/uploads/a.pdf").
  reflexivity.
Defined.

(** X6: of a Word document, [process_file] returns exactly one fragment,
    with empty metadata, also when the document has no paragraph; its text
    is blank exactly when every paragraph is blank. *)
Theorem docx_is_one_fragment :
  forall (P : Parsers) (file_path file_type : string) (paras : list string),
    PyStr.str_in file_type [".doc"; ".docx"] = true ->
    docx_paragraphs P file_path = Ok paras ->
    exists t,
      FileProcessor.process_file P file_path file_type
      = Ok [ {| text := t; metadata := ∅ |} ]
      /\ (PyStr.all_space t = true
          <-> Forall (fun p => PyStr.all_space p = true) paras).
Proof.
  intros P path ft paras Hft Hparas.
  apply ExtractorMore.str_in_cases in Hft.
  assert (Hdispatch : FileProcessor.process_file P path ft
                      = FileProcessor._process_docx P path).
  { repeat (apply elem_of_cons in Hft; destruct Hft as [->|Hft]);
      [reflexivity | reflexivity | apply elem_of_nil in Hft; destruct Hft]. }
  rewrite Hdispatch. unfold FileProcessor._process_docx. rewrite Hparas. cbn [rbind].
  eexists. split; [reflexivity|].
  pose proof (ExtractorFacts.filter_truthy_strip paras) as Hnb.
  destruct (filter (fun p => PyStr.truthy (PyStr.strip p) = true) paras)
    as [|q qs] eqn:Hf.
  - split; [|reflexivity]. intros _.
    apply Forall_forall. intros p Hp.
    destruct (PyStr.all_space p) eqn:Hb; [reflexivity|exfalso].
    assert (Hin : p ∈ filter (fun p => PyStr.truthy (PyStr.strip p) = true) paras).
    { apply list_elem_of_filter. split; [|exact Hp].
      rewrite PyStrFacts.truthy_strip, Hb. reflexivity. }
    rewrite Hf in Hin. apply elem_of_nil in Hin. exact Hin.
  - rewrite (PyStrFacts.all_space_join _ (q :: qs)) by (discriminate || exact Hnb).
    split; [discriminate|]. intros Hall. exfalso.
    assert (Hq : q ∈ filter (fun p => PyStr.truthy (PyStr.strip p) = true) paras)
      by (rewrite Hf; left).
    apply list_elem_of_filter in Hq. destruct Hq as [Hq Hin].
    rewrite Forall_forall in Hall. specialize (Hall q Hin).
    rewrite PyStrFacts.truthy_strip, Hall in Hq. discriminate Hq.
Qed.

Lemma docx_is_one_fragment_witness :
  exists t,
    FileProcessor.process_file fixtures_more.plain_parsers "/uploads/a.docx" ".docx"
    = Ok [ {| text := t; metadata := ∅ |} ]
    /\ (PyStr.all_space t = true
        <-> Forall (fun p => PyStr.all_space p = true) ["Title"; ""; "Body"]).
Proof.
  apply (docx_is_one_fragment fixtures_more.plain_parsers "/uploads/a.docx" ".docx");
    reflexivity.
Defined.

(** ** Chunk identifiers *)

Module IdFacts.
Import celery_tasks.

Lemma pretty_N_char_no_underscore (x : N) :
  Ascii.eqb (pretty_N_char x) "_" = false.
Proof. unfold pretty_N_char. repeat case_match; reflexivity. Qed.

Lemma pretty_N_go_no_underscore (x : N) (s : string) :
  no_underscore s = true -> no_underscore (pretty_N_go x s) = true.
Proof.
  revert s. induction (N.lt_wf_0 x) as [x _ IH]; intros s Hs.
  destruct (decide (x = 0)%N) as [->|Hx].
  - rewrite pretty_N_go_0. exact Hs.
  - rewrite pretty_N_go_step by lia. apply IH.
    + apply N.div_lt; lia.
    + simpl. rewrite pretty_N_char_no_underscore. exact Hs.
Qed.

Lemma pretty_N_no_underscore (x : N) : no_underscore (pretty x) = true.
Proof.
  unfold pretty, pretty_N. destruct (decide (x = 0)%N); [reflexivity|].
  apply pretty_N_go_no_underscore. reflexivity.
Qed.

Lemma pretty_nat_no_underscore (n : nat) : no_underscore (pretty n) = true.
Proof. apply pretty_N_no_underscore. Qed.

Lemma pretty_Z_no_underscore (z : Z) : no_underscore (pretty z) = true.
Proof.
  destruct z as [|p|p]; [reflexivity | apply pretty_N_no_underscore |].
  change (pretty (Z.neg p)) with ("-" +:+ pretty (N.pos p)).
  simpl. apply pretty_N_no_underscore.
Qed.

(** Two strings cut at their first underscore agree part by part. *)
Lemma first_underscore (a b x y : string) :
  no_underscore a = true -> no_underscore b = true ->
  a ++ String "_" x = b ++ String "_" y -> a = b /\ x = y.
Proof.
  revert b. induction a as [|c a IH]; intros [|d b] Ha Hb; simpl in *.
  - intros [= ->]. auto.
  - intros [= <- _]. apply andb_true_iff in Hb. destruct Hb as [Hb _]. discriminate Hb.
  - intros [= -> _]. apply andb_true_iff in Ha. destruct Ha as [Ha _]. discriminate Ha.
  - intros [= -> Heq]. apply andb_true_iff in Ha, Hb.
    destruct (IH b (proj2 Ha) (proj2 Hb) Heq) as [-> ->]. auto.
Qed.

Lemma make_chunk_id_inj (u1 u2 : nat -> string) (f1 f2 : Z) (i1 i2 : nat) :
  make_chunk_id u1 f1 i1 = make_chunk_id u2 f2 i2 -> f1 = f2 /\ i1 = i2.
Proof.
  unfold make_chunk_id. intros H.
  injection H as H.
  apply first_underscore in H; try apply pretty_Z_no_underscore.
  destruct H as [Hf H]. injection H as H.
  apply first_underscore in H; try apply pretty_nat_no_underscore.
  destruct H as [Hi _].
  split; [apply (inj pretty), Hf | apply (inj pretty), Hi].
Qed.

Lemma chunk_ids_NoDup (uuid8 : nat -> string) (file_id : Z) (cs : list dict) :
  NoDup (chunk_ids_of uuid8 file_id cs).
Proof.
  unfold chunk_ids_of. apply NoDup_alt. intros i j x Hi Hj.
  rewrite list_lookup_imap in Hi, Hj.
  destruct (cs !! i); [|discriminate]. destruct (cs !! j); [|discriminate].
  simpl in Hi, Hj. injection Hi as Hi. injection Hj as Hj.
  rewrite <- Hj in Hi. apply make_chunk_id_inj in Hi. tauto.
Qed.

End IdFacts.

(** X7: the identifier of a chunk determines its file id and its position:
    identifiers built for different files or different positions differ,
    whatever the random suffixes are; in particular the identifiers of one
    run are pairwise distinct. *)
Theorem chunk_ids_never_collide :
  (forall (u1 u2 : nat -> string) (f1 f2 : Z) (i1 i2 : nat),
      celery_tasks.make_chunk_id u1 f1 i1 = celery_tasks.make_chunk_id u2 f2 i2 ->
      f1 = f2 /\ i1 = i2)
  /\ (forall (uuid8 : nat -> string) (file_id : Z) (all_chunks : list dict),
         NoDup (celery_tasks.chunk_ids_of uuid8 file_id all_chunks)).
Proof. split; [exact IdFacts.make_chunk_id_inj | exact IdFacts.chunk_ids_NoDup]. Qed.

Lemma chunk_ids_never_collide_witness :
  (7 = 7 /\ 3%nat = 3%nat)
  /\ NoDup (celery_tasks.chunk_ids_of (fun _ => "deadbeef") 7 [∅; ∅; ∅]).
Proof.
  split.
  - apply (proj1 chunk_ids_never_collide fixtures.hex8 fixtures.hex8 7 7 3%nat 3%nat).
    reflexivity.
  - apply (proj2 chunk_ids_never_collide).
Defined.

(** ** More on the ingestion task *)

Module ShapeFacts.
Import celery_tasks task_spec StoreFacts.

Section Shape.
Context (P : Parsers) (sp : Splitter) (E : Services) (C : Chroma).
Context (uuid8 : nat -> string) (utcnow : Z).

Local Abbreviation spec_run := (run P sp E C uuid8 utcnow).


(** The three ways a run on a found file ends, with the database each
    leaves. *)
Lemma run_shape (file_id : Z) (file : models.File) (db : models.database)
    (coll : collection) :
  (exists m e,
      spec_run file_id file db coll
      = (error_outcome m, (failed_db file_id e (processing_db file_id db), coll)))
  \/ (exists docs texts,
      getitems (all_chunks_of sp docs) "text" = Ok texts
      /\ spec_run file_id file db coll
         = (error_outcome "Failed to add to vector store",
            (failed_db file_id "Failed to add to vector store"
               (with_rows (db_chunks uuid8 file_id (all_chunks_of sp docs) texts)
                          (processing_db file_id db)),
             coll)))
  \/ (exists docs texts coll',
      getitems (all_chunks_of sp docs) "text" = Ok texts
      /\ spec_run file_id file db coll
         = (success_outcome file_id (Z.of_nat (length (all_chunks_of sp docs))),
            (completed_db utcnow file_id (Z.of_nat (length (all_chunks_of sp docs)))
               (with_rows (db_chunks uuid8 file_id (all_chunks_of sp docs) texts)
                          (processing_db file_id db)),
             coll'))).
Proof.
  unfold run.
  destruct (FileProcessor.process_file P (models.file_path file) (models.file_type file))
    as [documents|e]; [|left; eauto].
  destruct documents as [|d documents]; [left; eauto|].
  unfold embed_stage.
  destruct (all_chunks_of sp (d :: documents)) as [|c cs] eqn:Hcs; [left; eauto|].
  destruct (getitems (c :: cs) "text") as [texts|e] eqn:Htexts; [|left; eauto].
  destruct (generate_embeddings_batch E texts) as [embs|e]; [|left; eauto].
  unfold store_stage.
  destruct (collection_add C coll _ _ _ _) as [coll'|].
  - right. right. exists (d :: documents), texts, coll'. rewrite Hcs. auto.
  - right. left. exists (d :: documents), texts. rewrite Hcs. auto.
Qed.

End Shape.
End ShapeFacts.

Module FrameFacts.
Import celery_tasks task_spec.

Lemma mark_other (file_id other : Z) (f : models.File -> models.File)
    (db : models.database) :
  other <> file_id ->
  models.files (mark file_id f db) !! other = models.files db !! other.
Proof.
  intros Hne. unfold mark. cbn [models.files models.set_files].
  apply lookup_alter_ne. congruence.
Qed.

Lemma mark_dom (file_id : Z) (f : models.File -> models.File) (db : models.database) :
  dom (models.files (mark file_id f db)) = dom (models.files db).
Proof. unfold mark. cbn [models.files models.set_files]. apply dom_alter_L. Qed.

Lemma failed_other (file_id other : Z) (e : string) (db : models.database) :
  other <> file_id ->
  models.files (failed_db file_id e db) !! other = models.files db !! other.
Proof. intros Hne. unfold failed_db. rewrite !mark_other by exact Hne. reflexivity. Qed.

Lemma completed_other (utcnow file_id other n : Z) (db : models.database) :
  other <> file_id ->
  models.files (completed_db utcnow file_id n db) !! other = models.files db !! other.
Proof.
  intros Hne. unfold completed_db. rewrite !mark_other by exact Hne. reflexivity.
Qed.

Lemma failed_dom (file_id : Z) (e : string) (db : models.database) :
  dom (models.files (failed_db file_id e db)) = dom (models.files db).
Proof. unfold failed_db. rewrite !mark_dom. reflexivity. Qed.

Lemma completed_dom (utcnow file_id n : Z) (db : models.database) :
  dom (models.files (completed_db utcnow file_id n db)) = dom (models.files db).
Proof. unfold completed_db. rewrite !mark_dom. reflexivity. Qed.

End FrameFacts.

(** X8: a run of the task, on any file id, leaves the categories, the rows
    of the other files and the set of file ids as they were; it removes no
    [Chunk] row and adds only rows of its own file; and it leaves the
    collection as it was unless it returns success. *)
Theorem task_touches_only_its_file :
  forall (P : Parsers) (sp : Splitter) (E : Services) (C : Chroma)
         (uuid8 : nat -> string) (utcnow file_id : Z)
         (db : models.database) (coll : collection),
    let r := celery_tasks.process_file_task P sp E C uuid8 utcnow file_id db coll in
    models.categories (fst (snd r)) = models.categories db
    /\ (forall other, other <> file_id ->
          models.files (fst (snd r)) !! other = models.files db !! other)
    /\ dom (models.files (fst (snd r))) = dom (models.files db)
    /\ (exists rows,
          models.chunks (fst (snd r)) = (models.chunks db ++ rows)%list
          /\ Forall (fun c => models.file_id c = file_id) rows)
    /\ (forall out, fst r = Ok out -> out !! "status" <> Some (PStr "success") ->
          snd (snd r) = coll).
Proof.
  intros P sp E C uuid8 utcnow file_id db coll. cbv zeta.
  destruct (models.files db !! file_id) as [file|] eqn:Hfile.
  2:{ rewrite (TaskFacts.task_file_not_found P sp E C uuid8 utcnow file_id db coll Hfile).
      cbn [fst snd]. repeat split; auto.
      exists []. rewrite app_nil_r. split; [reflexivity | constructor]. }
  rewrite (TaskFacts.task_run P sp E C uuid8 utcnow file_id file db coll Hfile).
  destruct (ShapeFacts.run_shape P sp E C uuid8 utcnow file_id file db coll)
    as [(m & e & ->) | [(docs & texts & _ & ->) | (docs & texts & coll' & _ & ->)]];
    cbn [fst snd].
  - split; [reflexivity|]. split.
    { intros other Hne. rewrite FrameFacts.failed_other by exact Hne.
      apply FrameFacts.mark_other, Hne. }
    split.
    { rewrite FrameFacts.failed_dom. apply FrameFacts.mark_dom. }
    split.
    { exists []. rewrite app_nil_r. split; [reflexivity | constructor]. }
    reflexivity.
  - split; [reflexivity|]. split.
    { intros other Hne. rewrite FrameFacts.failed_other by exact Hne.
      apply (FrameFacts.mark_other file_id other _ db Hne). }
    split.
    { rewrite FrameFacts.failed_dom. apply (FrameFacts.mark_dom file_id _ db). }
    split.
    { eexists. split; [reflexivity|]. apply StoreFacts.db_chunks_file_id. }
    reflexivity.
  - split; [reflexivity|]. split.
    { intros other Hne. rewrite FrameFacts.completed_other by exact Hne.
      apply (FrameFacts.mark_other file_id other _ db Hne). }
    split.
    { rewrite FrameFacts.completed_dom. apply (FrameFacts.mark_dom file_id _ db). }
    split.
    { eexists. split; [reflexivity|]. apply StoreFacts.db_chunks_file_id. }
    intros out [= <-] Hne. exfalso. apply Hne, StoreFacts.success_outcome_status.
Qed.



(** X10: when the batch embedding call raises, nothing of the file is
    persisted: no [Chunk] row is added, the collection is as it was, and the
    file is failed under the embedder's message. *)
Theorem embedding_failure_persists_nothing :
  forall (P : Parsers) (sp : Splitter) (E : Services) (C : Chroma)
         (uuid8 : nat -> string) (utcnow file_id : Z) (file : models.File)
         (db : models.database) (coll : collection)
         (docs : list document) (texts : list pyval) (e : string),
    models.files db !! file_id = Some file ->
    FileProcessor.process_file P (models.file_path file) (models.file_type file)
    = Ok docs ->
    celery_tasks.all_chunks_of sp docs <> [] ->
    celery_tasks.getitems (celery_tasks.all_chunks_of sp docs) "text" = Ok texts ->
    generate_embeddings_batch E texts = Raise e ->
    exists db' file',
      celery_tasks.process_file_task P sp E C uuid8 utcnow file_id db coll
      = (Ok (celery_tasks.error_outcome e), (db', coll))
      /\ models.chunks db' = models.chunks db
      /\ models.files db' !! file_id = Some file'
      /\ models.status file' = "failed"
      /\ models.error_message file' = Some e
      /\ models.total_chunks file' = models.total_chunks file.
Proof.
  intros P sp E C uuid8 utcnow file_id file db coll docs texts e
         Hfile Hdocs Hne Htexts Hemb.
  rewrite (TaskFacts.task_run P sp E C uuid8 utcnow file_id file db coll Hfile).
  unfold task_spec.run. rewrite Hdocs.
  destruct docs as [|d docs]; [exfalso; apply Hne; reflexivity|].
  unfold task_spec.embed_stage.
  destruct (celery_tasks.all_chunks_of sp (d :: docs)) as [|c cs];
    [exfalso; apply Hne; reflexivity|].
  rewrite Htexts, Hemb. cbn [fst snd].
  pose proof (RunFacts.processing_db_file file_id file db Hfile) as Hlive.
  eexists _, _. split; [reflexivity|]. split; [reflexivity|].
  split; [apply (RunFacts.failed_db_file file_id _ e _ Hlive)|].
  repeat split.
Qed.

Lemma embedding_failure_persists_nothing_witness :
  exists db' file',
    celery_tasks.process_file_task (fixtures.text_parsers "Alpha.")
      fixtures.whole_splitter fixtures.failing_services fixtures.memory_chroma
      fixtures.hex8 2000 7 (fixtures.fresh_db "/uploads/f.txt" ".txt") []
    = (Ok (celery_tasks.error_outcome "embedding service unavailable"), (db', []))
    /\ models.chunks db' = []
    /\ models.files db' !! 7 = Some file'
    /\ models.status file' = "failed"
    /\ models.error_message file' = Some "embedding service unavailable"
    /\ models.total_chunks file' = 0.
Proof.
  apply (embedding_failure_persists_nothing (fixtures.text_parsers "Alpha.")
           fixtures.whole_splitter fixtures.failing_services fixtures.memory_chroma
           fixtures.hex8 2000 7
           (models.new_file 7 "u_f" "f" "/uploads/f.txt" ".txt" 10 1 1000)
           (fixtures.fresh_db "/uploads/f.txt" ".txt") []
           [ {| text := "Alpha."; metadata := ∅ |} ] [PStr "Alpha."]).
  - vm_compute. reflexivity.
  - vm_compute. reflexivity.
  - vm_compute. discriminate.
  - vm_compute. reflexivity.
  - reflexivity.
Defined.

Module BlankFacts.

Lemma filter_nonblank_nil (docs : list document) :
  Forall (fun d => PyStr.all_space (text d) = true) docs ->
  filter (fun d => PyStr.all_space (text d) = false) docs = [].
Proof.
  induction 1 as [|d docs Hd _ IH]; [reflexivity|].
  rewrite filter_cons, decide_False; [exact IH|]. rewrite Hd. discriminate.
Qed.

End BlankFacts.

(** X11: when extraction returns nothing to chunk, the file is failed and
    nothing is persisted.  With no fragment at all the row records "No text
    extracted from file" while the task returns the shorter "No text
    extracted"; with fragments that are all blank both say "No chunks
    created". *)
Theorem nothing_to_chunk_fails_the_file :
  forall (P : Parsers) (sp : Splitter) (E : Services) (C : Chroma)
         (uuid8 : nat -> string) (utcnow file_id : Z) (file : models.File)
         (db : models.database) (coll : collection) (docs : list document),
    models.files db !! file_id = Some file ->
    FileProcessor.process_file P (models.file_path file) (models.file_type file)
    = Ok docs ->
    Forall (fun d => PyStr.all_space (text d) = true) docs ->
    exists m db' file',
      celery_tasks.process_file_task P sp E C uuid8 utcnow file_id db coll
      = (Ok (celery_tasks.error_outcome m), (db', coll))
      /\ models.chunks db' = models.chunks db
      /\ models.files db' !! file_id = Some file'
      /\ models.status file' = "failed"
      /\ ((docs = [] /\ m = "No text extracted"
           /\ models.error_message file' = Some "No text extracted from file")
          \/ (docs <> [] /\ m = "No chunks created"
              /\ models.error_message file' = Some "No chunks created")).
Proof.
  intros P sp E C uuid8 utcnow file_id file db coll docs Hfile Hdocs Hblank.
  pose proof (RunFacts.processing_db_file file_id file db Hfile) as Hlive.
  rewrite (TaskFacts.task_run P sp E C uuid8 utcnow file_id file db coll Hfile).
  unfold task_spec.run. rewrite Hdocs.
  destruct docs as [|d docs].
  - cbn [fst snd]. eexists _, _, _. split; [reflexivity|]. split; [reflexivity|].
    split; [apply (RunFacts.failed_db_file file_id _ _ _ Hlive)|].
    split; [reflexivity|]. left. auto.
  - assert (Hnone : celery_tasks.all_chunks_of sp (d :: docs) = []).
    { rewrite PipelineFacts.all_chunks_of_filter.
      rewrite (BlankFacts.filter_nonblank_nil _ Hblank). reflexivity. }
    unfold task_spec.embed_stage. rewrite Hnone. cbn [fst snd].
    eexists _, _, _. split; [reflexivity|]. split; [reflexivity|].
    split; [apply (RunFacts.failed_db_file file_id _ _ _ Hlive)|].
    split; [reflexivity|]. right. split; [discriminate|]. auto.
Qed.

Lemma nothing_to_chunk_fails_the_file_witness :
  exists m db' file',
    celery_tasks.process_file_task (fixtures.text_parsers "  ")
      fixtures.whole_splitter fixtures.unit_services fixtures.memory_chroma
      fixtures.hex8 2000 7 (fixtures.fresh_db "/uploads/f.txt" ".txt") []
    = (Ok (celery_tasks.error_outcome m), (db', []))
    /\ models.chunks db' = []
    /\ models.files db' !! 7 = Some file'
    /\ models.status file' = "failed"
    /\ (([ {| text := "  "; metadata := ∅ |} ] = [] /\ m = "No text extracted"
         /\ models.error_message file' = Some "No text extracted from file")
        \/ ([ {| text := "  "; metadata := ∅ |} ] <> [] /\ m = "No chunks created"
            /\ models.error_message file' = Some "No chunks created")).
Proof.
  apply (nothing_to_chunk_fails_the_file (fixtures.text_parsers "  ")
           fixtures.whole_splitter fixtures.unit_services fixtures.memory_chroma
           fixtures.hex8 2000 7
           (models.new_file 7 "u_f" "f" "/uploads/f.txt" ".txt" 10 1 1000)
           (fixtures.fresh_db "/uploads/f.txt" ".txt") []
           [ {| text := "  "; metadata := ∅ |} ]).
  - vm_compute. reflexivity.
  - vm_compute. reflexivity.
  - repeat constructor.
Defined.



Module LockstepFacts.
Import celery_tasks StoreFacts.

Lemma entries_of_ids (i : list string) (t : list pyval) (e : list vector)
    (m : list dict) :
  same_lengths i t e m = true -> ve_id <$> entries_of i t e m = i.
Proof.
  unfold same_lengths. rewrite !andb_true_iff, !Nat.eqb_eq.
  revert t e m. induction i as [|x i IH]; intros [|y t] [|z e] [|u m];
    simpl; intros [[Ht He] Hm]; try discriminate; try reflexivity.
  f_equal. apply IH. repeat split; congruence.
Qed.

Lemma entries_of_documents (i : list string) (t : list pyval) (e : list vector)
    (m : list dict) :
  same_lengths i t e m = true -> ve_document <$> entries_of i t e m = t.
Proof.
  unfold same_lengths. rewrite !andb_true_iff, !Nat.eqb_eq.
  revert t e m. induction i as [|x i IH]; intros [|y t] [|z e] [|u m];
    simpl; intros [[Ht He] Hm]; try discriminate; try reflexivity.
  f_equal. apply IH. repeat split; congruence.
Qed.

Lemma db_chunks_ids (uuid8 : nat -> string) (file_id : Z) (cs : list dict)
    (texts : list pyval) :
  length texts = length cs ->
  models.chunk_id <$> db_chunks uuid8 file_id cs texts = chunk_ids_of uuid8 file_id cs.
Proof.
  intros Hlen. unfold db_chunks, chunk_ids_of. apply list_eq. intros i.
  rewrite list_lookup_fmap, !list_lookup_imap.
  destruct (zip cs texts !! i) as [[c t]|] eqn:Hz.
  - apply lookup_zip_Some in Hz. destruct Hz as [-> _]. reflexivity.
  - apply lookup_zip_None in Hz. destruct Hz as [-> | Ht]; [reflexivity|].
    destruct (cs !! i) as [c|] eqn:Hc; [|reflexivity].
    apply lookup_lt_Some in Hc. apply lookup_ge_None in Ht. lia.
Qed.

Lemma db_chunks_texts (uuid8 : nat -> string) (file_id : Z) (cs : list dict)
    (texts : list pyval) :
  length texts = length cs ->
  models.chunk_text <$> db_chunks uuid8 file_id cs texts = texts.
Proof.
  intros Hlen. unfold db_chunks. apply list_eq. intros i.
  rewrite list_lookup_fmap, list_lookup_imap.
  destruct (zip cs texts !! i) as [[c t]|] eqn:Hz.
  - apply lookup_zip_Some in Hz. destruct Hz as [_ ->]. reflexivity.
  - apply lookup_zip_None in Hz. destruct Hz as [Hc | ->]; [|reflexivity].
    destruct (texts !! i) as [t|] eqn:Ht; [|reflexivity].
    apply lookup_lt_Some in Ht. apply lookup_ge_None in Hc. lia.
Qed.

Lemma chunk_metadata_dom (file_id category_id : Z) (idx : nat) (chunk : dict) :
  dom (chunk_metadata file_id category_id idx chunk)
  = ({[ "file_id"; "category_id"; "chunk_index"; "page_number" ]} : gset string).
Proof.
  unfold chunk_metadata. rewrite !dom_insert_L, dom_singleton_L. set_solver.
Qed.

Lemma chunk_metadata_category (file_id category_id : Z) (idx : nat) (chunk : dict) :
  chunk_metadata file_id category_id idx chunk !! "category_id"
  = Some (PInt category_id).
Proof.
  unfold chunk_metadata. rewrite lookup_insert_ne by discriminate.
  apply lookup_insert_eq.
Qed.

End LockstepFacts.

(** X13: a successful run writes the two stores in lockstep: the new
    [Chunk] rows and the new collection entries carry the same identifiers
    and the same texts, position by position, the identifiers being pairwise
    distinct; and the metadata of every new entry has exactly the keys
    "file_id", "category_id", "chunk_index" and "page_number", with the
    file's id and the file's category. *)
Theorem success_writes_stores_in_lockstep :
  forall (P : Parsers) (sp : Splitter) (E : Services) (C : Chroma)
         (uuid8 : nat -> string) (utcnow file_id : Z) (file : models.File)
         (db db' : models.database) (coll coll' : collection) (out : dict),
    add_contract C ->
    models.files db !! file_id = Some file ->
    celery_tasks.process_file_task P sp E C uuid8 utcnow file_id db coll
    = (Ok out, (db', coll')) ->
    out !! "status" = Some (PStr "success") ->
    exists rows entries,
      models.chunks db' = (models.chunks db ++ rows)%list
      /\ coll' = (coll ++ entries)%list
      /\ models.chunk_id <$> rows = ve_id <$> entries
      /\ models.chunk_text <$> rows = ve_document <$> entries
      /\ NoDup (models.chunk_id <$> rows)
      /\ Forall (fun e =>
                   dom (ve_metadata e)
                   = ({[ "file_id"; "category_id"; "chunk_index"; "page_number" ]}
                      : gset string)
                   /\ ve_metadata e !! "file_id" = Some (PInt file_id)
                   /\ ve_metadata e !! "category_id"
                      = Some (PInt (models.category_id file)))
                entries.
Proof.
  intros P sp E C uuid8 utcnow file_id file db db' coll coll' out
         Hcontract Hfile Hrun Hsuccess.
  destruct (SuccessFacts.success_shape P sp E C uuid8 utcnow file_id file db db'
              coll coll' out Hcontract Hfile Hrun Hsuccess)
    as (docs & texts & embs & Hdocs & Hlen & Hlens & _ & -> & ->).
  eexists _, _. split; [reflexivity|]. split; [reflexivity|].
  rewrite (LockstepFacts.entries_of_ids _ _ _ _ Hlens).
  rewrite (LockstepFacts.entries_of_documents _ _ _ _ Hlens).
  rewrite (LockstepFacts.db_chunks_ids _ _ _ _ Hlen).
  rewrite (LockstepFacts.db_chunks_texts _ _ _ _ Hlen).
  split; [reflexivity|]. split; [reflexivity|].
  split; [apply IdFacts.chunk_ids_NoDup|].
  apply (Forall_fmap ve_metadata
           (fun m : dict =>
              dom m = ({[ "file_id"; "category_id"; "chunk_index"; "page_number" ]}
                       : gset string)
              /\ m !! "file_id" = Some (PInt file_id)
              /\ m !! "category_id" = Some (PInt (models.category_id file)))).
  rewrite (StoreFacts.entries_of_metadata _ _ _ _ Hlens).
  apply Forall_forall. intros m Hm. unfold celery_tasks.chunk_metadatas_of in Hm.
  apply elem_of_lookup_imap_1 in Hm. destruct Hm as (i & c & -> & _).
  split; [apply LockstepFacts.chunk_metadata_dom|].
  split; [apply lookup_insert_eq | apply LockstepFacts.chunk_metadata_category].
Qed.

Lemma success_writes_stores_in_lockstep_witness :
  exists rows entries,
    models.chunks
      (fst (snd (celery_tasks.process_file_task (fixtures.pdf_parsers ["a"; "b"])
                   fixtures.whole_splitter fixtures.unit_services
                   fixtures.memory_chroma fixtures.hex8 2000 7
                   (fixtures.fresh_db "/uploads/f.pdf" ".pdf") [])))
    = ([] ++ rows)%list
    /\ snd (snd (celery_tasks.process_file_task (fixtures.pdf_parsers ["a"; "b"])
                   fixtures.whole_splitter fixtures.unit_services
                   fixtures.memory_chroma fixtures.hex8 2000 7
                   (fixtures.fresh_db "/uploads/f.pdf" ".pdf") []))
       = ([] ++ entries)%list
    /\ models.chunk_id <$> rows = ve_id <$> entries
    /\ models.chunk_text <$> rows = ve_document <$> entries
    /\ NoDup (models.chunk_id <$> rows)
    /\ Forall (fun e =>
                 dom (ve_metadata e)
                 = ({[ "file_id"; "category_id"; "chunk_index"; "page_number" ]}
                    : gset string)
                 /\ ve_metadata e !! "file_id" = Some (PInt 7)
                 /\ ve_metadata e !! "category_id" = Some (PInt 1))
              entries.
Proof.
  apply (success_writes_stores_in_lockstep (fixtures.pdf_parsers ["a"; "b"])
           fixtures.whole_splitter fixtures.unit_services fixtures.memory_chroma
           fixtures.hex8 2000 7
           (models.new_file 7 "u_f" "f" "/uploads/f.pdf" ".pdf" 10 1 1000)
           (fixtures.fresh_db "/uploads/f.pdf" ".pdf")
           _ [] _
           (celery_tasks.success_outcome 7 2)).
  - intros coll i t e m coll'. simpl.
    destruct (same_lengths i t e m); [|discriminate].
    intros [= <-]. split; reflexivity.
  - vm_compute. reflexivity.
  - vm_compute. reflexivity.
  - vm_compute. reflexivity.
Defined.

(** X14: run on an id that has no [File] row, the task returns the error
    "File not found", commits nothing and leaves the database and the
    collection exactly as they were: no reader, no embedder and no
    collection call is involved. *)
Theorem task_on_missing_file_changes_nothing :
  forall (P : Parsers) (sp : Splitter) (E : Services) (C : Chroma)
         (uuid8 : nat -> string) (utcnow file_id : Z)
         (db : models.database) (coll : collection),
    models.files db !! file_id = None ->
    celery_tasks.process_file_task P sp E C uuid8 utcnow file_id db coll
    = (Ok (celery_tasks.error_outcome "File not found"), (db, coll))
    /\ celery_tasks.committed_states P sp E C uuid8 utcnow file_id db coll = [].
Proof.
  intros P sp E C uuid8 utcnow file_id db coll Hnone.
  split; [apply TaskFacts.task_file_not_found, Hnone|].
  unfold celery_tasks.committed_states, celery_tasks.run_task, celery_tasks.try_body,
    celery_tasks.initial_world.
  cbn [celery_tasks.live celery_tasks.durable celery_tasks.store celery_tasks.commits].
  rewrite Hnone. reflexivity.
Qed.

Lemma task_on_missing_file_changes_nothing_witness :
  celery_tasks.process_file_task (fixtures.text_parsers "x") fixtures.whole_splitter
    fixtures.failing_services fixtures.broken_chroma fixtures.hex8 2000 8
    (fixtures.fresh_db "/uploads/f.txt" ".txt") []
  = (Ok (celery_tasks.error_outcome "File not found"),
     (fixtures.fresh_db "/uploads/f.txt" ".txt", []))
  /\ celery_tasks.committed_states (fixtures.text_parsers "x") fixtures.whole_splitter
       fixtures.failing_services fixtures.broken_chroma fixtures.hex8 2000 8
       (fixtures.fresh_db "/uploads/f.txt" ".txt") [] = [].
Proof.
  apply task_on_missing_file_changes_nothing. vm_compute. reflexivity.
Defined.

(** ** More on retrieval *)

Module ResultFacts.
Import search.

Lemma format_results_ids (hits : list hit) :
  schemas.chunk_id <$> format_results hits = hit_chunk_id <$> hits.
Proof.
  unfold format_results. change (map ?f ?l) with (f <$> l).
  rewrite <- list_fmap_compose. reflexivity.
Qed.

Lemma format_results_texts (hits : list hit) :
  schemas.text <$> format_results hits = hit_text <$> hits.
Proof.
  unfold format_results. change (map ?f ?l) with (f <$> l).
  rewrite <- list_fmap_compose. reflexivity.
Qed.

Lemma format_results_unit (hits : list hit) :
  Forall (fun r => (0 <= schemas.confidence_score r <= 1)%Q) (format_results hits).
Proof.
  unfold format_results. change (map ?f ?l) with (f <$> l).
  apply Forall_fmap, Forall_forall. intros h _. cbn [compose schemas.confidence_score].
  apply ConfidenceFacts.confidence_unit.
Qed.

(** The passages listed for a list of hits: the hits' ids and texts in
    rank order, each with a confidence within [0, 1]. *)
Lemma format_results_follows (hits : list hit) :
  schemas.chunk_id <$> format_results hits = hit_chunk_id <$> hits
  /\ schemas.text <$> format_results hits = hit_text <$> hits
  /\ Forall (fun r => (0 <= schemas.confidence_score r <= 1)%Q) (format_results hits).
Proof.
  split; [apply format_results_ids|].
  split; [apply format_results_texts | apply format_results_unit].
Qed.

End ResultFacts.

(** X15: whatever an endpoint lists is what the vector search returned:
    the results of a query response, the relevant chunks of a question
    response and the passages of a find-passages response carry the ids and
    texts of the hits, in rank order, each with a confidence score within
    [0, 1]. *)
Theorem responses_list_the_hits :
  forall (E : Services) (C : Chroma) (db : models.database) (coll : collection),
    (forall request r calls,
        search.search_query E C request db coll = (Response r, calls) ->
        exists v,
          generate_embedding E (schemas.query request) = Ok v
          /\ let hits := VectorStoreService.search C coll v
                           (schemas.category_id request) (schemas.top_k request) in
             schemas.chunk_id <$> schemas.results r = hit_chunk_id <$> hits
             /\ schemas.text <$> schemas.results r = hit_text <$> hits
             /\ Forall (fun x => (0 <= schemas.confidence_score x <= 1)%Q)
                       (schemas.results r))
    /\ (forall request r calls,
        search.question_answer E C request db coll = (Response r, calls) ->
        exists v,
          generate_embedding E (schemas.question request) = Ok v
          /\ let hits := VectorStoreService.search C coll v
                           (schemas.qa_category_id request) (schemas.qa_top_k request) in
             schemas.chunk_id <$> schemas.relevant_chunks r = hit_chunk_id <$> hits
             /\ schemas.text <$> schemas.relevant_chunks r = hit_text <$> hits
             /\ Forall (fun x => (0 <= schemas.confidence_score x <= 1)%Q)
                       (schemas.relevant_chunks r))
    /\ (forall request r calls,
        search.find_passages E C request db coll = (Response r, calls) ->
        exists v,
          generate_embedding E (schemas.fp_query request) = Ok v
          /\ let hits := VectorStoreService.search C coll v
                           (schemas.fp_category_id request) (schemas.fp_top_k request) in
             schemas.chunk_id <$> schemas.passages r = hit_chunk_id <$> hits
             /\ schemas.text <$> schemas.passages r = hit_text <$> hits
             /\ Forall (fun x => (0 <= schemas.confidence_score x <= 1)%Q)
                       (schemas.passages r)
             /\ schemas.total_found r = Z.of_nat (length hits)).
Proof.
  intros E C db coll. split; [|split].
  - intros request r calls. unfold search.search_query.
    destruct (models.categories db !! schemas.category_id request); [|discriminate].
    destruct (generate_embedding E (schemas.query request)) as [v|e]; [|discriminate].
    destruct (VectorStoreService.search C coll v _ _) as [|h hits] eqn:Hs.
    + intros [= <- _]. exists v. split; [reflexivity|]. cbv zeta. rewrite Hs.
      repeat split; constructor.
    + destruct (generate_answer E _ _) as [[answer confidence]|e]; [|discriminate].
      intros [= <- _]. exists v. split; [reflexivity|]. cbv zeta. rewrite Hs.
      exact (ResultFacts.format_results_follows (h :: hits)).
  - intros request r calls. unfold search.question_answer.
    destruct (models.categories db !! schemas.qa_category_id request); [|discriminate].
    destruct (generate_embedding E (schemas.question request)) as [v|e]; [|discriminate].
    destruct (VectorStoreService.search C coll v _ _) as [|h hits] eqn:Hs.
    + intros [= <- _]. exists v. split; [reflexivity|]. cbv zeta. rewrite Hs.
      repeat split; constructor.
    + destruct (answer_question E _ _) as [[answer confidence]|e]; [|discriminate].
      intros [= <- _]. exists v. split; [reflexivity|]. cbv zeta. rewrite Hs.
      exact (ResultFacts.format_results_follows (h :: hits)).
  - intros request r calls. unfold search.find_passages.
    destruct (models.categories db !! schemas.fp_category_id request); [|discriminate].
    destruct (generate_embedding E (schemas.fp_query request)) as [v|e]; [|discriminate].
    intros [= <- _]. exists v. split; [reflexivity|]. cbv zeta.
    cbn [schemas.passages schemas.total_found].
    destruct (ResultFacts.format_results_follows
                (VectorStoreService.search C coll v (schemas.fp_category_id request)
                   (schemas.fp_top_k request))) as (H1 & H2 & H3).
    repeat split; try assumption.
    unfold search.format_results. rewrite length_map. reflexivity.
Qed.

Lemma responses_list_the_hits_witness :
  exists v,
    generate_embedding fixtures.unit_services
      (schemas.query fixtures_search.alpha_query) = Ok v
    /\ let hits := VectorStoreService.search fixtures.memory_chroma
                     fixtures_search.alpha_collection v 1 5 in
       [ "file_7_chunk_0_00000000" ] = hit_chunk_id <$> hits
       /\ [ PStr "Alpha." ] = hit_text <$> hits
       /\ Forall (fun x => (0 <= schemas.confidence_score x <= 1)%Q)
                 [ {| schemas.chunk_id := "file_7_chunk_0_00000000";
                      schemas.text := PStr "Alpha.";
                      schemas.confidence_score := search.distance_to_confidence 0 |} ].
Proof.
  apply (proj1 (responses_list_the_hits fixtures.unit_services fixtures.memory_chroma
                  (fixtures.fresh_db "/uploads/f.txt" ".txt")
                  fixtures_search.alpha_collection)
           fixtures_search.alpha_query
           {| schemas.answer := "answer"; schemas.sr_confidence_score := 1;
              schemas.results :=
                [ {| schemas.chunk_id := "file_7_chunk_0_00000000";
                     schemas.text := PStr "Alpha.";
                     schemas.confidence_score := search.distance_to_confidence 0 |} ] |}
           [CallEmbedding "what is alpha?"; CallVectorSearch 1 5;
            CallGenerateAnswer "what is alpha?" [PStr "Alpha."]]).
  vm_compute. reflexivity.
Defined.

(** X16: the answer service is called only with something to answer from.
    A query or question endpoint that calls it has found the category,
    obtained the embedding and got hits, and calls it once, last, with the
    hits' texts in rank order as context; an unknown category is answered
    404 before any call; and find-passages never calls it. *)
Theorem synthesis_needs_hits :
  forall (E : Services) (C : Chroma) (db : models.database) (coll : collection),
    (forall request,
        (models.categories db !! schemas.category_id request = None ->
         search.search_query E C request db coll
         = (HTTPException 404 "Category not found", []))
        /\ (existsb is_synthesis (snd (search.search_query E C request db coll)) = true ->
            exists cat v,
              models.categories db !! schemas.category_id request = Some cat
              /\ generate_embedding E (schemas.query request) = Ok v
              /\ VectorStoreService.search C coll v (schemas.category_id request)
                   (schemas.top_k request) <> []
              /\ snd (search.search_query E C request db coll)
                 = [CallEmbedding (schemas.query request);
                    CallVectorSearch (schemas.category_id request) (schemas.top_k request);
                    CallGenerateAnswer (schemas.query request)
                      (map hit_text
                         (VectorStoreService.search C coll v
                            (schemas.category_id request) (schemas.top_k request)))]))
    /\ (forall request,
        (models.categories db !! schemas.qa_category_id request = None ->
         search.question_answer E C request db coll
         = (HTTPException 404 "Category not found", []))
        /\ (existsb is_synthesis (snd (search.question_answer E C request db coll)) = true ->
            exists cat v,
              models.categories db !! schemas.qa_category_id request = Some cat
              /\ generate_embedding E (schemas.question request) = Ok v
              /\ VectorStoreService.search C coll v (schemas.qa_category_id request)
                   (schemas.qa_top_k request) <> []
              /\ snd (search.question_answer E C request db coll)
                 = [CallEmbedding (schemas.question request);
                    CallVectorSearch (schemas.qa_category_id request)
                      (schemas.qa_top_k request);
                    CallAnswerQuestion (schemas.question request)
                      (map hit_text
                         (VectorStoreService.search C coll v
                            (schemas.qa_category_id request)
                            (schemas.qa_top_k request)))]))
    /\ (forall request,
        (models.categories db !! schemas.fp_category_id request = None ->
         search.find_passages E C request db coll
         = (HTTPException 404 "Category not found", []))
        /\ existsb is_synthesis (snd (search.find_passages E C request db coll)) = false).
Proof.
  intros E C db coll. split; [|split]; intros request.
  - unfold search.search_query.
    destruct (models.categories db !! schemas.category_id request) as [cat|];
      [|split; [reflexivity | discriminate]].
    split; [discriminate|].
    destruct (generate_embedding E (schemas.query request)) as [v|e]; [|discriminate].
    destruct (VectorStoreService.search C coll v _ _) as [|h hits] eqn:Hs;
      [discriminate|].
    intros _. exists cat, v. rewrite Hs.
    split; [reflexivity|]. split; [reflexivity|]. split; [discriminate|].
    destruct (generate_answer E _ _) as [[answer confidence]|e]; reflexivity.
  - unfold search.question_answer.
    destruct (models.categories db !! schemas.qa_category_id request) as [cat|];
      [|split; [reflexivity | discriminate]].
    split; [discriminate|].
    destruct (generate_embedding E (schemas.question request)) as [v|e]; [|discriminate].
    destruct (VectorStoreService.search C coll v _ _) as [|h hits] eqn:Hs;
      [discriminate|].
    intros _. exists cat, v. rewrite Hs.
    split; [reflexivity|]. split; [reflexivity|]. split; [discriminate|].
    destruct (answer_question E _ _) as [[answer confidence]|e]; reflexivity.
  - unfold search.find_passages.
    destruct (models.categories db !! schemas.fp_category_id request) as [cat|];
      [|split; [reflexivity | reflexivity]].
    split; [discriminate|].
    destruct (generate_embedding E (schemas.fp_query request)) as [v|e]; reflexivity.
Qed.

Lemma synthesis_needs_hits_witness :
  exists cat v,
    models.categories (fixtures.fresh_db "/uploads/f.txt" ".txt") !! 1 = Some cat
    /\ generate_embedding fixtures.unit_services "what is alpha?" = Ok v
    /\ VectorStoreService.search fixtures.memory_chroma
         fixtures_search.alpha_collection v 1 5 <> []
    /\ snd (search.search_query fixtures.unit_services fixtures.memory_chroma
              fixtures_search.alpha_query (fixtures.fresh_db "/uploads/f.txt" ".txt")
              fixtures_search.alpha_collection)
       = [CallEmbedding "what is alpha?"; CallVectorSearch 1 5;
          CallGenerateAnswer "what is alpha?"
            (map hit_text
               (VectorStoreService.search fixtures.memory_chroma
                  fixtures_search.alpha_collection v 1 5))].
Proof.
  apply (proj2 (proj1 (synthesis_needs_hits fixtures.unit_services
                         fixtures.memory_chroma
                         (fixtures.fresh_db "/uploads/f.txt" ".txt")
                         fixtures_search.alpha_collection)
                  fixtures_search.alpha_query)).
  vm_compute. reflexivity.
Defined.

(** X17: a failure of a service becomes a 500 whose detail is the
    endpoint's prefix followed by the service's message.  When the embedder
    fails the collection is not searched; when the answer service fails
    after a search with hits, the hits are not returned. *)
Theorem service_failures_are_500 :
  forall (E : Services) (C : Chroma) (db : models.database) (coll : collection),
    (forall request cat e,
        models.categories db !! schemas.category_id request = Some cat ->
        generate_embedding E (schemas.query request) = Raise e ->
        search.search_query E C request db coll
        = (HTTPException 500 ("Search error: " ++ e),
           [CallEmbedding (schemas.query request)]))
    /\ (forall request cat e,
        models.categories db !! schemas.qa_category_id request = Some cat ->
        generate_embedding E (schemas.question request) = Raise e ->
        search.question_answer E C request db coll
        = (HTTPException 500 ("Q&A error: " ++ e),
           [CallEmbedding (schemas.question request)]))
    /\ (forall request cat e,
        models.categories db !! schemas.fp_category_id request = Some cat ->
        generate_embedding E (schemas.fp_query request) = Raise e ->
        search.find_passages E C request db coll
        = (HTTPException 500 ("Find passages error: " ++ e),
           [CallEmbedding (schemas.fp_query request)]))
    /\ (forall request cat v e,
        models.categories db !! schemas.category_id request = Some cat ->
        generate_embedding E (schemas.query request) = Ok v ->
        VectorStoreService.search C coll v
          (schemas.category_id request) (schemas.top_k request) <> [] ->
        generate_answer E (schemas.query request)
          (map hit_text (VectorStoreService.search C coll v
                           (schemas.category_id request) (schemas.top_k request)))
        = Raise e ->
        exists calls,
          search.search_query E C request db coll
          = (HTTPException 500 ("Search error: " ++ e), calls))
    /\ (forall request cat v e,
        models.categories db !! schemas.qa_category_id request = Some cat ->
        generate_embedding E (schemas.question request) = Ok v ->
        VectorStoreService.search C coll v
          (schemas.qa_category_id request) (schemas.qa_top_k request) <> [] ->
        answer_question E (schemas.question request)
          (map hit_text (VectorStoreService.search C coll v
                           (schemas.qa_category_id request) (schemas.qa_top_k request)))
        = Raise e ->
        exists calls,
          search.question_answer E C request db coll
          = (HTTPException 500 ("Q&A error: " ++ e), calls)).
Proof.
  intros E C db coll. repeat split.
  - intros request cat e Hcat Hemb. unfold search.search_query.
    rewrite Hcat, Hemb. reflexivity.
  - intros request cat e Hcat Hemb. unfold search.question_answer.
    rewrite Hcat, Hemb. reflexivity.
  - intros request cat e Hcat Hemb. unfold search.find_passages.
    rewrite Hcat, Hemb. reflexivity.
  - intros request cat v e Hcat Hemb Hhits Hans. unfold search.search_query.
    rewrite Hcat, Hemb.
    destruct (VectorStoreService.search C coll v _ _) as [|h hits];
      [exfalso; apply Hhits; reflexivity|].
    rewrite Hans. eexists. reflexivity.
  - intros request cat v e Hcat Hemb Hhits Hans. unfold search.question_answer.
    rewrite Hcat, Hemb.
    destruct (VectorStoreService.search C coll v _ _) as [|h hits];
      [exfalso; apply Hhits; reflexivity|].
    rewrite Hans. eexists. reflexivity.
Qed.

Lemma service_failures_are_500_witness :
  search.search_query fixtures.failing_services fixtures.memory_chroma
    fixtures_search.alpha_query (fixtures.fresh_db "/uploads/f.txt" ".txt")
    fixtures_search.alpha_collection
  = (HTTPException 500 ("Search error: " ++ "embedding service unavailable"),
     [CallEmbedding "what is alpha?"]).
Proof.
  apply (proj1 (service_failures_are_500 fixtures.failing_services
                  fixtures.memory_chroma (fixtures.fresh_db "/uploads/f.txt" ".txt")
                  fixtures_search.alpha_collection)
           fixtures_search.alpha_query fixtures.docs_category).
  - vm_compute. reflexivity.
  - reflexivity.
Defined.

(** ** The vector store service *)

Module SearchShape.
Import VectorStoreService.

(** What [mapM] over the positions [0 .. n-1] returns. *)
Lemma mapM_positions {A} (f : nat -> option A) (n : nat) (l : list A) :
  mapM f (seq 0 n) = Some l ->
  length l = n /\ forall i x, l !! i = Some x -> f i = Some x.
Proof.
  intros H. apply mapM_Some_1 in H. split.
  - apply Forall2_length in H. rewrite length_seq in H. congruence.
  - intros i x Hx. destruct (Forall2_lookup_r _ _ _ _ _ H Hx) as (j & Hj & Hf).
    apply lookup_seq in Hj. destruct Hj as [-> _]. exact Hf.
Qed.

Lemma format_result_Some (r : query_result) (i : nat) (h : hit) :
  format_result r i = Some h ->
  at0 (ids r) i = Some (hit_chunk_id h)
  /\ at0 (documents r) i = Some (hit_text h)
  /\ at0 (metadatas r) i = Some (hit_metadata h)
  /\ match distances r with
     | Some ds => at0 ds i = Some (hit_distance h)
     | None => hit_distance h = 0%Q
     end.
Proof.
  unfold format_result.
  destruct (at0 (ids r) i) as [cid|]; [|discriminate].
  destruct (at0 (documents r) i) as [doc|]; [|discriminate].
  destruct (at0 (metadatas r) i) as [md|]; [|discriminate].
  cbn [mbind option_bind].
  destruct (distances r) as [ds|].
  - destruct (at0 ds i) as [dist|]; [|discriminate]. intros [= <-]. auto.
  - intros [= <-]. auto.
Qed.

End SearchShape.

(** X18: [VectorStoreService.search] never raises and is all or nothing.
    A failing query gives the empty list.  Otherwise the result is either
    empty or has one hit per id of the first id list, in order, the hit at
    position i holding the i-th id, document, metadata and distance (0.0
    when the result has no distances); one missing position empties the
    whole result. *)
Theorem search_is_all_or_nothing :
  forall (C : Chroma) (coll : collection) (v : vector) (category_id top_k : Z),
    (forall e, collection_query C coll v top_k category_id = Raise e ->
               VectorStoreService.search C coll v category_id top_k = [])
    /\ (forall r, collection_query C coll v top_k category_id = Ok r ->
          let hits := VectorStoreService.search C coll v category_id top_k in
          hits = []
          \/ (exists rest, ids r = (hit_chunk_id <$> hits) :: rest)
             /\ forall i h, hits !! i = Some h ->
                  VectorStoreService.at0 (documents r) i = Some (hit_text h)
                  /\ VectorStoreService.at0 (metadatas r) i = Some (hit_metadata h)
                  /\ match distances r with
                     | Some ds => VectorStoreService.at0 ds i = Some (hit_distance h)
                     | None => hit_distance h = 0%Q
                     end).
Proof.
  intros C coll v category_id top_k. split.
  - intros e He. apply (SearchFacts.search_read_error C coll v category_id top_k e He).
  - intros r Hr. cbv zeta. unfold VectorStoreService.search. rewrite Hr.
    destruct (ids r) as [|ids0 rest] eqn:Hids; [left; reflexivity|].
    destruct ids0 as [|id0 ids0]; [left; reflexivity|].
    destruct (mapM (VectorStoreService.format_result r) (seq 0 (length (id0 :: ids0))))
      as [hits|] eqn:Hm; [|left; reflexivity].
    right. apply SearchShape.mapM_positions in Hm. destruct Hm as [Hlen Hpos].
    split.
    + exists rest. f_equal. apply list_eq. intros i.
      rewrite list_lookup_fmap.
      destruct (hits !! i) as [h|] eqn:Hh.
      * apply Hpos, SearchShape.format_result_Some in Hh.
        destruct Hh as (Hid & _). rewrite Hids in Hid. cbn [VectorStoreService.at0] in Hid.
        rewrite Hid. reflexivity.
      * apply lookup_ge_None in Hh. cbn [fmap option_fmap option_map].
        apply lookup_ge_None. lia.
    + intros i h Hh. apply Hpos, SearchShape.format_result_Some in Hh.
      destruct Hh as (_ & Hd & Hmd & Hdist). auto.
Qed.

Lemma search_is_all_or_nothing_witness :
  VectorStoreService.search fixtures.broken_chroma fixtures_search.alpha_collection
    [1%Q] 1 5 = [].
Proof.
  apply (proj1 (search_is_all_or_nothing fixtures.broken_chroma
                  fixtures_search.alpha_collection [1%Q] 1 5)
           "collection unavailable").
  reflexivity.
Defined.

(** ** Summaries *)

(** X19: [summarize_category] hands the summarizer at most 50 texts: those
    of the first 50 chunks listed for the category, in listing order,
    together with the request's [max_length]; its summary and confidence
    are returned as they come and its failure becomes a 500.  A category
    with nothing listed gets the fixed answer with confidence 0 and no call
    to the summarizer. *)
Theorem summarize_caps_context_at_50 :
  forall (G : Summarizer) (A : ChromaAdmin) (db : models.database) (coll : collection)
         (request : schemas.SummarizeRequest) (cat : models.Category),
    models.categories db !! schemas.sum_category_id request = Some cat ->
    let listing := VectorStoreAdmin.get_all_chunks_by_category A coll
                     (schemas.sum_category_id request) in
    let r := summarize.summarize_category G A request db coll in
    (listing = [] ->
     r = (Response ("No documents found in this category.", 0%Q), None))
    /\ (listing <> [] ->
        exists texts,
          snd r = Some (texts, schemas.max_length request)
          /\ texts = listed_text <$> take 50 listing
          /\ (length texts <= 50)%nat
          /\ match summarize_documents G texts (schemas.max_length request) with
             | Ok sc => fst r = Response sc
             | Raise e => fst r = HTTPException 500 ("Summarization error: " ++ e)
             end).
Proof.
  intros G A db coll request cat Hcat. cbv zeta.
  unfold summarize.summarize_category. rewrite Hcat.
  destruct (VectorStoreAdmin.get_all_chunks_by_category A coll
              (schemas.sum_category_id request)) as [|c cs] eqn:Hl.
  - split; [reflexivity|]. intros H. exfalso. apply H. reflexivity.
  - split; [discriminate|]. intros _.
    exists (listed_text <$> take 50 (c :: cs)).
    unfold summarize.first_50. change (map ?f ?l) with (f <$> l).
    destruct (summarize_documents G (listed_text <$> take 50 (c :: cs))
                (schemas.max_length request)) as [[summary confidence]|e] eqn:Hs.
    + cbn [fst snd]. repeat split. rewrite length_fmap, length_take. lia.
    + cbn [fst snd]. repeat split. rewrite length_fmap, length_take. lia.
Qed.

Lemma summarize_caps_context_at_50_witness :
  let listing := VectorStoreAdmin.get_all_chunks_by_category
                   fixtures_search.memory_admin fixtures_search.alpha_collection 1 in
  let r := summarize.summarize_category fixtures_search.echo_summarizer
             fixtures_search.memory_admin
             {| schemas.sum_category_id := 1; schemas.max_length := Some 500 |}
             (fixtures.fresh_db "/uploads/f.txt" ".txt")
             fixtures_search.alpha_collection in
  (listing = [] ->
   r = (Response ("No documents found in this category.", 0%Q), None))
  /\ (listing <> [] ->
      exists texts,
        snd r = Some (texts, Some 500)
        /\ texts = listed_text <$> take 50 listing
        /\ (length texts <= 50)%nat
        /\ match summarize_documents fixtures_search.echo_summarizer texts (Some 500) with
           | Ok sc => fst r = Response sc
           | Raise e => fst r = HTTPException 500 ("Summarization error: " ++ e)
           end).
Proof.
  apply (summarize_caps_context_at_50 fixtures_search.echo_summarizer
           fixtures_search.memory_admin (fixtures.fresh_db "/uploads/f.txt" ".txt")
           fixtures_search.alpha_collection
           {| schemas.sum_category_id := 1; schemas.max_length := Some 500 |}
           fixtures.docs_category).
  vm_compute. reflexivity.
Defined.

(** ** Files *)

Module FilesMore.
Import files.

Lemma responses_Ok (db : models.database) (fs : list models.File)
    (rs : list schemas.FileListResponse) :
  responses db fs = Ok rs ->
  Forall2 (fun f r => file_response db f = Ok r) fs rs.
Proof.
  revert rs. induction fs as [|f fs IH]; intros rs; simpl.
  - intros [= <-]. constructor.
  - destruct (file_response db f) as [r|] eqn:Hr; simpl; [|discriminate].
    destruct (responses db fs) as [rs'|]; simpl; [|discriminate].
    intros [= <-]. constructor; [exact Hr | apply IH; reflexivity].
Qed.

Lemma responses_total (db : models.database) (fs : list models.File) :
  Forall (fun f => is_Some (models.categories db !! models.category_id f)) fs ->
  exists rs, responses db fs = Ok rs.
Proof.
  induction 1 as [|f fs [c Hc] _ [rs IH]]; [eexists; reflexivity|].
  simpl. unfold file_response at 1. rewrite Hc. cbn [rbind]. rewrite IH.
  eexists. reflexivity.
Qed.

Lemma file_response_fields (db : models.database) (f : models.File)
    (r : schemas.FileListResponse) :
  file_response db f = Ok r ->
  schemas.fl_id r = models.id f /\ schemas.fl_category_id r = models.category_id f
  /\ schemas.fl_status r = models.status f
  /\ schemas.fl_total_chunks r = models.total_chunks f.
Proof.
  unfold file_response.
  destruct (models.categories db !! models.category_id f); [|discriminate].
  intros [= <-]. auto.
Qed.

Lemma query_files_nonzero (c : Z) (db : models.database) :
  c <> 0 ->
  query_files (Some c) db
  = filter (fun f => Some (models.category_id f) = Some c)
           (map snd (map_to_list (models.files db))).
Proof.
  intros Hc. unfold query_files, truthy_id.
  destruct (c =? 0)%Z eqn:E; [apply Z.eqb_eq in E; contradiction | reflexivity].
Qed.

End FilesMore.

(** X20: with a category id other than 0, [list_files] lists exactly the
    files of that category, each once, with the status and chunk count of
    its row; and whatever the filter, it returns a list if every file
    listed has its category row, raising only on a file without one. *)
Theorem list_files_lists_the_category :
  forall (db : models.database) (category_id : Z),
    category_id <> 0 ->
    (forall rs, files.list_files (Some category_id) db = Ok rs ->
        Forall (fun r => schemas.fl_category_id r = category_id) rs
        /\ Forall2 (fun f r =>
                      schemas.fl_id r = models.id f
                      /\ schemas.fl_status r = models.status f
                      /\ schemas.fl_total_chunks r = models.total_chunks f)
                   (filter (fun f => models.category_id f = category_id)
                           (map snd (map_to_list (models.files db))))
                   rs)
    /\ ((forall fid f, models.files db !! fid = Some f ->
           is_Some (models.categories db !! models.category_id f)) ->
        exists rs, files.list_files (Some category_id) db = Ok rs).
Proof.
  intros db c Hc. unfold files.list_files.
  rewrite (FilesMore.query_files_nonzero c db Hc).
  assert (Hfilter :
    filter (fun f => Some (models.category_id f) = Some c)
           (map snd (map_to_list (models.files db)))
    = filter (fun f => models.category_id f = c)
             (map snd (map_to_list (models.files db)))).
  { apply list_filter_iff. intros f. split; congruence. }
  rewrite Hfilter. split.
  - intros rs Hrs. apply FilesMore.responses_Ok in Hrs.
    split.
    + apply Forall_forall. intros r Hr.
      apply list_elem_of_lookup in Hr. destruct Hr as [i Hi].
      destruct (Forall2_lookup_r _ _ _ _ _ Hrs Hi) as (f & Hf & Hfr).
      apply FilesMore.file_response_fields in Hfr. destruct Hfr as (_ & -> & _).
      apply list_elem_of_lookup_2, list_elem_of_filter in Hf. tauto.
    + eapply Forall2_impl; [exact Hrs|]. intros f r Hfr.
      apply FilesMore.file_response_fields in Hfr. tauto.
  - intros Hint. apply FilesMore.responses_total.
    apply Forall_forall. intros f Hf.
    apply list_elem_of_filter in Hf. destruct Hf as [_ Hf].
    apply list_elem_of_fmap in Hf. destruct Hf as ([fid f'] & -> & Hf).
    apply elem_of_map_to_list in Hf. apply (Hint fid f' Hf).
Qed.

Lemma list_files_lists_the_category_witness :
  exists rs, files.list_files (Some 1) (fixtures.fresh_db "/uploads/f.txt" ".txt")
             = Ok rs.
Proof.
  apply (proj2 (list_files_lists_the_category
                  (fixtures.fresh_db "/uploads/f.txt" ".txt") 1 ltac:(discriminate))).
  intros fid f Hf. unfold fixtures.fresh_db in Hf. cbn [models.files] in Hf.
  apply lookup_singleton_Some in Hf. destruct Hf as [_ <-].
  eexists. vm_compute. reflexivity.
Defined.

Module DeleteFacts.

Lemma filter_complement_nil {X} (Q : X -> Prop) `{forall x, Decision (Q x)}
    (l : list X) :
  filter Q (filter (fun x => ~ Q x) l) = [].
Proof.
  induction l as [|x l IH]; [reflexivity|].
  rewrite (filter_cons (fun x => ~ Q x)).
  destruct (decide (~ Q x)) as [Hx|Hx]; [|exact IH].
  rewrite filter_cons, decide_False by exact Hx. exact IH.
Qed.

Lemma filter_filter_other {X} (Q R : X -> Prop) `{forall x, Decision (Q x)}
    `{forall x, Decision (R x)} (l : list X) :
  (forall x, R x -> ~ Q x) ->
  filter R (filter (fun x => ~ Q x) l) = filter R l.
Proof.
  intros HRQ. induction l as [|x l IH]; [reflexivity|].
  rewrite (filter_cons (fun x => ~ Q x)), (filter_cons R x l).
  destruct (decide (~ Q x)) as [Hx|Hx].
  - rewrite filter_cons. destruct (decide (R x)); [f_equal|]; exact IH.
  - destruct (decide (R x)) as [Hr|Hr]; [|exact IH].
    exfalso. apply Hx, HRQ, Hr.
Qed.

End DeleteFacts.

(** X21: deleting a file that exists removes its row, all [Chunk] rows
    with its id and its stored file, and keeps every other file's row and
    chunks as they were.  When the collection's delete returns, no entry of
    the file is left and the entries of other files are kept; when it fails
    the failure is ignored: the rows are deleted all the same and the
    file's entries stay in the collection. *)
Theorem delete_file_removes_rows :
  forall (A : ChromaAdmin) (file_id : Z) (file : models.File)
         (db : models.database) (o : outside),
    models.files db !! file_id = Some file ->
    exists db' o',
      files_api.delete_file A file_id db o
      = (Response ("File deleted successfully", file_id), (db', o'))
      /\ models.files db' !! file_id = None
      /\ (forall other, other <> file_id ->
            models.files db' !! other = models.files db !! other)
      /\ task_spec.chunk_rows_of file_id db' = []
      /\ (forall other, other <> file_id ->
            task_spec.chunk_rows_of other db' = task_spec.chunk_rows_of other db)
      /\ models.categories db' = models.categories db
      /\ (models.file_path file ∉ stored o')
      /\ (forall p, p <> models.file_path file -> (p ∈ stored o') <-> (p ∈ stored o))
      /\ dispatched o' = dispatched o
      /\ (collection_delete A (vectors o) "file_id" file_id = None ->
          vectors o' = vectors o)
      /\ (delete_contract A ->
          collection_delete A (vectors o) "file_id" file_id <> None ->
          task_spec.entries_for file_id (vectors o') = []
          /\ forall other, other <> file_id ->
               task_spec.entries_for other (vectors o')
               = task_spec.entries_for other (vectors o)).
Proof.
  intros A file_id file db o Hfile.
  unfold files_api.delete_file. rewrite Hfile.
  unfold VectorStoreAdmin.delete_by_file_id.
  destruct (collection_delete A (vectors o) "file_id" file_id) as [coll'|] eqn:Hdel.
  - eexists _, _. split; [reflexivity|].
    split; [apply lookup_delete_eq|].
    split; [intros other Hne; apply lookup_delete_ne; congruence|].
    split.
    { unfold task_spec.chunk_rows_of, files_api.db_delete_file. cbn [models.chunks].
      apply DeleteFacts.filter_complement_nil. }
    split.
    { intros other Hne. unfold task_spec.chunk_rows_of, files_api.db_delete_file.
      cbn [models.chunks]. apply DeleteFacts.filter_filter_other.
      intros c Hc. congruence. }
    split; [reflexivity|]. cbn [stored vectors dispatched].
    split.
    { case_decide; [|assumption].
      rewrite elem_of_difference, elem_of_singleton. tauto. }
    split.
    { intros p Hp. case_decide; [|tauto].
      rewrite elem_of_difference, elem_of_singleton. tauto. }
    split; [reflexivity|]. split; [discriminate|].
    intros Hcontract _. rewrite (Hcontract _ _ _ _ Hdel).
    unfold task_spec.entries_for. split.
    + apply DeleteFacts.filter_complement_nil.
    + intros other Hne. apply DeleteFacts.filter_filter_other.
      intros e He. rewrite He. congruence.
  - eexists _, _. split; [reflexivity|].
    split; [apply lookup_delete_eq|].
    split; [intros other Hne; apply lookup_delete_ne; congruence|].
    split.
    { unfold task_spec.chunk_rows_of, files_api.db_delete_file. cbn [models.chunks].
      apply DeleteFacts.filter_complement_nil. }
    split.
    { intros other Hne. unfold task_spec.chunk_rows_of, files_api.db_delete_file.
      cbn [models.chunks]. apply DeleteFacts.filter_filter_other.
      intros c Hc. congruence. }
    split; [reflexivity|]. cbn [stored vectors dispatched].
    split.
    { case_decide; [|assumption].
      rewrite elem_of_difference, elem_of_singleton. tauto. }
    split.
    { intros p Hp. case_decide; [|tauto].
      rewrite elem_of_difference, elem_of_singleton. tauto. }
    split; [reflexivity|]. split; [reflexivity|].
    intros _ Hsome. exfalso. apply Hsome. reflexivity.
Qed.

Lemma delete_file_removes_rows_witness :
  exists db' o',
    files_api.delete_file fixtures_search.memory_admin 7
      (fixtures.fresh_db "/uploads/f.txt" ".txt")
      {| stored := {[ "/uploads/f.txt" ]};
         vectors := fixtures_search.alpha_collection; dispatched := [7] |}
    = (Response ("File deleted successfully", 7), (db', o'))
    /\ models.files db' !! 7 = None
    /\ task_spec.chunk_rows_of 7 db' = []
    /\ ("/uploads/f.txt" ∉ stored o')
    /\ task_spec.entries_for 7 (vectors o') = [].
Proof.
  destruct (delete_file_removes_rows fixtures_search.memory_admin 7
              (models.new_file 7 "u_f" "f" "/uploads/f.txt" ".txt" 10 1 1000)
              (fixtures.fresh_db "/uploads/f.txt" ".txt")
              {| stored := {[ "/uploads/f.txt" ]};
                 vectors := fixtures_search.alpha_collection; dispatched := [7] |})
    as (db' & o' & Heq & Hgone & _ & Hrows & _ & _ & Hpath & _ & _ & _ & Hentries).
  - vm_compute. reflexivity.
  - exists db', o'. split; [exact Heq|]. split; [exact Hgone|].
    split; [exact Hrows|]. split; [exact Hpath|].
    apply Hentries.
    + intros coll key value coll' [= <-]. reflexivity.
    + discriminate.
Defined.

(** ** Uploads *)


Example upload_notes_txt :
  let r := files_api.upload_file fixtures_search.simple_lib default_settings
             "0123abcd" true 8 "task-1" 1000
             {| upload_filename := "notes.txt"; upload_size := 120 |} 1
             (fixtures.fresh_db "/uploads/f.txt" ".txt") fixtures_search.no_outside in
  fst r = Response (8, "notes.txt", "task-1", "pending",
                    "File uploaded successfully. Processing started.")
  /\ (models.file_path <$> models.files (fst (snd r)) !! 8)
     = Some "./uploads/0123abcd_notes.txt"
  /\ (models.file_type <$> models.files (fst (snd r)) !! 8) = Some ".txt"
  /\ dispatched (snd (snd r)) = [8].
Proof. cbv zeta. repeat split; vm_compute; reflexivity. Qed.



(** ** Categories *)

Module CategoryFacts.
Import categories_api.

Lemma name_taken_true (name : string) (db : models.database) :
  name_taken name db = true <->
  exists i c, models.categories db !! i = Some c /\ models.name c = name.
Proof.
  unfold name_taken. rewrite bool_decide_eq_true, Exists_exists. split.
  - intros (c & Hc & Hn). apply list_elem_of_fmap in Hc.
    destruct Hc as ([i c'] & -> & Hc). apply elem_of_map_to_list in Hc. eauto.
  - intros (i & c & Hc & Hn). exists c. split; [|exact Hn].
    apply list_elem_of_fmap. exists (i, c). split; [reflexivity|].
    apply elem_of_map_to_list, Hc.
Qed.

Lemma name_taken_false (name : string) (db : models.database) :
  name_taken name db = false ->
  forall i c, models.categories db !! i = Some c -> models.name c <> name.
Proof.
  intros Hf i c Hc Hn.
  assert (Ht : name_taken name db = true) by (apply name_taken_true; eauto).
  congruence.
Qed.

Lemma count_files_none (cid : Z) (db : models.database) :
  (forall fid f, models.files db !! fid = Some f -> models.category_id f <> cid) ->
  count_files cid db = 0.
Proof.
  intros Hnone. unfold count_files.
  replace (filter (fun f => models.category_id f = cid)
                  (map snd (map_to_list (models.files db)))) with (@nil models.File);
    [reflexivity|].
  symmetry. apply elem_of_nil_inv. intros f Hf.
  apply list_elem_of_filter in Hf. destruct Hf as [Hc Hf].
  apply list_elem_of_fmap in Hf. destruct Hf as ([fid f'] & -> & Hf).
  apply elem_of_map_to_list in Hf. exact (Hnone fid f' Hf Hc).
Qed.

End CategoryFacts.

(** X24: creating a category keeps category names unique and touches no
    file and no chunk.  A name already in use is answered 400 "Category
    already exists" and nothing changes; otherwise the row is added under the
    new id, the other rows stay, and the response carries the new id, the
    name and a file count that is 0 when no file refers to the new id. *)
Theorem create_category_keeps_names_unique :
  forall (new_id : Z) (category : categories_api.CategoryCreate)
         (db : models.database),
    names_unique db ->
    models.categories db !! new_id = None ->
    let r := categories_api.create_category new_id category db in
    names_unique (snd r)
    /\ models.files (snd r) = models.files db
    /\ models.chunks (snd r) = models.chunks db
    /\ (categories_api.name_taken (categories_api.cc_name category) db = true ->
        r = (HTTPException 400 "Category already exists", db))
    /\ (categories_api.name_taken (categories_api.cc_name category) db = false ->
        exists resp,
          fst r = Response resp
          /\ categories_api.cr_id resp = new_id
          /\ categories_api.cr_name resp = categories_api.cc_name category
          /\ categories_api.cr_description resp
             = categories_api.cc_description category
          /\ (models.name <$> models.categories (snd r) !! new_id)
             = Some (categories_api.cc_name category)
          /\ (forall other, other <> new_id ->
                models.categories (snd r) !! other = models.categories db !! other)
          /\ ((forall fid f, models.files db !! fid = Some f ->
                             models.category_id f <> new_id) ->
              categories_api.file_count resp = 0)).
Proof.
  intros new_id category db Huniq Hfresh. cbv zeta.
  unfold categories_api.create_category.
  destruct (categories_api.name_taken (categories_api.cc_name category) db) eqn:Htaken.
  - cbn [fst snd]. repeat split; try assumption; try reflexivity. discriminate.
  - cbn [fst snd models.files models.chunks models.categories].
    pose proof (CategoryFacts.name_taken_false _ _ Htaken) as Hnew.
    split.
    { intros i j ci cj Hi Hj Hn. cbn [models.categories] in Hi, Hj.
      destruct (decide (i = new_id)) as [->|Hi'];
        destruct (decide (j = new_id)) as [->|Hj']; [reflexivity|..].
      - rewrite lookup_insert_eq in Hi. injection Hi as <-.
        rewrite lookup_insert_ne in Hj by congruence.
        exfalso. apply (Hnew j cj Hj). cbn [models.name] in Hn. congruence.
      - rewrite lookup_insert_eq in Hj. injection Hj as <-.
        rewrite lookup_insert_ne in Hi by congruence.
        exfalso. apply (Hnew i ci Hi). cbn [models.name] in Hn. congruence.
      - rewrite lookup_insert_ne in Hi by congruence.
        rewrite lookup_insert_ne in Hj by congruence.
        apply (Huniq i j ci cj Hi Hj Hn). }
    split; [reflexivity|]. split; [reflexivity|]. split; [discriminate|].
    intros _. eexists. split; [reflexivity|].
    cbn [categories_api.response_of categories_api.cr_id categories_api.cr_name
         categories_api.cr_description categories_api.file_count
         models.name models.description].
    split; [reflexivity|]. split; [reflexivity|]. split; [reflexivity|].
    split; [rewrite lookup_insert_eq; reflexivity|].
    split; [intros other Hne; apply lookup_insert_ne; congruence|].
    intros Hnone. apply CategoryFacts.count_files_none. exact Hnone.
Qed.

Lemma create_category_keeps_names_unique_witness :
  let r := categories_api.create_category 2
             {| categories_api.cc_name := "docs";
                categories_api.cc_description := None |}
             (fixtures.fresh_db "/uploads/f.txt" ".txt") in
  names_unique (snd r)
  /\ r = (HTTPException 400 "Category already exists",
          fixtures.fresh_db "/uploads/f.txt" ".txt").
Proof.
  cbv zeta.
  destruct (create_category_keeps_names_unique 2
              {| categories_api.cc_name := "docs";
                 categories_api.cc_description := None |}
              (fixtures.fresh_db "/uploads/f.txt" ".txt"))
    as (Hu & _ & _ & Htaken & _).
  - intros i j ci cj Hi Hj _. unfold fixtures.fresh_db in Hi, Hj.
    cbn [models.categories] in Hi, Hj.
    apply lookup_singleton_Some in Hi, Hj. destruct Hi as [<- _], Hj as [<- _].
    reflexivity.
  - vm_compute. reflexivity.
  - split; [exact Hu|]. apply Htaken. vm_compute. reflexivity.
Defined.

(** X25: deleting a category that exists removes its row, every file of
    the category and every chunk of those files, and nothing else: the
    other categories, the files of other categories and their chunks stay.
    When the collection's delete returns, no entry of the category is left;
    when it fails the failure is ignored and the entries stay. *)
Theorem delete_category_cascades :
  forall (A : ChromaAdmin) (category_id : Z) (cat : models.Category)
         (db : models.database) (coll : collection),
    models.categories db !! category_id = Some cat ->
    exists db' coll',
      categories_api.delete_category A category_id db coll
      = (Response ("Category deleted successfully", category_id), (db', coll'))
      /\ models.categories db' !! category_id = None
      /\ (forall other, other <> category_id ->
            models.categories db' !! other = models.categories db !! other)
      /\ (forall fid f,
            models.files db' !! fid = Some f
            <-> models.files db !! fid = Some f /\ models.category_id f <> category_id)
      /\ (forall c,
            c ∈ models.chunks db'
            <-> c ∈ models.chunks db
                /\ forall f, models.files db !! models.file_id c = Some f ->
                             models.category_id f <> category_id)
      /\ (collection_delete A coll "category_id" category_id = None -> coll' = coll)
      /\ (delete_contract A ->
          collection_delete A coll "category_id" category_id <> None ->
          forall e, e ∈ coll'
                    <-> e ∈ coll
                        /\ ve_metadata e !! "category_id" <> Some (PInt category_id)).
Proof.
  intros A cid cat db coll Hcat.
  unfold categories_api.delete_category. rewrite Hcat.
  unfold VectorStoreAdmin.delete_by_category_id.
  assert (Hfiles : forall fid f,
             models.files (categories_api.db_delete_category cid db) !! fid = Some f
             <-> models.files db !! fid = Some f /\ models.category_id f <> cid).
  { intros fid f. unfold categories_api.db_delete_category. cbn [models.files].
    rewrite map_lookup_filter_Some. reflexivity. }
  assert (Hchunks : forall c,
             c ∈ models.chunks (categories_api.db_delete_category cid db)
             <-> c ∈ models.chunks db
                 /\ forall f, models.files db !! models.file_id c = Some f ->
                              models.category_id f <> cid).
  { intros c. unfold categories_api.db_delete_category. cbn [models.chunks].
    rewrite list_elem_of_filter. split.
    - intros [[[f Hf]|Hnone] Hc]; (split; [exact Hc|]).
      + apply map_lookup_filter_Some in Hf. destruct Hf as [Hf Hne].
        intros f' Hf'. rewrite Hf in Hf'. injection Hf' as <-. exact Hne.
      + intros f Hf. rewrite Hf in Hnone. discriminate Hnone.
    - intros [Hc Hall]. split; [|exact Hc].
      destruct (models.files db !! models.file_id c) as [f|] eqn:Hf; [left|right; reflexivity].
      exists f. apply map_lookup_filter_Some. split; [exact Hf|].
      apply Hall. reflexivity. }
  destruct (collection_delete A coll "category_id" cid) as [coll1|] eqn:Hdel.
  - eexists _, _. split; [reflexivity|].
    split; [apply lookup_delete_eq|].
    split; [intros other Hne; apply lookup_delete_ne; congruence|].
    split; [exact Hfiles|]. split; [exact Hchunks|].
    split; [discriminate|].
    intros Hcontract _ e. rewrite (Hcontract _ _ _ _ Hdel).
    rewrite list_elem_of_filter. tauto.
  - eexists _, _. split; [reflexivity|].
    split; [apply lookup_delete_eq|].
    split; [intros other Hne; apply lookup_delete_ne; congruence|].
    split; [exact Hfiles|]. split; [exact Hchunks|].
    split; [reflexivity|].
    intros _ Hsome. exfalso. apply Hsome. reflexivity.
Qed.

Lemma delete_category_cascades_witness :
  exists db' coll',
    categories_api.delete_category fixtures_search.memory_admin 1
      (fixtures.fresh_db "/uploads/f.txt" ".txt") fixtures_search.alpha_collection
    = (Response ("Category deleted successfully", 1), (db', coll'))
    /\ models.categories db' !! 1 = None
    /\ models.files db' !! 7 = None
    /\ coll' = [].
Proof.
  destruct (delete_category_cascades fixtures_search.memory_admin 1
              fixtures.docs_category (fixtures.fresh_db "/uploads/f.txt" ".txt")
              fixtures_search.alpha_collection)
    as (db' & coll' & Heq & Hgone & _ & Hfiles & _ & _ & _).
  - vm_compute. reflexivity.
  - exists db', coll'. split; [exact Heq|]. split; [exact Hgone|].
    split.
    + destruct (models.files db' !! 7) as [f|] eqn:Hf; [exfalso|reflexivity].
      apply Hfiles in Hf. destruct Hf as [Hf Hne].
      unfold fixtures.fresh_db in Hf. cbn [models.files] in Hf.
      apply lookup_singleton_Some in Hf. destruct Hf as [_ <-].
      apply Hne. reflexivity.
    + vm_compute in Heq. injection Heq as _ <-. reflexivity.
Defined.

(** X26: the file count shown for a category is the number of files that
    [list_files] lists for it: [get_category] answers with the same
    response as the one in [list_categories], which holds each category
    once, and for an id other than 0 its [file_count] is the length of the
    file listing filtered by that id. *)
Theorem category_count_matches_file_listing :
  forall (db : models.database) (category_id : Z) (c : models.Category),
    models.categories db !! category_id = Some c ->
    exists r,
      categories_api.get_category category_id db = Response r
      /\ r ∈ categories_api.list_categories db
      /\ categories_api.cr_id r = category_id
      /\ NoDup (categories_api.cr_id <$> categories_api.list_categories db)
      /\ (category_id <> 0 ->
          categories_api.file_count r
          = Z.of_nat (length (files.query_files (Some category_id) db))).
Proof.
  intros db cid c Hc. exists (categories_api.response_of cid c db).
  unfold categories_api.get_category. rewrite Hc.
  split; [reflexivity|]. split.
  { unfold categories_api.list_categories. change (map ?f ?l) with (f <$> l).
    apply list_elem_of_fmap. exists (cid, c). split; [reflexivity|].
    apply elem_of_map_to_list, Hc. }
  split; [reflexivity|]. split.
  { unfold categories_api.list_categories. change (map ?f ?l) with (f <$> l).
    rewrite <- list_fmap_compose.
    rewrite (list_fmap_ext _ fst (map_to_list (models.categories db)))
      by (intros i [k x] _; reflexivity).
    apply NoDup_fst_map_to_list. }
  intros Hne. cbn [categories_api.response_of categories_api.file_count].
  unfold categories_api.count_files.
  rewrite (FilesMore.query_files_nonzero cid db Hne).
  do 2 f_equal. apply list_filter_iff. intros f. split; congruence.
Qed.

Lemma category_count_matches_file_listing_witness :
  exists r,
    categories_api.get_category 1 (fixtures.fresh_db "/uploads/f.txt" ".txt")
    = Response r
    /\ r ∈ categories_api.list_categories (fixtures.fresh_db "/uploads/f.txt" ".txt")
    /\ categories_api.cr_id r = 1
    /\ NoDup (categories_api.cr_id
                <$> categories_api.list_categories
                      (fixtures.fresh_db "/uploads/f.txt" ".txt"))
    /\ (1 <> 0 ->
        categories_api.file_count r
        = Z.of_nat (length (files.query_files (Some 1)
                              (fixtures.fresh_db "/uploads/f.txt" ".txt")))).
Proof.
  apply (category_count_matches_file_listing
           (fixtures.fresh_db "/uploads/f.txt" ".txt") 1 fixtures.docs_category).
  vm_compute. reflexivity.
Defined.

(** ** What a poller sees *)



(** X28: [CategoryCreate] accepts a name exactly when it has between 1 and
    100 characters, and keeps it unchanged; a description left out is
    [None]. *)
Theorem category_name_length_bounds :
  forall (name : string) (description : option (option string)),
    (1 <= String.length name <= 100)%nat
    <-> exists c,
          categories_api.validate_CategoryCreate (Some name) description = Ok c
          /\ categories_api.cc_name c = name
          /\ (description = None -> categories_api.cc_description c = None).
Proof.
  intros name description. unfold categories_api.validate_CategoryCreate.
  destruct (String.length name <? 1)%nat eqn:Hlo.
  - apply Nat.ltb_lt in Hlo. split; [lia | intros (c & Hc & _); discriminate Hc].
  - apply Nat.ltb_ge in Hlo.
    destruct (100 <? String.length name)%nat eqn:Hhi.
    + apply Nat.ltb_lt in Hhi. split; [lia | intros (c & Hc & _); discriminate Hc].
    + apply Nat.ltb_ge in Hhi. split; [|lia].
      intros _. eexists. split; [reflexivity|]. split; [reflexivity|].
      intros ->. reflexivity.
Qed.
